(** * jahia2wp: the box transformation engine and the htaccess extractor

    A shallow embedding of [src/parser/box.py] (class [Box]) and of
    [extract_htaccess_part] from [src/manage_redirections.py], together with
    the properties of them that the specification states.

    Python values are embedded as follows: [str] is [string]; a raised
    exception is the [Raise] branch of [result]; a [dict] whose iteration
    order or key types matter is an association list, a [dict] used as a
    lookup table is a [gmap]; an object whose attributes are assigned by its
    methods is a record threaded through a state-and-exception monad. *)

From Stdlib Require Import ZArith Lia Ascii String List Bool.
From stdpp Require Import gmap strings list.

Open Scope string_scope.
Open Scope list_scope.

Set Warnings "-register-all".

#[global] Arguments String.append !s1 s2 : simpl nomatch.

(* ===================================================================== *)
(** * Part I. Definitions                                                 *)
(* ===================================================================== *)

(** ** Exceptions *)

Inductive exn : Type :=
| IndexError
| KeyError
| TypeError
| AttributeError
| Exception (msg : string).

Inductive result (A : Type) : Type :=
| Ok (a : A)
| Raise (e : exn).

Arguments Ok {A} a.
Arguments Raise {A} e.

Definition rbind {A B : Type} (r : result A) (k : A -> result B) : result B :=
  match r with
  | Ok a => k a
  | Raise e => Raise e
  end.

Notation "'do' x <- e ; k" := (rbind e (fun x => k))
  (at level 10, x name, e at level 100, k at level 200).

Definition is_ok {A : Type} (r : result A) : bool :=
  match r with Ok _ => true | Raise _ => false end.

(** [l[i]] on a Python list. *)
Definition index {A : Type} (l : list A) (i : nat) : result A :=
  match nth_error l i with
  | Some a => Ok a
  | None => Raise IndexError
  end.

(** [l[-1]] on a Python list. *)
Definition index_last {A : Type} (l : list A) : result A :=
  index (rev l) 0.

(** ** Python strings *)

Module PyStr.

Definition LF : string := String (ascii_of_nat 10) EmptyString.
Definition DQ : string := String (ascii_of_nat 34) EmptyString.

Fixpoint startswith (p s : string) : bool :=
  match p, s with
  | EmptyString, _ => true
  | String a p', String b s' => Ascii.eqb a b && startswith p' s'
  | String _ _, EmptyString => false
  end.

Fixpoint stake (n : nat) (s : string) : string :=
  match n, s with
  | S k, String c s' => String c (stake k s')
  | _, _ => EmptyString
  end.

Fixpoint sdrop (n : nat) (s : string) : string :=
  match n, s with
  | S k, String _ s' => sdrop k s'
  | _, _ => s
  end.

(** [s.find(sub)], with [None] for Python's [-1]. *)
Fixpoint find (sub s : string) : option nat :=
  if startswith sub s then Some 0
  else match s with
       | EmptyString => None
       | String _ s' => option_map S (find sub s')
       end.

(** [sub in s]. *)
Definition contains (sub s : string) : bool :=
  match find sub s with Some _ => true | None => false end.

(** [s.rfind(sub)], with [None] for Python's [-1]. *)
Fixpoint rfind (sub s : string) : option nat :=
  match s with
  | EmptyString => if startswith sub s then Some 0 else None
  | String _ s' =>
      match rfind sub s' with
      | Some k => Some (S k)
      | None => if startswith sub s then Some 0 else None
      end
  end.

(** [s.split(sep)] for a non-empty [sep]: a left-to-right scan that closes
    the current piece at each occurrence of [sep] and resumes after it.
    [skip] counts the characters of a matched separator still to pass. *)
Fixpoint split_scan (sep cur : string) (skip : nat) (s : string) : list string :=
  match s with
  | EmptyString => [cur]
  | String c s' =>
      match skip with
      | S k => split_scan sep cur k s'
      | O =>
          if startswith sep s
          then cur :: split_scan sep EmptyString (String.length sep - 1) s'
          else split_scan sep (cur +:+ String c EmptyString) 0 s'
      end
  end.

Definition split (sep s : string) : list string :=
  split_scan sep EmptyString 0 s.

(** The text of [t] before the first occurrence of [sep], or all of [t]. *)
Definition cut_at (sep t : string) : string :=
  match find sep t with
  | Some n => stake n t
  | None => t
  end.

(** [s.count(sub)] for a non-empty [sub]. *)
Definition count (sub s : string) : nat := length (split sub s) - 1.

(** [sep.join(l)]. *)
Definition join (sep : string) (l : list string) : string :=
  String.concat sep l.

(** [a < b] on [str]: lexicographic on code units. *)
Definition lt (a b : string) : bool := String.ltb a b.

End PyStr.

(* ===================================================================== *)
(** ** xml.dom.minidom *)

Module Dom.

(** A DOM node: an element with its tag name, attributes and children, or
    a text node. *)
Inductive node : Type :=
| Element (tagName : string) (attributes : list (string * string))
          (childNodes : list node)
| Text (data : string).

Definition childNodes (n : node) : list node :=
  match n with
  | Element _ _ cs => cs
  | Text _ => []
  end.

Definition is_element (n : node) : bool :=
  match n with Element _ _ _ => true | Text _ => false end.

Definition tagName (n : node) : string :=
  match n with Element t _ _ => t | Text _ => "" end.

Fixpoint assoc (k : string) (l : list (string * string)) : option string :=
  match l with
  | [] => None
  | (k', v) :: l' => if String.eqb k k' then Some v else assoc k l'
  end.

(** [element.getAttribute(name)]: the empty string when absent. *)
Definition getAttribute (n : node) (name : string) : string :=
  match n with
  | Element _ attrs _ => default "" (assoc name attrs)
  | Text _ => ""
  end.

Definition named (name : string) (n : node) : bool :=
  match n with
  | Element t _ _ => String.eqb name "*" || String.eqb t name
  | Text _ => false
  end.

(** [element.getElementsByTagName(name)]: the descendant elements of that
    name, in document order. *)
Fixpoint getElementsByTagName (n : node) (name : string) : list node :=
  match n with
  | Text _ => []
  | Element _ _ cs =>
      flat_map (fun c => (if named name c then [c] else [])
                           ++ getElementsByTagName c name) cs
  end.

End Dom.

(* ===================================================================== *)
(** ** parser/box.py *)

Module BoxPy.
Import PyStr Dom.

(** *** Collaborators *)

(** Modelled from the spec: [Utils.get_tag_attribute], of [utils.py], which
    is not among the sources. "getTagAttribute(element, tagName, attrName)
    -> string (empty if absent)": the attribute of the first descendant of
    that tag name. *)
Definition get_tag_attribute (dom : node) (tag attribute : string) : string :=
  match getElementsByTagName dom tag with
  | [] => ""
  | e :: _ => getAttribute e attribute
  end.

(** A key of a dict that is later sorted: the value of a sort field, or a
    running index. *)
Inductive sort_key : Type :=
| KStr (s : string)
| KInt (n : nat).

Definition key_eqb (a b : sort_key) : bool :=
  match a, b with
  | KStr x, KStr y => String.eqb x y
  | KInt x, KInt y => Nat.eqb x y
  | _, _ => false
  end.

(** [a < b] in Python 3: defined within [str] and within [int], a
    [TypeError] across them. *)
Definition key_lt (a b : sort_key) : result bool :=
  match a, b with
  | KStr x, KStr y => Ok (PyStr.lt x y)
  | KInt x, KInt y => Ok (Nat.ltb x y)
  | _, _ => Raise TypeError
  end.

(** [d[k] = v]: a new key goes last, an existing key keeps its place. *)
Fixpoint dict_set {V : Type} (k : sort_key) (v : V) (d : list (sort_key * V))
  : list (sort_key * V) :=
  match d with
  | [] => [(k, v)]
  | (k', v') :: d' =>
      if key_eqb k k' then (k, v) :: d' else (k', v') :: dict_set k v d'
  end.

(** The list sort of Python, as far as its result goes: a stable sort that
    only ever asks [x < y], so any exception of [<] comes out. *)
Fixpoint insert_sorted {A : Type} (lt : A -> A -> result bool) (x : A) (l : list A)
  : result (list A) :=
  match l with
  | [] => Ok [x]
  | y :: l' =>
      do b <- lt x y;
      if b then Ok (x :: l)
      else do r <- insert_sorted lt x l'; Ok (y :: r)
  end.

Fixpoint sort_into {A : Type} (lt : A -> A -> result bool) (acc l : list A)
  : result (list A) :=
  match l with
  | [] => Ok acc
  | x :: l' => do acc' <- insert_sorted lt x acc; sort_into lt acc' l'
  end.

(** [sorted(l, reverse=reverse)]. *)
Definition sorted {A : Type} (lt : A -> A -> result bool) (l : list A) (reverse : bool)
  : result (list A) :=
  if reverse
  then do r <- sort_into lt [] (rev l); Ok (rev r)
  else sort_into lt [] l.

Definition key_is_str (k : sort_key) : bool :=
  match k with KStr _ => true | KInt _ => false end.

(** Whether a dict has a key that is a [str], when [kind] is [true], or an
    [int], when it is [false]. *)
Definition has_kind (kind : bool) (d : list (sort_key * string)) : bool :=
  existsb (fun kv => Bool.eqb (key_is_str (fst kv)) kind) d.

(** Whether all the keys of a dict are of that type. *)
Definition all_kind (kind : bool) (d : list (sort_key * string)) : bool :=
  forallb (fun kv => Bool.eqb (key_is_str (fst kv)) kind) d.

(** [<] on the [(key, value)] tuples of [dict.items()]: the first
    components decide unless they are equal. *)
Definition item_lt (a b : sort_key * string) : result bool :=
  if key_eqb (fst a) (fst b) then Ok (PyStr.lt (snd a) (snd b))
  else key_lt (fst a) (fst b).

(** Modelled from the spec: [BoxSortedGroup], of
    [parser/box_sorted_group.py], which is not among the sources. It "holds
    a mapping from sort key to item, plus a direction (asc/desc)"; "if two
    insertions use the same key, the later insertion overwrites the earlier
    one"; [get_sorted_boxes] "returns items ordered by key ascending or
    descending per the group's configured direction", keys compared as
    Python compares them. *)
Record BoxSortedGroup : Type := {
  uuid : string;
  sort_field : string;
  sort_way : string;
  boxes : list (sort_key * string)
}.

(** Modelled from the spec: [BoxSortedGroup(uuid, sort_field, sort_way)], a
    group "created lazily", with no box yet. *)
Definition new_BoxSortedGroup (uuid sort_field sort_way : string) : BoxSortedGroup :=
  {| uuid := uuid; sort_field := sort_field; sort_way := sort_way; boxes := [] |}.

(** Modelled from the spec: [add_box_to_sort], "addItem(item, sortKey):
    stores item under sortKey", the group "simply accepts whatever key it is
    given", and a later insertion under the same key overwrites. *)
Definition add_box_to_sort (g : BoxSortedGroup) (box : string) (sort_value : sort_key)
  : BoxSortedGroup :=
  {| uuid := uuid g; sort_field := sort_field g; sort_way := sort_way g;
     boxes := dict_set sort_value box (boxes g) |}.

(** [d.get(k)] on the association list of a dict. *)
Definition dict_find {V : Type} (d : list (sort_key * V)) (k : sort_key) : option V :=
  snd <$> List.find (fun kv => key_eqb k (fst kv)) d.

(** Modelled from the spec: [get_sorted_boxes], "getSortedItems() ->
    ordered sequence: returns items ordered by key ascending or descending per
    the group's configured direction", lexically for sort values and
    numerically for indices. *)
Definition get_sorted_boxes (g : BoxSortedGroup) : result (list string) :=
  do keys <- sorted key_lt (map fst (boxes g)) (String.eqb (sort_way g) "desc");
  Ok (omap (dict_find (boxes g)) keys).

(** The dict of the items that were each stored under their running
    index. *)
Definition index_keyed (items : list string) : list (sort_key * string) :=
  imap (fun i item => (KInt i, item)) items.

(** A page of the site registry [site.pages_by_uuid]. *)
Record Page : Type := { pid : string }.

(** What a box reads from its site and its page: the page registry, the
    language of the page content, and the current date as
    [datetime.now().strftime("%Y-%m-%d")] gives it. *)
Record Env : Type := {
  pages_by_uuid : gmap string Page;
  language : string;
  today : string
}.

(** *** The box *)

Definition TYPE_TEXT := "text".
Definition TYPE_ONE_COL_CONTAINER := "oneColContainer".
Definition TYPE_COLORED_TEXT := "coloredText".
Definition TYPE_PEOPLE_LIST := "peopleList".
Definition TYPE_INFOSCIENCE := "infoscience".
Definition TYPE_INFOSCIENCE_FILTER := "infoscienceFilter".
Definition TYPE_ACTU := "actu".
Definition TYPE_MEMENTO := "memento".
Definition TYPE_FAQ := "faq".
Definition TYPE_TOGGLE := "toggle".
Definition TYPE_INCLUDE := "include".
Definition TYPE_CONTACT := "contact".
Definition TYPE_XML := "xml".
Definition TYPE_LINKS := "links".
Definition TYPE_RSS := "rss".
Definition TYPE_FILES := "files".
Definition TYPE_BUTTONS := "buttons_box".
Definition TYPE_SNIPPETS := "snippets".
Definition TYPE_SYNTAX_HIGHLIGHT := "syntaxHighlight".
Definition TYPE_KEY_VISUAL := "keyVisual".
Definition TYPE_MAP := "map".
Definition TYPE_GRID := "grid".

(** Mapping of known box types from Jahia to WP. *)
Definition types_table : list (string * string) := [
  ("epfl:textBox", TYPE_TEXT);
  ("epfl:coloredTextBox", TYPE_COLORED_TEXT);
  ("epfl:peopleListBox", TYPE_PEOPLE_LIST);
  ("epfl:infoscienceBox", TYPE_INFOSCIENCE);
  ("epfl:infoscienceFilteredBox", TYPE_INFOSCIENCE_FILTER);
  ("epfl:actuBox", TYPE_ACTU);
  ("epfl:mementoBox", TYPE_MEMENTO);
  ("epfl:faqBox", TYPE_FAQ);
  ("epfl:toggleBox", TYPE_TOGGLE);
  ("epfl:htmlBox", TYPE_INCLUDE);
  ("epfl:contactBox", TYPE_CONTACT);
  ("epfl:xmlBox", TYPE_XML);
  ("epfl:linksBox", TYPE_LINKS);
  ("epfl:rssBox", TYPE_RSS);
  ("epfl:filesBox", TYPE_FILES);
  ("epfl:bigButtonsBox", TYPE_BUTTONS);
  ("epfl:smallButtonsBox", TYPE_BUTTONS);
  ("epfl:snippetsBox", TYPE_SNIPPETS);
  ("epfl:syntaxHighlightBox", TYPE_SYNTAX_HIGHLIGHT);
  ("epfl:keyVisualBox", TYPE_KEY_VISUAL);
  ("epfl:mapBox", TYPE_MAP);
  ("epfl:gridBox", TYPE_GRID);
  ("epfl:oneColContainer", TYPE_ONE_COL_CONTAINER)
].

Definition types : gmap string string := list_to_map types_table.

(** The attributes of a [Box] that its methods assign, and the shortcodes
    it has registered with its site. *)
Record Box : Type := {
  type : string;
  shortcode_name : string;
  title : string;
  content : string;
  is_in_sidebar : bool;
  shortcode_attributes_to_fix : list string;
  registered : list (string * list string)
}.

Definition blank_box : Box :=
  {| type := ""; shortcode_name := ""; title := ""; content := "";
     is_in_sidebar := false; shortcode_attributes_to_fix := [];
     registered := [] |}.

(** A method of [Box]: it may assign attributes of [self], and returns or
    raises. What was assigned before a raise stays assigned. *)
Definition M (A : Type) : Type := Box -> result A * Box.

Definition ret {A : Type} (a : A) : M A := fun b => (Ok a, b).

Definition raise {A : Type} (e : exn) : M A := fun b => (Raise e, b).

Definition bind {A B : Type} (m : M A) (k : A -> M B) : M B :=
  fun b =>
    match m b with
    | (Ok a, b') => k a b'
    | (Raise e, b') => (Raise e, b')
    end.

Definition lift {A : Type} (r : result A) : M A := fun b => (r, b).

Definition get : M Box := fun b => (Ok b, b).

Notation "'run' x <- m ; k" := (bind m (fun x => k))
  (at level 10, x name, m at level 100, k at level 200).
Notation "'exec' m ; k" := (bind m (fun _ => k))
  (at level 10, m at level 100, k at level 200).

Definition set_type_attr (v : string) : M unit := fun b =>
  (Ok tt, {| type := v; shortcode_name := shortcode_name b; title := title b;
             content := content b; is_in_sidebar := is_in_sidebar b;
             shortcode_attributes_to_fix := shortcode_attributes_to_fix b;
             registered := registered b |}).

Definition set_shortcode_name (v : string) : M unit := fun b =>
  (Ok tt, {| type := type b; shortcode_name := v; title := title b;
             content := content b; is_in_sidebar := is_in_sidebar b;
             shortcode_attributes_to_fix := shortcode_attributes_to_fix b;
             registered := registered b |}).

Definition set_title (v : string) : M unit := fun b =>
  (Ok tt, {| type := type b; shortcode_name := shortcode_name b; title := v;
             content := content b; is_in_sidebar := is_in_sidebar b;
             shortcode_attributes_to_fix := shortcode_attributes_to_fix b;
             registered := registered b |}).

Definition set_content_attr (v : string) : M unit := fun b =>
  (Ok tt, {| type := type b; shortcode_name := shortcode_name b; title := title b;
             content := v; is_in_sidebar := is_in_sidebar b;
             shortcode_attributes_to_fix := shortcode_attributes_to_fix b;
             registered := registered b |}).

(** Modelled from the spec: [site.register_shortcode], of the site class,
    which is not among the sources. "registerShortcode(name,
    attributeNamesNeedingFix, owningBox)" records the name and the
    attributes for the exporter. *)
Definition register_shortcode (name : string) (attrs : list string) : M unit := fun b =>
  (Ok tt, {| type := type b; shortcode_name := shortcode_name b; title := title b;
             content := content b; is_in_sidebar := is_in_sidebar b;
             shortcode_attributes_to_fix := shortcode_attributes_to_fix b;
             registered := registered b ++ [(name, attrs)] |}).

(** [Box.set_type]. *)
Definition set_type (element : node) : M unit :=
  let type := getAttribute element "jcr:primaryType" in
  if String.eqb type "" then ret tt
  else match types !! type with
       | Some t => set_type_attr t
       | None => set_type_attr type
       end.

(** [Box.__init__]: the attributes in the order the constructor assigns
    them ([sort_group], [is_in_sidebar] and [shortcode_attributes_to_fix]
    get the values they have in [blank_box]), then the content when the
    type is not empty. [set_content] is [Box.set_content]. *)
Definition Box_init (set_content : node -> bool -> M unit)
           (element : node) (multibox : bool) : result unit * Box :=
  (exec set_type_attr "";
   exec set_shortcode_name "";
   exec set_type element;
   exec set_title (get_tag_attribute element "boxTitle" "jahia:value");
   exec set_content_attr "";
   run self <- get;
   if negb (String.eqb (type self) "") then set_content element multibox
   else ret tt) blank_box.

(** [Box._set_scheduler_box]. *)
Definition _set_scheduler_box (env : Env) (element : node) (content : string)
  : M string :=
  exec set_shortcode_name "epfl_scheduler";
  run self <- get;
  let start_datetime := get_tag_attribute element "comboList" "jahia:validFrom" in
  let end_datetime := get_tag_attribute element "comboList" "jahia:validTo" in
  if String.eqb start_datetime "" && String.eqb end_datetime "" then ret content
  else
    let today := today env in
    run start <- lift
      (if contains "T" start_datetime
       then do d <- index (split "T" start_datetime) 0;
            do t <- index (split "T" start_datetime) 1;
            Ok (d, t)
       else Ok ("", ""));
    run end_ <- lift
      (if contains "T" end_datetime
       then do d <- index (split "T" end_datetime) 0;
            do t <- index (split "T" end_datetime) 1;
            Ok (d, t)
       else Ok ("", ""));
    let '(start_date, start_time) := start in
    let '(end_date, end_time) := end_ in
    if negb (String.eqb start_date "") && String.eqb end_date ""
       && PyStr.lt start_date today
    then ret content
    else
      let start_date :=
        if String.eqb start_date "" && negb (String.eqb end_date "")
        then today else start_date in
      ret ("[" +:+ shortcode_name self
           +:+ " start_date=" +:+ DQ +:+ start_date +:+ DQ
           +:+ " end_date=" +:+ DQ +:+ end_date +:+ DQ
           +:+ " start_time=" +:+ DQ +:+ start_time +:+ DQ
           +:+ " end_time=" +:+ DQ +:+ end_time +:+ DQ
           +:+ "]" +:+ content +:+ "[/" +:+ shortcode_name self +:+ "]").

(** A value that is the empty string or a list of strings. *)
Inductive str_or_list : Type :=
| AStr (s : string)
| AList (l : list string).

(** [d[k]] on a dict. *)
Definition dict_get {V : Type} (d : gmap string V) (k : string) : result V :=
  match d !! k with
  | Some v => Ok v
  | None => Raise KeyError
  end.

Definition dict_has {V : Type} (d : gmap string V) (k : string) : bool :=
  bool_decide (is_Some (d !! k)).

(** The body of [Box._extract_epfl_news_parameters], from the dict that
    [parse.parse_qs(parse.urlparse(url).query)] returns. *)
Definition extract_epfl_news_parameters_of (parameters : gmap string (list string))
  : result (string * string * string * string * str_or_list * string * str_or_list) :=
  do channel_id <-
    (if dict_has parameters "channel"
     then do l <- dict_get parameters "channel"; index l 0
     else Ok "");
  do lang <-
    (if dict_has parameters "lang"
     then do l <- dict_get parameters "lang";
          do lang <- index l 0;
          let lang := if String.eqb lang "ang" then "en" else lang in
          let lang := if String.eqb lang "fra" then "fr" else lang in
          Ok lang
     else Ok "");
  do template <-
    (if dict_has parameters "template"
     then do l <- dict_get parameters "template"; index l 0
     else Ok "");
  let stickers := if dict_has parameters "sticker" then "no" else "yes" in
  do category <-
    (if dict_has parameters "category"
     then do l <- dict_get parameters "category"; index l 0
     else Ok "");
  do themes <-
    (if dict_has parameters "themes"
     then do l <- dict_get parameters "theme"; Ok (AList l)
     else Ok (AStr ""));
  do projects <-
    (if dict_has parameters "project"
     then do l <- dict_get parameters "project"; Ok (AList l)
     else Ok (AStr ""));
  Ok (channel_id, lang, template, category, themes, stickers, projects).

(** [Box._extract_epfl_news_parameters]; [parse_qs_query url] stands for
    [parse.parse_qs(parse.urlparse(url).query)], of the Python library: the
    dict of the query parameters of the URL, each with the list of its
    values. This is for a URL that [urlparse] accepts: the [ValueError] that
    it raises on a malformed one leaves the method before its body runs, and
    is not modelled. What is proved of a return is proved of the body,
    [extract_epfl_news_parameters_of], on the dict. *)
Definition _extract_epfl_news_parameters
           (parse_qs_query : string -> gmap string (list string)) (url : string) :=
  extract_epfl_news_parameters_of (parse_qs_query url).

(** *** The list helpers and the transformers *)

Section Transformers.

(** [Utils.handle_custom_chars], of [utils.py], which is not among the
    sources; the spec only names it ("escapeForAttribute(text) ->
    string"). *)
Variable handle_custom_chars : string -> string.

(** [BeautifulSoup(v, "lxml").find("jahia-resource").get("default-value")]:
    an [AttributeError] when no such tag is found, Python's [None] when
    the tag lacks the attribute. *)
Variable jahia_resource_default_value : string -> result (option string).

(** The BeautifulSoup rewriting of the Twitter timelines inside
    [filter_and_transform]. *)
Variable twitter_transform : string -> result string.

Variable env : Env.

(** The truth value of a [str] that may still be [None]. *)
Definition truthy (s : option string) : bool :=
  match s with
  | Some s => negb (String.eqb s "")
  | None => false
  end.

(** ["{}".format(v)]. *)
Definition format_opt (s : option string) : string :=
  match s with Some s => s | None => "None" end.

(** [s.split(";")[0].split("_")[-1]]: a [split] is never empty. *)
Definition last_segment_of_first_field (sort_params : string) : string :=
  List.last (split "_" (hd "" (split ";" sort_params))) "".

(** ['/' + '/'.join(path.split("/")[4:])]. *)
Definition strip_site_prefix (path : string) : string :=
  "/" +:+ join "/" (skipn 4 (split "/" path)).

(** ["/page-{}-{}.html".format(page.pid, self.page_content.language)]. *)
Definition page_url (page : Page) : string :=
  "/page-" +:+ pid page +:+ "-" +:+ language env +:+ ".html".

(** [Box._parse_files_to_list]. *)
Definition _parse_files_to_list (element : node) : string :=
  let elements := getElementsByTagName element "file" in
  let content :=
    fold_left
      (fun content e =>
         if negb (is_element e) then content
         else
           let file_url := strip_site_prefix (getAttribute e "jahia:value") in
           let file_name := List.last (split "/" file_url) "" in
           content +:+ "<li><a href=" +:+ DQ +:+ file_url +:+ DQ +:+ ">"
                   +:+ file_name +:+ "</a></li>")
      elements "<ul>" in
  let content := content +:+ "</ul>" in
  if String.eqb content "<ul></ul>" then "" else content.

(** The sort value of one entry: the [jahia:...] attribute [attr] of its
    first [sort_tag_name] descendant, which must exist and be non-empty,
    or else the number of boxes collected so far. *)
Definition entry_sort_value (sort_tag_name : option string) (attr msg : string)
           (e : node) (g : BoxSortedGroup) : result sort_key :=
  if truthy sort_tag_name then
    match getElementsByTagName e (default "" sort_tag_name) with
    | [] => Raise (Exception msg)
    | t :: _ =>
        let sort_value := getAttribute t attr in
        if String.eqb sort_value "" then Raise (Exception msg)
        else Ok (KStr sort_value)
    end
  else Ok (KInt (length (boxes g))).

(** An entry has no [sort_tag_name] descendant, or the first one has an
    empty [attr]. *)
Definition lacks_sort_value (sort_tag_name attr : string) (e : node) : bool :=
  match getElementsByTagName e sort_tag_name with
  | [] => true
  | t :: _ => String.eqb (getAttribute t attr) ""
  end.

(** One child of a [<link>] or of a big button's [<url>]: a [jahia:link]
    whose page is not in the registry leaves the url as it is. *)
Definition resolve_jahia_tag (url : string) (jahia_tag : node) : string :=
  if String.eqb (tagName jahia_tag) "jahia:link" then
    match pages_by_uuid env !! getAttribute jahia_tag "jahia:reference" with
    | None => url
    | Some page => page_url page
    end
  else if String.eqb (tagName jahia_tag) "jahia:url" then
    getAttribute jahia_tag "jahia:value"
  else url.

(** The body of the loop over [link_node.childNodes]. *)
Definition link_tag_step (st : string * string) (jahia_tag : node) : string * string :=
  let '(title, url) := st in
  if negb (is_element jahia_tag) then st
  else
    let title :=
      if String.eqb (tagName jahia_tag) "jahia:link"
         || String.eqb (tagName jahia_tag) "jahia:url"
      then getAttribute jahia_tag "jahia:title" else title in
    (title, resolve_jahia_tag url jahia_tag).

(** The body of the loop over [e.childNodes]; the state is
    [(desc, title, url)]. *)
Definition link_node_step (st : string * string * string) (link_node : node)
  : string * string * string :=
  let '(desc, title, url) := st in
  if negb (is_element link_node) then st
  else if String.eqb (tagName link_node) "linkDesc"
  then (getAttribute link_node "jahia:value", title, url)
  else if String.eqb (tagName link_node) "link"
  then let '(title, url) :=
         fold_left link_tag_step (childNodes link_node) (title, url) in
       (desc, title, url)
  else st.

(** ['<li><a href="{}">{}</a>{}</li>'.format(url, title, desc)]. *)
Definition link_item (url title desc : string) : string :=
  "<li><a href=" +:+ DQ +:+ url +:+ DQ +:+ ">" +:+ title +:+ "</a>" +:+ desc
    +:+ "</li>".

(** The item of one [<links>] element: the loop over its children, then
    the format. *)
Definition link_html (e : node) : string :=
  let '(desc, title, url) := fold_left link_node_step (childNodes e) ("", "", "") in
  link_item url title desc.

Definition links_sort_msg : string :=
  "No sort tag (%s) found (or empty sort value found)".

(** The body of the loop over the [<links>] elements. *)
Definition links_step (sort_tag_name : option string)
           (acc : result BoxSortedGroup) (e : node) : result BoxSortedGroup :=
  do links_boxes <- acc;
  if negb (is_element e) then Ok links_boxes
  else
    do sort_value <-
      entry_sort_value sort_tag_name "jahia:title" links_sort_msg e links_boxes;
    Ok (add_box_to_sort links_boxes (link_html e) sort_value).

(** The sort tag and the direction that a [jahia:sortHandler] names. *)
Definition sort_settings (prefix sort_params : string)
  : result (option string * string) :=
  if negb (String.eqb sort_params "") then
    do sort_way <- index (split ";" sort_params) 1;
    Ok (Some (prefix +:+ last_segment_of_first_field sort_params), sort_way)
  else Ok (None, "asc").

(** The [BoxSortedGroup] that [_parse_links_to_list] has filled when its
    loop ends. *)
Definition links_boxes_of (element : node) : result BoxSortedGroup :=
  do settings <- sort_settings "jahia:" (getAttribute element "jahia:sortHandler");
  let '(sort_tag_name, sort_way) := settings in
  fold_left (links_step sort_tag_name) (getElementsByTagName element "links")
            (Ok (new_BoxSortedGroup "" "" sort_way)).

(** [Box._parse_links_to_list]. *)
Definition _parse_links_to_list (element : node) : result string :=
  do links_boxes <- links_boxes_of element;
  do items <- get_sorted_boxes links_boxes;
  let content := "<ul>" +:+ join "" items +:+ "</ul>" in
  Ok (if String.eqb content "<ul></ul>" then "" else content).

(** [Box._get_button_shortcode]. *)
Definition _get_button_shortcode (box_type url alt_text text : string)
           (big_button_image_url : string) (small_button_key : option string)
  : string :=
  let big_button_image_url :=
    if negb (String.eqb big_button_image_url "")
    then "image=" +:+ DQ +:+ big_button_image_url +:+ DQ
    else big_button_image_url in
  let small_button_key :=
    if truthy small_button_key
    then Some ("key=" +:+ DQ +:+ format_opt small_button_key +:+ DQ)
    else small_button_key in
  let text := handle_custom_chars text in
  let alt_text := handle_custom_chars alt_text in
  "[epfl_buttons type=" +:+ DQ +:+ box_type +:+ DQ
    +:+ " url=" +:+ DQ +:+ url +:+ DQ
    +:+ " " +:+ big_button_image_url
    +:+ " alt_text=" +:+ DQ +:+ alt_text +:+ DQ
    +:+ " text=" +:+ DQ +:+ text +:+ DQ
    +:+ " " +:+ format_opt small_button_key +:+ "]".

(** The variables that the loop over a button's children assigns. *)
Record button_vars : Type := {
  b_url : string;
  b_alt_text : string;
  b_text : string;
  b_big_button_image_url : string;
  b_small_button_key : option string
}.

(** The loop over the children of a big button's [<url>]; the state is
    [(text, url)]. *)
Definition big_url_step (st : string * string) (jahia_tag : node) : string * string :=
  let '(text, url) := st in
  if negb (is_element jahia_tag) then st
  else (getAttribute jahia_tag "jahia:title", resolve_jahia_tag url jahia_tag).

(** The body of the loop over [button_list.childNodes]. *)
Definition button_child_step (box_type : string)
           (acc : result button_vars) (child : node) : result button_vars :=
  do v <- acc;
  if negb (is_element child) then Ok v
  else if String.eqb (tagName child) "label" then
    Ok {| b_url := b_url v; b_alt_text := getAttribute child "jahia:value";
          b_text := b_text v;
          b_big_button_image_url := b_big_button_image_url v;
          b_small_button_key := b_small_button_key v |}
  else if String.eqb (tagName child) "url" then
    if String.eqb box_type "small" then
      Ok {| b_url := getAttribute child "jahia:value"; b_alt_text := b_alt_text v;
            b_text := b_text v;
            b_big_button_image_url := b_big_button_image_url v;
            b_small_button_key := b_small_button_key v |}
    else if String.eqb box_type "big" then
      let '(text, url) :=
        fold_left big_url_step (childNodes child) (b_text v, b_url v) in
      Ok {| b_url := url; b_alt_text := b_alt_text v; b_text := text;
            b_big_button_image_url := b_big_button_image_url v;
            b_small_button_key := b_small_button_key v |}
    else Ok v
  else if String.eqb (tagName child) "image" then
    Ok {| b_url := b_url v; b_alt_text := b_alt_text v; b_text := b_text v;
          b_big_button_image_url :=
            strip_site_prefix (getAttribute child "jahia:value");
          b_small_button_key := b_small_button_key v |}
  else if String.eqb (tagName child) "type" then
    do key <- jahia_resource_default_value (getAttribute child "jahia:value");
    Ok {| b_url := b_url v; b_alt_text := b_alt_text v; b_text := b_text v;
          b_big_button_image_url := b_big_button_image_url v;
          b_small_button_key := key |}
  else Ok v.

Definition buttons_sort_msg : string :=
  "No sort tag (%s) found (or empty sort value found) for %s".

(** The body of the loop over the button elements. *)
Definition button_step (box_type : string) (sort_tag_name : option string)
           (acc : result BoxSortedGroup) (button_list : node)
  : result BoxSortedGroup :=
  do button_boxes <- acc;
  do sort_value <-
    entry_sort_value sort_tag_name "jahia:title" buttons_sort_msg
                     button_list button_boxes;
  do v <- fold_left (button_child_step box_type) (childNodes button_list)
            (Ok {| b_url := ""; b_alt_text := ""; b_text := "";
                   b_big_button_image_url := "";
                   b_small_button_key := Some "" |});
  let text :=
    if String.eqb box_type "small" && String.eqb (b_text v) ""
    then b_alt_text v else b_text v in
  let box_content :=
    _get_button_shortcode box_type (b_url v) (b_alt_text v) text
                          (b_big_button_image_url v) (b_small_button_key v) in
  Ok (add_box_to_sort button_boxes box_content sort_value).

(** [Box.set_box_buttons]. The heading that the method first builds from
    the title in its local [content] is overwritten before it is used, and
    is left out here. *)
Definition set_box_buttons (element : node) : M unit :=
  exec set_shortcode_name "epfl_buttons";
  let container_name := "epfl_buttons_container" in
  exec register_shortcode "epfl_buttons" ["image"; "url"];
  let box_type := getAttribute element "jcr:primaryType" in
  let '(box_type, button_container, element_name) :=
    if contains "small" box_type
    then ("small", getElementsByTagName element "smallButtonListList",
          "smallButtonList")
    else ("big", getElementsByTagName element "bigButtonListList",
          "bigButtonList") in
  run container <- lift (index button_container 0);
  let sort_params := getAttribute container "jahia:sortHandler" in
  run settings <- lift (sort_settings "jahia:" sort_params);
  let '(sort_tag_name, sort_way) := settings in
  let elements := getElementsByTagName element element_name in
  run button_boxes <- lift
    (fold_left (button_step box_type sort_tag_name) elements
               (Ok (new_BoxSortedGroup "" "" sort_way)));
  run items <- lift (get_sorted_boxes button_boxes);
  set_content_attr ("[" +:+ container_name +:+ "]" +:+ join "" items
                    +:+ "[/" +:+ container_name +:+ "]").

(** Whether a snippet has a non-empty value for the sort tag. *)
Definition has_sort_value (sort_tag_name : string) (snippet : node) : bool :=
  match getElementsByTagName snippet sort_tag_name with
  | [] => false
  | t :: _ => negb (String.eqb (getAttribute t "jahia:value") "")
  end.

(** The first loop of [set_box_snippets]: the sort tag is kept only when
    every snippet has a value for it. *)
Definition prescan_sort_tag (sort_tag_name : option string) (snippets : list node)
  : option string :=
  if truthy sort_tag_name then
    if forallb (has_sort_value (default "" sort_tag_name)) snippets
    then sort_tag_name else None
  else sort_tag_name.

(** [s[s.rfind("/files"):]] when ["/files"] occurs in [s]. *)
Definition from_last_files (s : string) : string :=
  if contains "/files" s
  then match rfind "/files" s with
       | Some i => sdrop i s
       | None => s
       end
  else s.

(** The shortcode of one snippet. *)
Definition snippet_content (element snippet : node) : string :=
  let title := get_tag_attribute snippet "title" "jahia:value" in
  let subtitle := get_tag_attribute snippet "subtitle" "jahia:value" in
  let description := get_tag_attribute snippet "description" "jahia:value" in
  let image := get_tag_attribute snippet "image" "jahia:value" in
  let big_image := get_tag_attribute snippet "bigImage" "jahia:value" in
  let enable_zoom := get_tag_attribute snippet "enableImageZoom" "jahia:value" in
  let image := from_last_files image in
  let big_image := from_last_files big_image in
  let title := handle_custom_chars title in
  let subtitle := handle_custom_chars subtitle in
  let '(url, subtitle, description) :=
    match getElementsByTagName element "url" with
    | [] => ("", subtitle, description)
    | _ :: _ =>
        let url := get_tag_attribute snippet "jahia:url" "jahia:value" in
        if negb (String.eqb url "") then
          if String.eqb subtitle ""
          then (url,
                handle_custom_chars
                  (get_tag_attribute snippet "jahia:url" "jahia:title"),
                description)
          else (url, subtitle, description)
        else
          let uuid := get_tag_attribute snippet "jahia:link" "jahia:reference" in
          match pages_by_uuid env !! uuid with
          | Some page =>
              let url := page_url page in
              let url_title :=
                get_tag_attribute snippet "jahia:link" "jahia:title" in
              (url, subtitle,
               if negb (String.eqb url_title "")
               then description +:+ "<a href=" +:+ DQ +:+ url +:+ DQ +:+ ">"
                      +:+ handle_custom_chars url_title +:+ "</a>"
               else description)
          | None => (url, subtitle, description)
          end
    end in
  "[epfl_snippets url=" +:+ DQ +:+ url +:+ DQ
    +:+ " title=" +:+ DQ +:+ title +:+ DQ
    +:+ " subtitle=" +:+ DQ +:+ subtitle +:+ DQ
    +:+ " image=" +:+ DQ +:+ image +:+ DQ
    +:+ " big_image=" +:+ DQ +:+ big_image +:+ DQ
    +:+ " enable_zoom=" +:+ DQ +:+ enable_zoom +:+ DQ
    +:+ "]" +:+ description +:+ "[/epfl_snippets]".

(** The body of the second loop of [set_box_snippets]. *)
Definition snippet_step (element : node) (sort_tag_name : option string)
           (acc : result BoxSortedGroup) (snippet : node) : result BoxSortedGroup :=
  do snippet_boxes <- acc;
  do sort_value <-
    (if truthy sort_tag_name then
       do t <- index (getElementsByTagName snippet (default "" sort_tag_name)) 0;
       Ok (KStr (getAttribute t "jahia:value"))
     else Ok (KInt (length (boxes snippet_boxes))));
  Ok (add_box_to_sort snippet_boxes (snippet_content element snippet) sort_value).

(** The [BoxSortedGroup] that [set_box_snippets] has filled when its
    second loop ends. *)
Definition snippet_boxes_of (element snippet_list_list : node)
  : result BoxSortedGroup :=
  do settings <- sort_settings "" (getAttribute snippet_list_list "jahia:sortHandler");
  let '(sort_tag_name, sort_way) := settings in
  let snippets := getElementsByTagName snippet_list_list "snippetList" in
  let sort_tag_name := prescan_sort_tag sort_tag_name snippets in
  fold_left (snippet_step element sort_tag_name) snippets
            (Ok (new_BoxSortedGroup "" "" sort_way)).

(** [Box.set_box_snippets]. *)
Definition set_box_snippets (element : node) : M unit :=
  exec set_shortcode_name "epfl_snippets";
  exec register_shortcode "epfl_snippets" ["url"; "image"; "big_image"];
  match getElementsByTagName element "snippetListList" with
  | [] => ret tt
  | snippet_list_list :: _ =>
      run self <- get;
      exec set_content_attr
        (if negb (String.eqb (title self) "")
         then "<h3>" +:+ title self +:+ "</h3>" else "");
      run snippet_boxes <- lift (snippet_boxes_of element snippet_list_list);
      run items <- lift (get_sorted_boxes snippet_boxes);
      run self <- get;
      set_content_attr (content self +:+ join "" items)
  end.

(** [filter_and_transform], local to [set_box_text]. *)
Definition filter_and_transform (box_content : string) : result string :=
  if contains "twitter-timeline" box_content
  then twitter_transform box_content
  else Ok box_content.

(** The variables that the loop over the [<comboList>] elements
    assigns. *)
Record combo_vars : Type := {
  c_sort_infos : string;
  c_sort_way : string;
  c_box_index : nat;
  c_box_list : list (sort_key * string)
}.

(** The content of one [<comboList>] element: its text, its files and its
    links. *)
Definition combo_content (combo : node) : result string :=
  do links <- _parse_links_to_list combo;
  Ok (get_tag_attribute combo "text" "jahia:value"
        +:+ _parse_files_to_list combo +:+ links).

(** The body of the loop over the [<comboList>] elements. *)
Definition combo_step (sort_field : string)
           (acc : result combo_vars) (combo : node) : result combo_vars :=
  do v <- acc;
  do box_content <- combo_content combo;
  if String.eqb box_content "" then Ok v
  else
    let by_index :=
      {| c_sort_infos := ""; c_sort_way := "asc";
         c_box_index := S (c_box_index v);
         c_box_list := dict_set (KInt (c_box_index v)) box_content (c_box_list v) |} in
    if negb (String.eqb (c_sort_infos v) "") then
      let box_key := getAttribute combo ("jcr:" +:+ sort_field) in
      if String.eqb box_key "" then Ok by_index
      else Ok {| c_sort_infos := c_sort_infos v; c_sort_way := c_sort_way v;
                 c_box_index := c_box_index v;
                 c_box_list := dict_set (KStr box_key) box_content (c_box_list v) |}
    else
      Ok {| c_sort_infos := c_sort_infos v; c_sort_way := c_sort_way v;
            c_box_index := S (c_box_index v);
            c_box_list := dict_set (KInt (c_box_index v)) box_content (c_box_list v) |}.

(** The variables of [set_box_text] when the loop over the
    [<comboList>] elements ends. *)
Definition combo_vars_of (element : node) : result combo_vars :=
  let sort_infos := get_tag_attribute element "comboListList" "jahia:sortHandler" in
  do fields <-
    (if negb (String.eqb sort_infos "") then
       do sort_way <- index (split ";" sort_infos) 1;
       Ok (hd "" (split ";" sort_infos), sort_way)
     else Ok ("", "asc"));
  let '(sort_field, sort_way) := fields in
  fold_left (combo_step sort_field) (getElementsByTagName element "comboList")
            (Ok {| c_sort_infos := sort_infos; c_sort_way := sort_way;
                   c_box_index := 0; c_box_list := [] |}).

(** [Box.set_box_text]. *)
Definition set_box_text (element : node) (multibox : bool) : M unit :=
  if negb multibox then
    run content <- lift
      (filter_and_transform (get_tag_attribute element "text" "jahia:value"));
    let content :=
      match getElementsByTagName element "filesList" with
      | [] => content
      | files_list :: _ => content +:+ _parse_files_to_list files_list
      end in
    run content <- lift
      (match getElementsByTagName element "linksList" with
       | [] => Ok content
       | links_list :: _ =>
           do links <- _parse_links_to_list links_list; Ok (content +:+ links)
       end);
    set_content_attr content
  else
    run v <- lift (combo_vars_of element);
    run box_list <- lift
      (sorted item_lt (c_box_list v) (String.eqb (c_sort_way v) "desc"));
    run content <- lift
      (fold_left
         (fun acc kv => do content <- acc;
                        do piece <- filter_and_transform (snd kv);
                        Ok (content +:+ piece))
         box_list (Ok ""));
    run content <-
      (if String.eqb (get_tag_attribute element "comboList" "jahia:ruleType")
                     "START_AND_END_DATE"
       then _set_scheduler_box env element content
       else ret content);
    set_content_attr content.

End Transformers.

End BoxPy.

(* ===================================================================== *)
(** ** Sample documents *)

Module Samples.
Import PyStr Dom BoxPy.

Definition faq_box : node :=
  Element "main" [("jcr:primaryType", "epfl:faqBox")]
          [Element "boxTitle" [("jahia:value", "Questions")] []].

Definition foreign_box : node :=
  Element "main" [("jcr:primaryType", "epfl:weatherBox")] [].

Definition untyped_box : node :=
  Element "main" [] [Element "boxTitle" [("jahia:value", "Nameless")] []].

Definition combo_with_dates (validFrom validTo : string) : node :=
  Element "main" [("jcr:primaryType", "epfl:textBox")]
    [Element "comboListList" []
       [Element "comboList"
          [("jahia:ruleType", "START_AND_END_DATE");
           ("jahia:validFrom", validFrom); ("jahia:validTo", validTo)]
          [Element "text" [("jahia:value", "<p>Hello</p>")] []]]].

Definition site_env : Env :=
  {| pages_by_uuid := list_to_map [("uuid-1", {| pid := "42" |})];
     language := "en";
     today := "2018-06-15" |}.

Definition links_entry_internal (desc title reference : string) : node :=
  Element "links" []
    [Element "linkDesc" [("jahia:value", desc)] [];
     Element "link" []
       [Element "jahia:link"
          [("jahia:title", title); ("jahia:reference", reference)] []]].

Definition links_entry_external (desc title url : string) : node :=
  Element "links" []
    [Element "linkDesc" [("jahia:value", desc)] [];
     Element "link" []
       [Element "jahia:url" [("jahia:title", title); ("jahia:value", url)] []]].

Definition links_list (entries : list node) : node :=
  Element "linksList" [] entries.

Definition big_button (label title url : string) : node :=
  Element "bigButtonList" []
    [Element "label" [("jahia:value", label)] [];
     Element "url" []
       [Element "jahia:url" [("jahia:title", title); ("jahia:value", url)] []];
     Element "image"
       [("jahia:value", "/content/sites/lab/files/shared/logo.png")] []].

Definition buttons_box : node :=
  Element "main" [("jcr:primaryType", "epfl:bigButtonsBox")]
    [Element "boxTitle" [("jahia:value", "Shortcuts")] [];
     Element "bigButtonListList"
       [("jahia:sortHandler", "epfl_simple_main_bigButtonList_url;desc;false;false")]
       [big_button "Home" "Home" "https://www.epfl.ch";
        big_button "Lab" "" "https://lab.epfl.ch"]].

Definition snippet (attrs_title : list node) (description : string) : node :=
  Element "snippetList" []
    (attrs_title ++ [Element "description" [("jahia:value", description)] []]).

Definition snippets_box : node :=
  Element "main" [("jcr:primaryType", "epfl:snippetsBox")]
    [Element "boxTitle" [("jahia:value", "Awards")] [];
     Element "snippetListList"
       [("jahia:sortHandler", "epfl_simple_main_snippetList_title;desc;false;false")]
       [snippet [Element "title" [("jahia:value", "Beta")] []] "second";
        snippet [] "untitled";
        snippet [Element "title" [("jahia:value", "Alpha")] []] "first"]].

Definition combo_entry (attrs : list (string * string)) (text : string) : node :=
  Element "comboList" attrs [Element "text" [("jahia:value", text)] []].

Definition combo_box : node :=
  Element "main" [("jcr:primaryType", "epfl:textBox")]
    [Element "comboListList" [("jahia:sortHandler", "created;desc;true;true")]
       [combo_entry [("jcr:created", "2018-01-01")] "<p>A</p>";
        combo_entry [] "<p>B</p>"]].

Definition news_url : string :=
  "https://actu.epfl.ch/webservice?channel=10&lang=fra&themes=1&themes=4".

(** The query parameters of [news_url]. *)
Definition news_parameters : gmap string (list string) :=
  list_to_map [("channel", ["10"]); ("lang", ["fra"]); ("themes", ["1"; "4"])].

End Samples.

(* ===================================================================== *)
(** ** The post-processing of the content (parser/box.py, continued) *)

Module Soup.
Import PyStr.

(** A node of a BeautifulSoup tree: a tag with its name, attributes and
    contents, or a string. *)
Inductive tag : Type :=
| Tag (name : string) (attrs : list (string * string)) (contents : list tag)
| NavigableString (s : string).

(** [tag.get(key)]. *)
Fixpoint get (attrs : list (string * string)) (key : string) : option string :=
  match attrs with
  | [] => None
  | (k, v) :: attrs' => if String.eqb k key then Some v else get attrs' key
  end.

(** [tag[key] = value]: an attribute that exists keeps its place. *)
Fixpoint set_attr (attrs : list (string * string)) (key value : string)
  : list (string * string) :=
  match attrs with
  | [] => [(key, value)]
  | (k, v) :: attrs' =>
      if String.eqb k key then (k, value) :: attrs'
      else (k, v) :: set_attr attrs' key value
  end.

(** [del tag[key]]. *)
Definition del_attr (attrs : list (string * string)) (key : string)
  : list (string * string) :=
  List.filter (fun kv => negb (String.eqb (fst kv) key)) attrs.

(** [tag.text]: the strings below the tag, concatenated. *)
Fixpoint text (t : tag) : string :=
  match t with
  | NavigableString s => s
  | Tag _ _ cs => String.concat "" (map text cs)
  end.

(** The test of [fix_video_iframes] on the [src] of an iframe. *)
Definition is_video_src (src : option string) : bool :=
  match src with
  | Some src =>
      negb (String.eqb src "")
      && (contains "youtube.com" src || contains "youtu.be" src
          || contains "player.vimeo.com" src)
  | None => false
  end.

Definition video_shortcode (src : option string) : string :=
  "[epfl_video url=" +:+ DQ +:+ default "None" src +:+ DQ +:+ "]".

(** The loop of [fix_video_iframes] over [soup.find_all('iframe')]: each
    iframe that passes the test is replaced by the shortcode string; what
    was inside a replaced iframe leaves the tree with it. *)
Fixpoint video_node (t : tag) : tag :=
  match t with
  | NavigableString _ => t
  | Tag name attrs cs =>
      if String.eqb name "iframe" && is_video_src (get attrs "src")
      then NavigableString (video_shortcode (get attrs "src"))
      else Tag name attrs (map video_node cs)
  end.

Section Slug.

(** [django.utils.text.slugify]. *)
Variable slugify : string -> string.

(** The loop of [add_id_to_h3] over [soup.find_all('h3')]. *)
Fixpoint h3_node (t : tag) : tag :=
  match t with
  | NavigableString _ => t
  | Tag name attrs cs =>
      let attrs' :=
        if String.eqb name "h3"
           && negb (String.eqb (text t) "")
           && negb (bool_decide (is_Some (get attrs "id")))
        then set_attr attrs "id" (slugify (text t))
        else attrs in
      Tag name attrs' (map h3_node cs)
  end.

End Slug.

(** The loop of [fix_img_align_left] over [soup.find_all('img')]. *)
Fixpoint img_node (t : tag) : tag :=
  match t with
  | NavigableString _ => t
  | Tag name attrs cs =>
      let attrs' :=
        if String.eqb name "img"
           && bool_decide (get attrs "align" = Some "left")
        then del_attr (set_attr attrs "class" "left") "align"
        else attrs in
      Tag name attrs' (map img_node cs)
  end.

Section Library.

(** [BeautifulSoup(content, 'html5lib')] with its body hidden, as the
    list of the nodes of the body, and [str(soup.body)] of such a tree:
    the HTML library, which is not part of this repository. *)
Variable parse : string -> list tag.
Variable render : list tag -> string.
Variable slugify : string -> string.

(** [Box.fix_video_iframes], on the content. *)
Definition fix_video_iframes (content : string) : string :=
  render (map video_node (parse content)).

(** [Box.add_id_to_h3], on the content. *)
Definition add_id_to_h3 (content : string) : string :=
  render (map (h3_node slugify) (parse content)).

(** [Box.fix_img_align_left], on the content. *)
Definition fix_img_align_left (content : string) : string :=
  render (map img_node (parse content)).

(** The three last statements of [Box.set_content]. *)
Definition post_process (content : string) : string :=
  fix_img_align_left (add_id_to_h3 (fix_video_iframes content)).

End Library.

(** The three fixups on one tree, without the round trips through the
    markup. *)
Definition post_process_tree (slugify : string -> string) (t : tag) : tag :=
  img_node (h3_node slugify (video_node t)).

(** Whether an iframe that passes the test of [fix_video_iframes] is in
    the tree. *)
Fixpoint has_video_iframe (t : tag) : bool :=
  match t with
  | NavigableString _ => false
  | Tag name attrs cs =>
      (String.eqb name "iframe" && is_video_src (get attrs "src"))
      || existsb has_video_iframe cs
  end.

(** Whether a node is an iframe that passes the test of
    [fix_video_iframes]. *)
Definition is_video_iframe (t : tag) : bool :=
  match t with
  | NavigableString _ => false
  | Tag name attrs _ => String.eqb name "iframe" && is_video_src (get attrs "src")
  end.

(** The node at a position of a tree; a position is the list of the ranks
    of the children to go through, from the root down. *)
Fixpoint at_path (p : list nat) (t : tag) : option tag :=
  match p with
  | [] => Some t
  | i :: p' =>
      match t with
      | NavigableString _ => None
      | Tag _ _ cs =>
          match nth_error cs i with
          | Some c => at_path p' c
          | None => None
          end
      end
  end.

(** Whether the way down to a position goes through no iframe that passes
    the test; the node at the position itself is not looked at. *)
Fixpoint outside_video_iframes (p : list nat) (t : tag) : bool :=
  match p with
  | [] => true
  | i :: p' =>
      match t with
      | NavigableString _ => true
      | Tag _ _ cs =>
          negb (is_video_iframe t)
          && match nth_error cs i with
             | Some c => outside_video_iframes p' c
             | None => true
             end
      end
  end.

(** The reading of the specification: the host of a URL, and the
    allow-list of the video hosts. *)
Definition url_host (url : string) : string :=
  match find "://" url with
  | None => ""
  | Some i =>
      let rest := sdrop (i + 3) url in
      match find "/" rest with
      | Some j => stake j rest
      | None => rest
      end
  end.

Definition video_hosts : list string :=
  ["www.youtube.com"; "youtube.com"; "youtu.be"; "player.vimeo.com"].

Definition host_allowed (host : string) : bool :=
  existsb (String.eqb host) video_hosts.

Definition foreign_src : string := "https://example.com/embed?from=youtube.com".

End Soup.

(* ===================================================================== *)
(** ** manage_redirections.py *)

Module Redirections.
Import PyStr.

(** [extract_htaccess_part(content, marker)]. The three logging branches
    leave [result] at its initial empty string. *)
Definition extract_htaccess_part (content marker : string) : result string :=
  let start_marker := "# BEGIN " +:+ marker in
  let end_marker := "# END " +:+ marker in
  if negb (contains start_marker content) && negb (contains end_marker content)
  then Ok ""
  else if negb (contains start_marker content) then Ok ""
  else if negb (contains end_marker content) then Ok ""
  else
    do after_start <- index (split start_marker content) 1;
    do between <- index (split end_marker after_start) 0;
    Ok (join LF [start_marker; between; end_marker]).

(** The reading of the documentation: the text between the first start
    marker and the first end marker that follows it. *)
Definition between_first_markers (start_marker end_marker content : string)
  : option string :=
  match find start_marker content with
  | None => None
  | Some i =>
      let rest := sdrop (i + String.length start_marker) content in
      match find end_marker rest with
      | None => None
      | Some j => Some (stake j rest)
      end
  end.

Definition htaccess_sample : string :=
  "# BEGIN X" +:+ LF +:+ "a" +:+ LF +:+
  "# BEGIN X" +:+ LF +:+ "b" +:+ LF +:+ "# END X".

End Redirections.

(* ===================================================================== *)
(** ** parser/box.py: the other transformers *)

Module BoxMore.
Import PyStr Dom BoxPy.

(** The strings of a list, one after the other. *)
Definition concat_strings (l : list string) : string :=
  fold_right String.append "" l.

(** The item that the loop of [_parse_files_to_list] appends for one
    [<file>] element. *)
Definition file_item (e : node) : string :=
  let file_url := strip_site_prefix (getAttribute e "jahia:value") in
  let file_name := List.last (split "/" file_url) "" in
  "<li><a href=" +:+ DQ +:+ file_url +:+ DQ +:+ ">" +:+ file_name +:+ "</a></li>".

(** [s.replace(old, new)]: every occurrence of [old], from the left; with an
    empty [old], [new] goes before every character and at the end. *)
Definition replace (old new s : string) : string :=
  if String.eqb old "" then
    new +:+ concat_strings
              (map (fun c => String c "" +:+ new) (list_ascii_of_string s))
  else join new (split old s).

(** Modelled from the spec: [Utils.get_tag_attributes], of [utils.py], which
    is not among the sources. "getTagAttributes(...) -> sequence of string":
    the attribute of every descendant of that tag name, in document order. *)
Definition get_tag_attributes (dom : node) (tag attribute : string) : list string :=
  map (fun e => getAttribute e attribute) (getElementsByTagName dom tag).

(** The first value of a query parameter, or the empty string when the
    parameter is absent: [parameters[k][0] if k in parameters else ""]. *)
Definition first_value (parameters : gmap string (list string)) (k : string)
  : result string :=
  if dict_has parameters k
  then do l <- dict_get parameters k; index l 0
  else Ok "".

(** The body of [Box._extract_epfl_memento_parameters], from the dict that
    [parse.parse_qs(parse.urlparse(url).query)] returns. *)
Definition extract_epfl_memento_parameters_of (parameters : gmap string (list string))
  : result (string * string * string * string * string * string * string * string) :=
  do memento_name <- first_value parameters "memento";
  do lang <- first_value parameters "lang";
  do template <- first_value parameters "template";
  do period <-
    (if dict_has parameters "period"
     then do l <- dict_get parameters "period";
          do p <- index l 0;
          Ok (if String.eqb p "2" then "upcoming" else "past")
     else Ok "");
  do color <- first_value parameters "color";
  do filters <- first_value parameters "filters";
  do category <- first_value parameters "category";
  do reorder <- first_value parameters "reorder";
  Ok (memento_name, lang, template, period, color, filters, category, reorder).

(** [Box.is_shortcode]. *)
Definition is_shortcode (self : Box) : bool :=
  negb (String.eqb (shortcode_name self) "").

(** [Box.is_empty]. *)
Definition is_empty (self : Box) : bool :=
  String.eqb (title self) "" && String.eqb (content self) "".

(** A loop whose body is a method: it stops at the first raise. *)
Fixpoint for_each {X : Type} (body : X -> M unit) (xs : list X) : M unit :=
  match xs with
  | [] => ret tt
  | x :: xs' => exec body x; for_each body xs'
  end.

(** [self.content += s]. *)
Definition append_content (s : string) : M unit :=
  run self <- get; set_content_attr (content self +:+ s).

(** ['<h3>{}</h3>'.format(title)]. *)
Definition h3 (title : string) : string := "<h3>" +:+ title +:+ "</h3>".

(** An attribute of a shortcode, [' name="{}"'.format(value)] without the
    leading blank. *)
Definition attr (name value : string) : string :=
  name +:+ "=" +:+ DQ +:+ value +:+ DQ.

(** The truth value of what [_extract_epfl_news_parameters] returns for the
    themes and the projects. *)
Definition truthy_list (v : str_or_list) : bool :=
  match v with
  | AStr s => negb (String.eqb s "")
  | AList l => match l with [] => false | _ => true end
  end.

(** [",".join(v)]: on a [str] it joins its characters. *)
Definition join_commas (v : str_or_list) : string :=
  match v with
  | AStr s => join "," (map (fun c => String c "") (list_ascii_of_string s))
  | AList l => join "," l
  end.

Section MoreTransformers.

Variable handle_custom_chars : string -> string.
Variable jahia_resource_default_value : string -> result (option string).
Variable twitter_transform : string -> result string.
Variable env : Env.

(** [parse.parse_qs(parse.urlparse(url).query)], of the Python library, for a
    URL that [urlparse] accepts; see [_extract_epfl_news_parameters]. *)
Variable parse_qs_query : string -> gmap string (list string).

(** [urlencode(parameters)], of the Python library, on the items of the
    dict in the order of their insertion. *)
Variable urlencode : list (string * string) -> string.

(** [Utils.get_tag_attribute(minidom.parseString(template_html),
    "jahia-resource", "key")]: the parsing raises on what is not XML. *)
Variable template_key : string -> result string.

(** [BeautifulSoup(layout_infos, 'html5lib').find('jahia-resource')
    .get('default-value')]: an [AttributeError] when no such tag is found,
    Python's [None] when the tag lacks the attribute. *)
Variable layout_default_value : string -> result (option string).

(** [Utils.get_redirected_url], of [utils.py], which is not among the
    sources; it follows the redirections of a URL over the network. *)
Variable get_redirected_url : string -> result string.

(** [str.isdigit], of the Python library. *)
Variable isdigit : string -> bool.

(** The HTML library of the post-processing: see [Soup]. *)
Variable parse : string -> list Soup.tag.
Variable render : list Soup.tag -> string.
Variable slugify : string -> string.

(** [Box.set_sort_infos], which asks the site for the sort group of the
    parent node and adds the box to it; the site and the parent node are not
    among the sources. It assigns [self.sort_group] only, which no other
    method of the class reads. *)
Variable set_sort_infos : node -> result unit.

(** [Box.set_box_grid]. *)
Definition set_box_grid (element : node) : M unit :=
  let shortcode_outer_name := "epfl_grid" in
  let shortcode_inner_name := "epfl_gridElem" in
  exec set_shortcode_name shortcode_outer_name;
  exec register_shortcode shortcode_inner_name ["link"; "image"];
  exec set_content_attr ("[" +:+ shortcode_outer_name +:+ "]" +:+ LF);
  exec for_each
    (fun e =>
       let layout_infos := get_tag_attribute e "layout" "jahia:value" in
       run layout <- lift (layout_default_value layout_infos);
       let link := get_tag_attribute e "jahia:url" "jahia:value" in
       let image := get_tag_attribute e "image" "jahia:value" in
       let title := get_tag_attribute e "jahia:url" "jahia:title" in
       let title := handle_custom_chars title in
       append_content
         ("[" +:+ shortcode_inner_name +:+ " " +:+ attr "layout" (format_opt layout)
          +:+ " " +:+ attr "link" link +:+ " " +:+ attr "title" title
          +:+ " " +:+ attr "image" image +:+ "][/" +:+ shortcode_inner_name +:+ "]"
          +:+ LF))
    (getElementsByTagName element "gridList");
  append_content ("[/" +:+ shortcode_outer_name +:+ "]").

(** [Box.set_box_people_list]. *)
Definition set_box_people_list (element : node) : M unit :=
  exec set_shortcode_name "epfl_people";
  let BASE_URL := "https://people.epfl.ch/cgi-bin/getProfiles?" in
  let unit_ := get_tag_attribute element "query" "jahia:value" in
  let template_html := get_tag_attribute element "template" "jahia:value" in
  let function := get_tag_attribute element "function" "jahia:value" in
  let parameters :=
    [("unit", unit_)]
      ++ (if negb (String.eqb function "") then [("function", function)] else []) in
  if String.eqb template_html "" then
    set_content_attr "[epfl_people error: no HTML template set]"
  else
    run key <- lift (template_key template_html);
    run settings <- lift
      (if String.eqb key "epfl_peopleListContainer.template.default_bloc"
       then Ok (parameters ++ [("struct", "1")], "default_struct_bloc")
       else if String.eqb key "epfl_peopleListContainer.template.default_bloc_simple"
       then Ok (parameters, "default_bloc")
       else if String.eqb key "epfl_peopleListContainer.template.default_list"
       then Ok (parameters, "default_list")
       else do template <- template_key template_html; Ok (parameters, template));
    let '(parameters, template) := settings in
    let parameters :=
      parameters ++ [("tmpl", "WP_" +:+ template); ("lang", "UPDATE_LANG_BY_EXPORTER")] in
    run self <- get;
    set_content_attr
      ("[" +:+ shortcode_name self +:+ " "
       +:+ attr "url" (BASE_URL +:+ urlencode parameters) +:+ " /]").

(** [Box.set_box_actu]. *)
Definition set_box_actu (element : node) : M unit :=
  exec set_shortcode_name "epfl_news";
  let actu_list_list := getElementsByTagName element "actuListList" in
  run first <- lift (index actu_list_list 0);
  run parameters <- lift
    (_extract_epfl_news_parameters parse_qs_query
       (get_tag_attribute first "url" "jahia:value"));
  let '(channel_id, lang, template, category, themes, stickers, projects) :=
    parameters in
  let '(more_url, more_title) :=
    match getElementsByTagName first "moreUrl" with
    | [] => ("", "")
    | more :: _ => (get_tag_attribute more "jahia:url" "jahia:value",
                    get_tag_attribute more "jahia:url" "jahia:title")
    end in
  let '(rss_url, rss_title) :=
    match getElementsByTagName first "rssUrl" with
    | [] => ("", "")
    | rss :: _ => (get_tag_attribute rss "jahia:url" "jahia:value",
                   get_tag_attribute rss "jahia:url" "jahia:title")
    end in
  run self <- get;
  let content := "" in
  let content :=
    if negb (is_in_sidebar self) then content +:+ h3 (title self) else content in
  let content :=
    content +:+ "[" +:+ shortcode_name self +:+ " " +:+ attr "channel" channel_id
            +:+ " " +:+ attr "lang" lang +:+ " " +:+ attr "template" template
            +:+ " " in
  let content :=
    if negb (String.eqb category "")
    then content +:+ attr "category" category +:+ " " else content in
  let content :=
    if truthy_list themes
    then content +:+ attr "themes" (join_commas themes) +:+ " " else content in
  let content :=
    if negb (String.eqb stickers "")
    then content +:+ attr "stickers" stickers +:+ " " else content in
  let content :=
    if truthy_list projects
    then content +:+ attr "projects" (join_commas projects) +:+ " " else content in
  let content := content +:+ "/]" in
  let has_more := negb (String.eqb more_url "") && negb (String.eqb more_title "") in
  let has_rss := negb (String.eqb rss_url "") && negb (String.eqb rss_title "") in
  let content :=
    if has_more || has_rss then
      let content := content +:+ "[epfl_buttons_container]" in
      let content :=
        if has_more
        then content +:+ _get_button_shortcode handle_custom_chars "small" more_url
                           more_title more_title "" (Some "forward")
        else content in
      let content :=
        if has_rss
        then content +:+ _get_button_shortcode handle_custom_chars "small" rss_url
                           rss_title rss_title "" (Some "forward")
        else content in
      content +:+ "[/epfl_buttons_container]"
    else content in
  set_content_attr content.

(** [Box._extract_epfl_memento_parameters], for a URL that [urlparse]
    accepts; what is proved of a return is proved of the body,
    [extract_epfl_memento_parameters_of], on the dict. *)
Definition _extract_epfl_memento_parameters (url : string) :=
  extract_epfl_memento_parameters_of (parse_qs_query url).

(** [Box.set_box_memento]. *)
Definition set_box_memento (element : node) : M unit :=
  run parameters <- lift
    (_extract_epfl_memento_parameters (get_tag_attribute element "url" "jahia:value"));
  let '(memento_name, lang, template, period, color, filters, category, reorder) :=
    parameters in
  let html_content :=
    match get_tag_attributes element "boxTitle" "jahia:value" with
    | [] => ""
    | title :: _ => h3 title +:+ " "
    end in
  exec set_shortcode_name "epfl_memento";
  let optional (name value : string) : string :=
    if negb (String.eqb value "") then attr name value +:+ " " else "" in
  set_content_attr
    (html_content +:+ "[epfl_memento " +:+ attr "memento" memento_name
     +:+ " " +:+ attr "lang" lang +:+ " " +:+ attr "template" template +:+ " "
     +:+ optional "period" period +:+ optional "color" color
     +:+ optional "keyword" filters +:+ optional "category" category
     +:+ optional "reorder" reorder +:+ "/]").

(** [Box.set_box_infoscience]. *)
Definition set_box_infoscience (element : node) : M unit :=
  run self <- get;
  let html_content :=
    if negb (String.eqb (title self) "") then h3 (title self) else "" in
  exec set_shortcode_name "epfl_infoscience";
  let publication_list :=
    if String.eqb (type self) TYPE_INFOSCIENCE
    then getElementsByTagName element "infoscienceListList"
    else if String.eqb (type self) TYPE_INFOSCIENCE_FILTER
    then getElementsByTagName element "infoscienceFilteredListList"
    else getElementsByTagName element "importHtmlList" in
  run first <- lift (index publication_list 0);
  let urls := get_tag_attributes first "url" "jahia:value" in
  set_content_attr
    (fold_left (fun html_content url =>
                  html_content +:+ "[epfl_infoscience " +:+ attr "url" url +:+ "]")
               urls html_content).

(** [Box.set_box_faq]. *)
Definition set_box_faq (element : node) : M unit :=
  let shortcode_outer_name := "epfl_faq" in
  let shortcode_inner_name := "epfl_faqItem" in
  exec set_shortcode_name shortcode_outer_name;
  exec register_shortcode shortcode_inner_name ["link"; "image"];
  exec set_content_attr ("[" +:+ shortcode_outer_name +:+ "]" +:+ LF);
  exec for_each
    (fun entry =>
       let question :=
         handle_custom_chars (get_tag_attribute entry "question" "jahia:value") in
       let answer := get_tag_attribute entry "answer" "jahia:value" in
       append_content
         ("[" +:+ shortcode_inner_name +:+ " " +:+ attr "question" question +:+ "]"
          +:+ answer +:+ "[/" +:+ shortcode_inner_name +:+ "]" +:+ LF))
    (getElementsByTagName element "faqList");
  append_content ("[/" +:+ shortcode_outer_name +:+ "]").

(** [Box.set_box_toggle]. *)
Definition set_box_toggle (element : node) : M unit :=
  exec set_shortcode_name "epfl_toggle";
  let state :=
    if String.eqb (get_tag_attribute element "opened" "jahia:value") "true"
    then "open" else "close" in
  run self <- get;
  set_content_attr
    ("[epfl_toggle " +:+ attr "title" (title self) +:+ " " +:+ attr "state" state
     +:+ "]" +:+ get_tag_attribute element "content" "jahia:value"
     +:+ "[/epfl_toggle]").

(** [Box.set_box_include]. *)
Definition set_box_include (element : node) : M unit :=
  let url := get_tag_attribute element "url" "jahia:value" in
  if contains "://people.epfl.ch/cgi-bin/getProfiles?" url then
    let url := replace "tmpl=" "tmpl=WP_" url in
    exec set_shortcode_name "epfl_people";
    set_content_attr ("[epfl_people " +:+ attr "url" url +:+ " /]")
  else if contains "://infoscience.epfl.ch/" url then
    set_box_infoscience element
  else if contains "://actu.epfl.ch/" url then
    exec set_shortcode_name "epfl_news";
    run parameters <- lift (_extract_epfl_news_parameters parse_qs_query url);
    let '(channel_id, lang, template, _, _, _, _) := parameters in
    set_content_attr
      ("[epfl_news " +:+ attr "channel" channel_id +:+ " " +:+ attr "lang" lang
       +:+ " " +:+ attr "template" template +:+ " ]")
  else
    run redirected <- lift (get_redirected_url url);
    set_content_attr ("[remote_content " +:+ attr "url" redirected +:+ "]").

(** [Box.set_box_contact]. *)
Definition set_box_contact (element : node) : M unit :=
  set_content_attr
    (fold_left (fun content contact =>
                  content +:+ get_tag_attribute contact "text" "jahia:value")
               (getElementsByTagName element "contactList") "").

(** [Box.set_box_xml]. *)
Definition set_box_xml (element : node) : M unit :=
  let xml := get_tag_attribute element "xml" "jahia:value" in
  let xslt := get_tag_attribute element "xslt" "jahia:value" in
  exec set_shortcode_name "epfl_xml";
  set_content_attr ("[epfl_xml " +:+ attr "xml" xml +:+ " " +:+ attr "xslt" xslt +:+ "]").

(** [Box.set_box_rss]. *)
Definition set_box_rss (element : node) : M unit :=
  let url := get_tag_attribute element "url" "jahia:value" in
  let nb_items := get_tag_attribute element "nbItems" "jahia:value" in
  let hide_title := get_tag_attribute element "hideTitle" "jahia:value" in
  let detail_items := get_tag_attribute element "detailItems" "jahia:value" in
  if String.eqb url "" then ret tt
  else
    let nb_items := if negb (isdigit nb_items) then "5" else nb_items in
    let feed_title := if String.eqb hide_title "true" then "no" else "yes" in
    let summary := if negb (String.eqb detail_items "true") then "no" else "yes" in
    let meta := if negb (String.eqb detail_items "true") then "no" else "yes" in
    set_content_attr
      ("[feedzy-rss " +:+ attr "feeds" url +:+ " " +:+ attr "max" nb_items
       +:+ " " +:+ attr "feed_title" feed_title +:+ " " +:+ attr "summary" summary
       +:+ " " +:+ attr "refresh" "12_hours" +:+ " " +:+ attr "meta" meta +:+ "]").

(** [Box.set_box_links]. *)
Definition set_box_links (element : node) : M unit :=
  run content <- lift (_parse_links_to_list env element);
  set_content_attr content.

(** [Box.set_box_unknown]. *)
Definition set_box_unknown (element : node) : M unit :=
  set_content_attr ("[" +:+ getAttribute element "jcr:primaryType" +:+ "]").

(** [Box.set_box_files]. *)
Definition set_box_files (element : node) : M unit :=
  set_content_attr (_parse_files_to_list element).

(** [Box.set_box_syntax_highlight]. *)
Definition set_box_syntax_highlight (element : node) : M unit :=
  set_content_attr
    ("[enlighter]" +:+ get_tag_attribute element "code" "jahia:value"
     +:+ "[/enlighter]").

(** [Box.set_box_key_visuals]. *)
Definition set_box_key_visuals (element : node) : M unit :=
  let content :=
    fold_left
      (fun content e =>
         if negb (is_element e) then content
         else content +:+ "<li><img "
                +:+ attr "src" (strip_site_prefix (getAttribute e "jahia:value"))
                +:+ " /></li>")
      (getElementsByTagName element "image") "<ul>" in
  set_content_attr (content +:+ "</ul>").

(** [Box.set_box_map]. *)
Definition set_box_map (element : node) : M unit :=
  exec set_shortcode_name "epfl_map";
  let query := get_tag_attribute element "query" "jahia:value" in
  set_content_attr
    ("[epfl_map " +:+ attr "query" query +:+ " "
     +:+ attr "lang" "UPDATE_LANG_BY_EXPORTER" +:+ "]").

(** The three fixups, each on [self.content]. *)
Definition fix_content (fixup : string -> string) : M unit :=
  run self <- get; set_content_attr (fixup (content self)).

(** The transformer that [Box.set_content] chooses for a type. *)
Definition transformer (type : string) (element : node) (multibox : bool) : M unit :=
  if String.eqb type TYPE_TEXT || String.eqb type TYPE_COLORED_TEXT
     || String.eqb type TYPE_ONE_COL_CONTAINER
  then set_box_text twitter_transform env element multibox
  else if String.eqb TYPE_PEOPLE_LIST type then set_box_people_list element
  else if String.eqb TYPE_INFOSCIENCE type || String.eqb TYPE_INFOSCIENCE_FILTER type
  then set_box_infoscience element
  else if String.eqb TYPE_ACTU type then set_box_actu element
  else if String.eqb TYPE_MEMENTO type then set_box_memento element
  else if String.eqb TYPE_FAQ type then set_box_faq element
  else if String.eqb TYPE_TOGGLE type then set_box_toggle element
  else if String.eqb TYPE_INCLUDE type then set_box_include element
  else if String.eqb TYPE_CONTACT type then set_box_contact element
  else if String.eqb TYPE_XML type then set_box_xml element
  else if String.eqb TYPE_LINKS type then set_box_links element
  else if String.eqb TYPE_RSS type then set_box_rss element
  else if String.eqb TYPE_FILES type then set_box_files element
  else if String.eqb TYPE_BUTTONS type
  then set_box_buttons handle_custom_chars jahia_resource_default_value env element
  else if String.eqb TYPE_SNIPPETS type
  then set_box_snippets handle_custom_chars env element
  else if String.eqb TYPE_SYNTAX_HIGHLIGHT type then set_box_syntax_highlight element
  else if String.eqb TYPE_KEY_VISUAL type then set_box_key_visuals element
  else if String.eqb TYPE_MAP type then set_box_map element
  else if String.eqb TYPE_GRID type then set_box_grid element
  else set_box_unknown element.

(** [Box.set_content]. *)
Definition set_content (element : node) (multibox : bool) : M unit :=
  exec lift (set_sort_infos element);
  run self <- get;
  exec transformer (type self) element multibox;
  exec fix_content (Soup.fix_video_iframes parse render);
  exec fix_content (Soup.add_id_to_h3 parse render slugify);
  fix_content (Soup.fix_img_align_left parse render).

(** [Box(site, page_content, element, multibox, is_in_sidebar)]: the
    constructor with its own [set_content]. It does not read its last
    argument. *)
Definition Box_new (element : node) (multibox is_in_sidebar : bool)
  : result unit * Box :=
  Box_init set_content element multibox.

End MoreTransformers.

End BoxMore.

(* ===================================================================== *)
(** ** manage_redirections.py: the other functions *)

Module RedirectionsMore.
Import PyStr BoxMore Redirections.

Definition WP_REDIRECTS_AFTER_VENTILATION : string :=
  "WordPress-Redirects-After-Ventilation".

(** A value that is a [str] or a tuple of [str]. *)
Inductive str_or_tuple : Type :=
| VStr (s : string)
| VTuple (l : list string).

(** [a + b] on such values: a [TypeError] between a tuple and a [str]. *)
Definition add (a b : str_or_tuple) : result str_or_tuple :=
  match a, b with
  | VStr x, VStr y => Ok (VStr (x +:+ y))
  | VTuple x, VTuple y => Ok (VTuple (x ++ y))
  | _, _ => Raise TypeError
  end.

(** [_update_redirections]. Of the remote site it takes what
    [create_htaccess_backup] answers, and it returns what it has passed to
    [write_htaccess_content], appended to [written]. *)
Definition _update_redirections (is_backup_created : bool)
           (source_site_url destination_site_url : string)
           (written : list str_or_tuple) : result unit * list str_or_tuple :=
  if is_backup_created then
    let new_content := VTuple ["# BEGIN " +:+ WP_REDIRECTS_AFTER_VENTILATION] in
    match
      (do new_content <-
         add new_content
             (VTuple ["RewriteCond %{HTTP_HOST} ^" +:+ source_site_url +:+ "$ [NC]"]);
       do new_content <-
         add new_content
             (VTuple ["RewriteRule ^(.*)$ " +:+ destination_site_url
                      +:+ "$1 [L,QSA,R=301]"]);
       add new_content (VStr ("# END " +:+ WP_REDIRECTS_AFTER_VENTILATION)))
    with
    | Ok new_content => (Ok tt, written ++ [new_content])
    | Raise e => (Raise e, written)
    end
  else (Ok tt, written).

Section Sites.

(** [source_site.get_root_dir_path()], [os.path.join],
    [source_site.get_first_file_name] and
    [destination_site.get_directory_path_contains]: the remote sites and the
    Python library. *)
Variable root_dir_path : string.
Variable path_join : string -> string -> string.
Variable get_first_file_name : string -> string.
Variable get_directory_path_contains : string -> string.

(** The first element of the list that starts with the prefix, or the empty
    string. *)
Fixpoint first_starting_with (prefix : string) (l : list string) : string :=
  match l with
  | [] => ""
  | element :: l' =>
      if startswith prefix element then element
      else first_starting_with prefix l'
  end.

(** [l[-2]]. *)
Definition index_before_last {A : Type} (l : list A) : result A :=
  index (rev l) 1.

(** [update_uploads_path]. *)
Definition update_uploads_path (jahia_files_redirect : string) : result string :=
  let jahia_redirect_list := split " " jahia_files_redirect in
  let remote_uploads_dir_path :=
    first_starting_with "wp-content/uploads/" jahia_redirect_list in
  let remote_jahia_uploads_dir_path :=
    path_join root_dir_path
              (stake (String.length remote_uploads_dir_path - 2)
                     remote_uploads_dir_path) in
  let first_uploads_file := get_first_file_name remote_jahia_uploads_dir_path in
  let directory_path := get_directory_path_contains first_uploads_file in
  do month <- index_before_last (split "/" directory_path);
  Ok (replace remote_uploads_dir_path
              ("wp-content/uploads/2018/" +:+ month +:+ "/$2")
              jahia_files_redirect).

(** [get_jahia_redirections]. *)
Definition get_jahia_redirections (content : string) : result string :=
  do jahia_page_redirect <- extract_htaccess_part content "Jahia-Page-Redirect";
  do jahia_files_redirect <- extract_htaccess_part content "Jahia-Files-Redirect";
  do jahia_files_redirect <- update_uploads_path jahia_files_redirect;
  Ok (join LF [jahia_page_redirect; jahia_files_redirect]).

End Sites.

End RedirectionsMore.

(* ===================================================================== *)
(** ** The post-processing of the content: what is left to fix *)

Module SoupMore.
Import PyStr Soup.

(** Whether an [<img align="left">] is in the tree. *)
Fixpoint has_left_aligned_img (t : tag) : bool :=
  match t with
  | NavigableString _ => false
  | Tag name attrs cs =>
      (String.eqb name "img" && bool_decide (get attrs "align" = Some "left"))
      || existsb has_left_aligned_img cs
  end.

(** Whether an [<h3>] with some text and no [id] is in the tree. *)
Fixpoint has_h3_without_id (t : tag) : bool :=
  match t with
  | NavigableString _ => false
  | Tag name attrs cs =>
      (String.eqb name "h3" && negb (String.eqb (text t) "")
       && negb (bool_decide (is_Some (get attrs "id"))))
      || existsb has_h3_without_id cs
  end.

End SoupMore.

(* ===================================================================== *)
(** * Part II. Properties                                                 *)
(* ===================================================================== *)

(** ** Python strings *)

Module PyStrFacts.
Import PyStr.

Lemma append_empty_r (s : string) : s +:+ "" = s.
Proof. induction s as [|c s IH]; simpl; [reflexivity | now rewrite IH]. Qed.

Lemma append_assoc (a b c : string) : (a +:+ b) +:+ c = a +:+ (b +:+ c).
Proof. induction a as [|x a IH]; simpl; [reflexivity | now rewrite IH]. Qed.

Lemma length_append (a b : string) :
  String.length (a +:+ b) = String.length a + String.length b.
Proof. induction a as [|x a IH]; simpl; [reflexivity | now rewrite IH]. Qed.

Lemma startswith_refl_app (p s : string) : startswith p (p +:+ s) = true.
Proof.
  induction p as [|c p IH]; simpl; [reflexivity |].
  now rewrite Ascii.eqb_refl, IH.
Qed.

Lemma startswith_length (p s : string) :
  startswith p s = true -> String.length p <= String.length s.
Proof.
  revert s; induction p as [|c p IH]; intros [|d s]; simpl; intros H;
    try lia; try discriminate H.
  apply andb_true_iff in H as [_ H]. apply IH in H. lia.
Qed.

Lemma startswith_stake (p s : string) (k : nat) :
  String.length p <= k -> startswith p (stake k s) = startswith p s.
Proof.
  revert s k; induction p as [|c p IH]; intros s k Hk; simpl.
  - now destruct (stake k s).
  - destruct k as [|k]; simpl in Hk; [lia |].
    destruct s as [|d s]; simpl; [reflexivity |].
    rewrite IH by lia. reflexivity.
Qed.

Lemma stake_app_length (a b : string) : stake (String.length a) (a +:+ b) = a.
Proof. induction a as [|c a IH]; simpl; [reflexivity | now rewrite IH]. Qed.

Lemma sdrop_app_length (a b : string) : sdrop (String.length a) (a +:+ b) = b.
Proof. induction a as [|c a IH]; simpl; [reflexivity | exact IH]. Qed.

Lemma sdrop_add (n m : nat) (s : string) : sdrop (n + m) s = sdrop m (sdrop n s).
Proof.
  revert s; induction n as [|n IH]; intros s; simpl; [reflexivity |].
  destruct s as [|c s]; [now destruct m | apply IH].
Qed.

Lemma stake_stake (n k : nat) (s : string) :
  n <= k -> stake n (stake k s) = stake n s.
Proof.
  revert k s; induction n as [|n IH]; intros k s Hk; [reflexivity |].
  destruct k as [|k]; [lia |].
  destruct s as [|c s]; simpl; [reflexivity |].
  now rewrite IH by lia.
Qed.

(** An occurrence anywhere makes [find] succeed, at that place or before. *)
Lemma find_of_occurrence (sub s : string) (i : nat) :
  startswith sub (sdrop i s) = true ->
  exists k, find sub s = Some k /\ k <= i.
Proof.
  revert s; induction i as [|i IH]; intros s H.
  - exists 0. destruct s; simpl in *; rewrite H; split; auto.
  - destruct s as [|c s].
    + simpl in H. exists 0. simpl. rewrite H. split; [reflexivity | lia].
    + simpl in H. cbn [find].
      destruct (startswith sub (String c s)); [exists 0; split; [reflexivity | lia] |].
      destruct (IH s H) as (k & -> & Hk). exists (S k). split; [reflexivity | lia].
Qed.

Lemma find_startswith (sub s : string) (n : nat) :
  find sub s = Some n -> startswith sub (sdrop n s) = true.
Proof.
  revert n; induction s as [|c s IH]; intros n; cbn [find].
  - destruct (startswith sub "") eqn:E; [|discriminate].
    intros [= <-]. exact E.
  - destruct (startswith sub (String c s)) eqn:E.
    + intros [= <-]. exact E.
    + destruct (find sub s) as [k|]; [|discriminate].
      intros [= <-]. simpl. now apply IH.
Qed.

(** Cutting the text after the end of the first occurrence keeps it first. *)
Lemma find_stake (sub s : string) (n k : nat) :
  find sub s = Some n -> n + String.length sub <= k ->
  find sub (stake k s) = Some n.
Proof.
  revert n k; induction s as [|c s IH]; intros n k; cbn [find].
  - destruct (startswith sub "") eqn:E; [|discriminate].
    intros [= <-] Hk. destruct k; simpl; now rewrite E.
  - destruct (startswith sub (String c s)) eqn:E.
    + intros [= <-] Hk. simpl in Hk.
      assert (Hs : startswith sub (stake k (String c s)) = true)
        by (rewrite startswith_stake by lia; exact E).
      destruct (stake k (String c s)); cbn [find]; now rewrite Hs.
    + destruct (find sub s) as [m|] eqn:Em; [|discriminate].
      intros [= <-] Hk.
      destruct k as [|k]; [lia |]. cbn [stake find].
      assert (String.length sub <= S k) by lia.
      rewrite <- (startswith_stake sub (String c s) (S k)) in E by assumption.
      cbn [stake] in E. rewrite E.
      rewrite (IH m k) by (reflexivity || lia). reflexivity.
Qed.

Lemma find_app_first (sub pre rest : string) (n : nat) :
  find sub (pre +:+ sub +:+ rest) = Some n -> n <= String.length pre.
Proof.
  intros H.
  destruct (find_of_occurrence sub (pre +:+ sub +:+ rest) (String.length pre))
    as (k & Hk & Hle).
  - rewrite sdrop_app_length. apply startswith_refl_app.
  - congruence.
Qed.

Lemma split_scan_skip (sep cur : string) (k : nat) (s : string) :
  k <= String.length s ->
  split_scan sep cur k s = split_scan sep cur 0 (sdrop k s).
Proof.
  revert s; induction k as [|k IH]; intros s Hk.
  - now destruct s.
  - destruct s as [|c s]; simpl in Hk; [lia |].
    simpl. apply IH. lia.
Qed.

(** [split] cuts at the first occurrence and goes on after it. *)
Lemma split_scan_find (sep cur s : string) :
  sep <> "" ->
  split_scan sep cur 0 s =
    match find sep s with
    | None => [cur +:+ s]
    | Some n =>
        (cur +:+ stake n s)
          :: split_scan sep "" 0 (sdrop (n + String.length sep) s)
    end.
Proof.
  intros Hsep. revert cur; induction s as [|c s IH]; intros cur.
  - destruct sep as [|a sep]; [congruence |]. simpl.
    now rewrite append_empty_r.
  - cbn [split_scan find].
    destruct (startswith sep (String c s)) eqn:E.
    + cbn [stake]. rewrite append_empty_r.
      pose proof (startswith_length _ _ E) as Hlen. simpl in Hlen.
      destruct sep as [|a sep]; [congruence |].
      cbn [String.length] in *. rewrite split_scan_skip by (simpl; lia).
      replace (S (String.length sep) - 1) with (String.length sep) by lia.
      reflexivity.
    + rewrite IH. destruct (find sep s) as [n|]; cbn [option_map].
      * cbn [stake sdrop Nat.add]. now rewrite append_assoc.
      * now rewrite append_assoc.
Qed.

Lemma split_find (sep s : string) :
  sep <> "" ->
  split sep s =
    match find sep s with
    | None => [s]
    | Some n => stake n s :: split sep (sdrop (n + String.length sep) s)
    end.
Proof.
  intros Hsep. unfold split. rewrite split_scan_find by assumption.
  reflexivity.
Qed.

Lemma split_head (sep t : string) :
  sep <> "" -> index (split sep t) 0 = Ok (cut_at sep t).
Proof.
  intros Hsep. rewrite split_find by assumption. unfold cut_at.
  now destruct (find sep t).
Qed.

(** The first occurrence of a character that the text before it lacks. *)
Lemma find_char_app (c : ascii) (d t : string) :
  contains (String c "") d = false ->
  find (String c "") (d +:+ String c "" +:+ t) = Some (String.length d).
Proof.
  unfold contains. induction d as [|x d IH]; intros H.
  - simpl. now rewrite Ascii.eqb_refl.
  - cbn [find] in H. simpl in H |- *.
    destruct (Ascii.eqb c x); simpl in *; [discriminate H |].
    destruct (find (String c "") d) eqn:E; [discriminate H |].
    rewrite IH by reflexivity. reflexivity.
Qed.

Lemma split_char_app (c : ascii) (d t : string) :
  contains (String c "") d = false ->
  split (String c "") (d +:+ String c "" +:+ t) = d :: split (String c "") t.
Proof.
  intros H. rewrite split_find by discriminate.
  rewrite (find_char_app c d t H).
  rewrite stake_app_length, sdrop_add, sdrop_app_length. reflexivity.
Qed.

End PyStrFacts.

(** ** extract_htaccess_part *)

Module RedirectionsFacts.
Import PyStr PyStrFacts Redirections.

(** What the two [split]s compute, in terms of first occurrences. *)
Lemma extract_htaccess_part_eq (content marker : string) :
  let start_marker := "# BEGIN " +:+ marker in
  let end_marker := "# END " +:+ marker in
  extract_htaccess_part content marker =
    match find start_marker content, find end_marker content with
    | Some i, Some _ =>
        let rest := sdrop (i + String.length start_marker) content in
        Ok (join LF [start_marker; cut_at end_marker (cut_at start_marker rest);
                     end_marker])
    | _, _ => Ok ""
    end.
Proof.
  intros start_marker end_marker. unfold extract_htaccess_part, contains.
  fold start_marker end_marker.
  destruct (find start_marker content) as [i|] eqn:Es;
    destruct (find end_marker content) as [j|] eqn:Ee; cbn [negb andb];
    try reflexivity.
  assert (Hs : start_marker <> "") by discriminate.
  assert (He : end_marker <> "") by discriminate.
  rewrite (split_find start_marker content Hs), Es.
  change (index (?x :: ?l) 1) with (index l 0).
  rewrite split_head by assumption. cbn [rbind].
  rewrite split_head by assumption. reflexivity.
Qed.

(** C10 (as the documentation reads it, refuted): with a second start
    marker before the end marker, the extracted text stops at that second
    start marker, not at the first end marker following the first start
    marker. *)
Lemma extract_htaccess_part_not_between_first_markers :
  between_first_markers "# BEGIN X" "# END X" htaccess_sample
    = Some (LF +:+ "a" +:+ LF +:+ "# BEGIN X" +:+ LF +:+ "b" +:+ LF)
  /\ extract_htaccess_part htaccess_sample "X"
    = Ok ("# BEGIN X" +:+ LF +:+ (LF +:+ "a" +:+ LF) +:+ LF +:+ "# END X")
  /\ ~ (forall content marker between,
          between_first_markers ("# BEGIN " +:+ marker) ("# END " +:+ marker)
            content = Some between ->
          extract_htaccess_part content marker
            = Ok (join LF ["# BEGIN " +:+ marker; between; "# END " +:+ marker])).
Proof.
  split; [reflexivity |]. split; [reflexivity |].
  intros H. specialize (H htaccess_sample "X" _ eq_refl).
  vm_compute in H. discriminate H.
Qed.

(** C10 (amended): the result is empty unless both markers occur; when the
    first start marker is followed by [mid], then the first end marker after
    it, and no further start marker begins before that end marker is over,
    the result is the start marker, [mid] and the end marker joined by
    newlines. *)
Theorem extract_htaccess_part_spec (content marker pre mid post : string) :
  let start_marker := "# BEGIN " +:+ marker in
  let end_marker := "# END " +:+ marker in
  (contains start_marker content && contains end_marker content = false ->
   extract_htaccess_part content marker = Ok "")
  /\ (content = pre +:+ start_marker +:+ mid +:+ end_marker +:+ post ->
      find start_marker content = Some (String.length pre) ->
      find end_marker (mid +:+ end_marker +:+ post) = Some (String.length mid) ->
      (forall k, find start_marker (mid +:+ end_marker +:+ post) = Some k ->
                 String.length mid + String.length end_marker <= k) ->
      extract_htaccess_part content marker
        = Ok (start_marker +:+ LF +:+ mid +:+ LF +:+ end_marker)).
Proof.
  intros start_marker end_marker.
  pose proof (extract_htaccess_part_eq content marker) as Heq.
  cbv zeta in Heq. fold start_marker end_marker in Heq.
  split.
  - intros Hb. rewrite Heq. unfold contains in Hb.
    destruct (find start_marker content); [|reflexivity].
    destruct (find end_marker content); [discriminate Hb | reflexivity].
  - intros Hc Hs He Hnext. rewrite Heq, Hs.
    destruct (find_of_occurrence end_marker content
                (String.length pre + (String.length start_marker + String.length mid)))
      as (j & Hj & _).
    { rewrite Hc, !sdrop_add, !sdrop_app_length. apply startswith_refl_app. }
    rewrite Hj. cbv zeta.
    replace (sdrop (String.length pre + String.length start_marker) content)
      with (mid +:+ end_marker +:+ post)
      by (rewrite Hc, sdrop_add, !sdrop_app_length; reflexivity).
    set (rest := mid +:+ end_marker +:+ post) in *.
    assert (Hcut : cut_at end_marker (cut_at start_marker rest) = mid).
    { unfold cut_at at 2.
      destruct (find start_marker rest) as [k|] eqn:Ek.
      - specialize (Hnext k eq_refl). unfold cut_at.
        rewrite (find_stake end_marker rest (String.length mid) k He Hnext).
        rewrite stake_stake by lia. apply stake_app_length.
      - unfold cut_at. rewrite He. apply stake_app_length. }
    rewrite Hcut. reflexivity.
Qed.

Lemma extract_htaccess_part_spec_witness :
  extract_htaccess_part
    ("x" +:+ "# BEGIN X" +:+ "mid" +:+ "# END X" +:+ "# BEGIN X") "X"
  = Ok ("# BEGIN X" +:+ LF +:+ "mid" +:+ LF +:+ "# END X").
Proof.
  refine (proj2 (extract_htaccess_part_spec
                   ("x" +:+ "# BEGIN X" +:+ "mid" +:+ "# END X" +:+ "# BEGIN X")
                   "X" "x" "mid" "# BEGIN X") _ _ _ _).
  - reflexivity.
  - reflexivity.
  - reflexivity.
  - intros k Hk. vm_compute in Hk. injection Hk as <-. vm_compute. lia.
Defined.

End RedirectionsFacts.

(** ** Sorted dicts *)

Module SortFacts.
Import PyStr Dom BoxPy.

Lemma key_eqb_eq (a b : sort_key) : key_eqb a b = true <-> a = b.
Proof.
  destruct a as [x|x], b as [y|y]; simpl; split; intros H;
    try discriminate H.
  - apply String.eqb_eq in H. now subst.
  - injection H as ->. apply String.eqb_refl.
  - apply Nat.eqb_eq in H. now subst.
  - injection H as ->. apply Nat.eqb_refl.
Qed.

Lemma key_eqb_refl (a : sort_key) : key_eqb a a = true.
Proof. now apply key_eqb_eq. Qed.

Lemma key_eqb_neq (a b : sort_key) : a <> b -> key_eqb a b = false.
Proof.
  intros H. destruct (key_eqb a b) eqn:E; [|reflexivity].
  now apply key_eqb_eq in E.
Qed.

(** A new key goes to the end of the dict. *)
Lemma dict_set_fresh {V : Type} (k : sort_key) (v : V) (d : list (sort_key * V)) :
  k ∉ d.*1 -> dict_set k v d = d ++ [(k, v)].
Proof.
  induction d as [|[k' v'] d IH]; intros Hk; [reflexivity |].
  cbn [dict_set]. rewrite fmap_cons, not_elem_of_cons in Hk.
  destruct Hk as [Hne Hk]. cbn [fst] in Hne.
  rewrite (key_eqb_neq k k' Hne), IH by assumption. reflexivity.
Qed.

Lemma index_keyed_keys (items : list string) :
  (index_keyed items).*1 = KInt <$> seq 0 (length items).
Proof.
  unfold index_keyed. rewrite fmap_imap.
  apply (imap_seq_0 items KInt).
Qed.

Lemma index_keyed_values (items : list string) : (index_keyed items).*2 = items.
Proof.
  unfold index_keyed. rewrite fmap_imap.
  transitivity (imap (const id) items).
  - apply imap_ext. reflexivity.
  - rewrite imap_const. apply list_fmap_id.
Qed.

Lemma index_keyed_snoc (items : list string) (item : string) :
  dict_set (KInt (length items)) item (index_keyed items)
  = index_keyed (items ++ [item]).
Proof.
  rewrite dict_set_fresh.
  - unfold index_keyed. rewrite imap_app. cbn [imap compose].
    now rewrite Nat.add_0_r.
  - rewrite index_keyed_keys. intros Hin.
    apply list_elem_of_fmap in Hin as (i & [= <-] & Hi).
    apply elem_of_seq in Hi. lia.
Qed.

Lemma dict_find_cons_ne {V : Type} (kv : sort_key * V) (d : list (sort_key * V))
      (keys : list sort_key) :
  kv.1 ∉ keys -> omap (dict_find (kv :: d)) keys = omap (dict_find d) keys.
Proof.
  intros Hk. apply list_omap_ext. apply Forall2_same_length_lookup_2; [reflexivity |].
  intros i x y Hx Hy. assert (x = y) by congruence. subst y.
  unfold dict_find. cbn [List.find].
  rewrite key_eqb_neq; [reflexivity |].
  intros ->. apply Hk. eapply list_elem_of_lookup_2. eassumption.
Qed.

(** Reading a dict at its own keys gives its values, in order. *)
Lemma dict_find_own_keys {V : Type} (d : list (sort_key * V)) :
  NoDup d.*1 -> omap (dict_find d) d.*1 = d.*2.
Proof.
  induction d as [|[k v] d IH]; intros Hnd; [reflexivity |].
  rewrite !fmap_cons in *. cbn [fst snd] in *.
  apply NoDup_cons in Hnd as [Hk Hnd].
  cbn [omap list_omap]. unfold dict_find at 1. cbn [List.find fst].
  rewrite key_eqb_refl. cbn [fmap option_fmap option_map snd].
  rewrite dict_find_cons_ne by exact Hk. now rewrite IH.
Qed.

Lemma omap_rev {A B : Type} (f : A -> option B) (l : list A) :
  omap f (rev l) = rev (omap f l).
Proof.
  induction l as [|x l IH]; [reflexivity |].
  cbn [rev]. rewrite omap_app, IH. cbn [omap list_omap].
  destruct (f x); cbn [rev]; [reflexivity | now rewrite app_nil_r].
Qed.

Lemma insert_sorted_last {A : Type} (lt : A -> A -> result bool) (x : A) (l : list A) :
  Forall (fun y => lt x y = Ok false) l -> insert_sorted lt x l = Ok (l ++ [x]).
Proof.
  induction 1 as [|y l Hy _ IH]; [reflexivity |].
  cbn [insert_sorted]. rewrite Hy. cbn [rbind]. rewrite IH. reflexivity.
Qed.

(** Sorting running indices that come in increasing order. *)
Lemma sort_into_increasing (m n : nat) :
  sort_into key_lt (KInt <$> seq 0 n) (KInt <$> seq n m)
  = Ok (KInt <$> seq 0 (n + m)).
Proof.
  revert n; induction m as [|m IH]; intros n.
  - now rewrite Nat.add_0_r.
  - cbn [seq fmap list_fmap sort_into].
    rewrite insert_sorted_last.
    + cbn [rbind]. replace (n + S m) with (S n + m) by lia.
      rewrite <- IH. rewrite seq_S, fmap_app. reflexivity.
    + apply Forall_fmap, Forall_forall. intros i Hi.
      apply elem_of_seq in Hi. cbn [compose key_lt]. f_equal.
      apply Nat.ltb_ge. lia.
Qed.

(** Sorting running indices that come in decreasing order. *)
Lemma sort_into_decreasing (n k : nat) :
  sort_into key_lt (KInt <$> seq n k) (KInt <$> rev (seq 0 n))
  = Ok (KInt <$> seq 0 (n + k)).
Proof.
  revert k; induction n as [|n IH]; intros k; [reflexivity |].
  rewrite seq_S, rev_app_distr. cbn [rev app Nat.add fmap list_fmap sort_into].
  assert (Hins : insert_sorted key_lt (KInt n) (KInt <$> seq (S n) k)
                 = Ok (KInt <$> seq n (S k))).
  { destruct k as [|k]; [reflexivity |].
    cbn [seq fmap list_fmap insert_sorted key_lt].
    replace (Nat.ltb n (S n)) with true by (symmetry; apply Nat.ltb_lt; lia).
    reflexivity. }
  rewrite Hins. cbn [rbind]. rewrite IH. f_equal. f_equal. f_equal. lia.
Qed.

Lemma sorted_running_indices (n : nat) (reverse : bool) :
  sorted key_lt (KInt <$> seq 0 n) reverse
  = Ok (if reverse then rev (KInt <$> seq 0 n) else KInt <$> seq 0 n).
Proof.
  unfold sorted. destruct reverse.
  - assert (Hrev : rev (KInt <$> seq 0 n) = KInt <$> rev (seq 0 n))
      by (symmetry; apply (map_rev KInt)).
    pose proof (sort_into_decreasing n 0) as Hsort.
    change (KInt <$> seq n 0) with (@nil sort_key) in Hsort.
    rewrite Nat.add_0_r in Hsort.
    rewrite Hrev at 1. rewrite Hsort. reflexivity.
  - apply (sort_into_increasing n 0).
Qed.

(** A group whose items are stored under their running indices gives them
    back in the order of insertion, or in the reverse order when its
    direction is [desc]. *)
Lemma get_sorted_boxes_index_keyed (u f way : string) (items : list string) :
  get_sorted_boxes {| uuid := u; sort_field := f; sort_way := way;
                      boxes := index_keyed items |}
  = Ok (if String.eqb way "desc" then rev items else items).
Proof.
  unfold get_sorted_boxes. cbn [boxes sort_way].
  change (map fst (index_keyed items)) with ((index_keyed items).*1).
  pose proof (index_keyed_keys items) as Hkeys.
  assert (Hnd : NoDup (index_keyed items).*1).
  { rewrite Hkeys. apply NoDup_fmap_2; [intros ? ? [= ->]; reflexivity |].
    apply NoDup_seq. }
  pose proof (dict_find_own_keys (index_keyed items) Hnd) as Hfind.
  rewrite index_keyed_values in Hfind.
  rewrite Hkeys at 1. rewrite sorted_running_indices. cbn [rbind].
  rewrite <- Hkeys.
  destruct (String.eqb way "desc").
  - now rewrite omap_rev, Hfind.
  - now rewrite Hfind.
Qed.

(** *** Keys of both types *)

Lemma key_eqb_kind (a b : sort_key) :
  key_eqb a b = true -> key_is_str a = key_is_str b.
Proof. intros H. apply key_eqb_eq in H. now subst. Qed.

Lemma has_kind_dict_set (kind : bool) (k : sort_key) (v : string)
      (d : list (sort_key * string)) :
  has_kind kind (dict_set k v d)
  = has_kind kind d || Bool.eqb (key_is_str k) kind.
Proof.
  unfold has_kind. induction d as [|[k' v'] d IH]; cbn [dict_set existsb fst].
  - now rewrite orb_false_r.
  - destruct (key_eqb k k') eqn:E; cbn [existsb fst].
    + rewrite (key_eqb_kind k k' E).
      destruct (Bool.eqb (key_is_str k') kind); cbn [orb]; [reflexivity |].
      now rewrite orb_false_r.
    + rewrite IH. now rewrite orb_assoc.
Qed.

Lemma item_lt_other_kind (x y : sort_key * string) :
  key_is_str (fst x) <> key_is_str (fst y) -> item_lt x y = Raise TypeError.
Proof.
  destruct x as [[a|a] u], y as [[b|b] w]; cbn [fst key_is_str]; intros H;
    congruence || reflexivity.
Qed.

Lemma item_lt_same_kind (x y : sort_key * string) :
  key_is_str (fst x) = key_is_str (fst y) -> exists r, item_lt x y = Ok r.
Proof.
  unfold item_lt.
  destruct x as [[a|a] u], y as [[b|b] w]; cbn [fst snd key_is_str key_eqb key_lt];
    intros H; try discriminate H.
  - destruct (String.eqb a b); eauto.
  - destruct (Nat.eqb a b); eauto.
Qed.

(** Among keys of one type the insertion returns, and keeps the type. *)
Lemma insert_sorted_same_kind (kind : bool) (x : sort_key * string)
      (acc : list (sort_key * string)) :
  key_is_str (fst x) = kind -> all_kind kind acc = true ->
  exists acc', insert_sorted item_lt x acc = Ok acc'
               /\ all_kind kind acc' = true /\ acc' <> [].
Proof.
  intros Hx. unfold all_kind.
  induction acc as [|y acc IH]; intros Hacc.
  - exists [x]. cbn [insert_sorted forallb]. rewrite Hx, eqb_reflx.
    repeat split; discriminate.
  - cbn [forallb] in Hacc. apply andb_true_iff in Hacc as [Hy Hacc].
    apply eqb_prop in Hy.
    destruct (item_lt_same_kind x y ltac:(congruence)) as [r Hr].
    cbn [insert_sorted]. rewrite Hr. cbn [rbind]. destruct r.
    + exists (x :: y :: acc). cbn [forallb].
      rewrite Hx, Hy, eqb_reflx, Hacc. repeat split; discriminate.
    + destruct (IH Hacc) as (acc' & -> & Hall & _). cbn [rbind].
      exists (y :: acc'). cbn [forallb]. rewrite Hy, eqb_reflx, Hall.
      repeat split; discriminate.
Qed.

(** The first comparison with a key of the other type raises. *)
Lemma insert_sorted_other_kind (kind : bool) (x : sort_key * string)
      (acc : list (sort_key * string)) :
  key_is_str (fst x) <> kind -> all_kind kind acc = true -> acc <> [] ->
  insert_sorted item_lt x acc = Raise TypeError.
Proof.
  intros Hx Hacc Hne. destruct acc as [|y acc]; [congruence |].
  cbn [all_kind forallb] in Hacc. apply andb_true_iff in Hacc as [Hy _].
  apply eqb_prop in Hy. cbn [insert_sorted].
  rewrite item_lt_other_kind by congruence. reflexivity.
Qed.

Lemma sort_into_other_kind (kind : bool) (l acc : list (sort_key * string)) :
  all_kind kind acc = true -> acc <> [] -> has_kind (negb kind) l = true ->
  sort_into item_lt acc l = Raise TypeError.
Proof.
  revert acc; induction l as [|x l IH]; intros acc Hacc Hne Hl; [discriminate Hl |].
  cbn [sort_into]. destruct (Bool.eqb (key_is_str (fst x)) kind) eqn:Ex.
  - apply eqb_prop in Ex.
    destruct (insert_sorted_same_kind kind x acc Ex Hacc) as (acc' & -> & Hall & Hne').
    cbn [rbind]. apply IH; [exact Hall | exact Hne' |].
    cbn [has_kind existsb] in Hl. rewrite Ex in Hl.
    destruct kind; cbn [negb Bool.eqb orb] in Hl; exact Hl.
  - rewrite (insert_sorted_other_kind kind x acc); [reflexivity | | exact Hacc | exact Hne].
    intros Heq. rewrite Heq, eqb_reflx in Ex. discriminate Ex.
Qed.

Lemma has_kind_rev (kind : bool) (l : list (sort_key * string)) :
  has_kind kind (rev l) = has_kind kind l.
Proof.
  unfold has_kind. induction l as [|x l IH]; [reflexivity |].
  cbn [rev existsb]. rewrite existsb_app, IH. cbn [existsb].
  rewrite orb_false_r. apply orb_comm.
Qed.

(** Sorting the items of a dict that has a [str] key and an [int] key
    raises a [TypeError], in either direction. *)
Lemma sorted_mixed_keys (l : list (sort_key * string)) (reverse : bool) :
  has_kind true l = true -> has_kind false l = true ->
  sorted item_lt l reverse = Raise TypeError.
Proof.
  assert (Hsort : forall l, has_kind true l = true -> has_kind false l = true ->
                            sort_into item_lt [] l = Raise TypeError).
  { clear l. intros [|x l] Hs Hi; [discriminate Hs |].
    cbn [sort_into insert_sorted rbind].
    apply (sort_into_other_kind (key_is_str (fst x))).
    - cbn [all_kind forallb]. now rewrite eqb_reflx.
    - discriminate.
    - cbn [has_kind existsb] in Hs, Hi.
      destruct (key_is_str (fst x)); cbn [Bool.eqb negb orb] in *; assumption. }
  intros Hs Hi. unfold sorted. destruct reverse.
  - rewrite Hsort by (now rewrite has_kind_rev). reflexivity.
  - now apply Hsort.
Qed.

Lemma fold_left_Raise {A X : Type} (step : result A -> X -> result A) (xs : list X)
      (e : exn) :
  (forall x, step (Raise e) x = Raise e) ->
  fold_left step xs (Raise e) = Raise e.
Proof.
  intros Hstep. induction xs as [|x xs IH]; [reflexivity |].
  cbn [fold_left]. now rewrite Hstep.
Qed.

(** A loop that stores each item under the number of boxes collected so
    far fills the group with the items under their running indices. *)
Lemma fold_left_index_keyed {X : Type}
      (step : result BoxSortedGroup -> X -> result BoxSortedGroup)
      (item : X -> string) (xs : list X) :
  (forall g x, In x xs ->
               step (Ok g) x
               = Ok (add_box_to_sort g (item x) (KInt (length (boxes g))))) ->
  forall u f way items,
    fold_left step xs (Ok {| uuid := u; sort_field := f; sort_way := way;
                             boxes := index_keyed items |})
    = Ok {| uuid := u; sort_field := f; sort_way := way;
            boxes := index_keyed (items ++ map item xs) |}.
Proof.
  induction xs as [|x xs IH]; intros Hstep u f way items.
  - now rewrite app_nil_r.
  - cbn [fold_left map]. rewrite Hstep by (now left).
    unfold add_box_to_sort. cbn [uuid sort_field sort_way boxes].
    unfold index_keyed at 1 2. rewrite length_imap.
    fold (index_keyed items). rewrite index_keyed_snoc.
    rewrite IH by (intros; apply Hstep; now right).
    now rewrite <- app_assoc.
Qed.

End SortFacts.

(** ** The box: type, scheduler, news parameters *)

Module BoxFacts.
Import PyStr PyStrFacts Dom BoxPy.

Lemma types_table_keys_NoDup : NoDup (types_table.*1).
Proof. apply (bool_decide_unpack _). vm_compute. exact I. Qed.

Lemma set_type_unfold (element : node) (b : Box) :
  set_type element b =
    let raw := getAttribute element "jcr:primaryType" in
    if String.eqb raw "" then (Ok tt, b)
    else set_type_attr (default raw (types !! raw)) b.
Proof.
  unfold set_type. cbv zeta.
  destruct (String.eqb (getAttribute element "jcr:primaryType") ""); [reflexivity |].
  now destruct (types !! getAttribute element "jcr:primaryType").
Qed.

(** C9: [set_type] gives the canonical tag of a known identifier, an
    unknown identifier itself, and nothing for a missing one, in which case
    the constructor leaves the content empty and calls neither transformer
    nor post-processing; resolving again changes nothing. *)
Theorem Box_type_resolution
        (set_content : node -> bool -> M unit) (element : node) (multibox : bool) :
  let raw := getAttribute element "jcr:primaryType" in
  let b := snd (set_type element blank_box) in
  (forall t, In (raw, t) types_table -> type b = t)
  /\ (raw <> "" -> ~ In raw (map fst types_table) -> type b = raw)
  /\ (raw = "" ->
      type b = ""
      /\ Box_init set_content element multibox
         = (Ok tt,
            {| type := ""; shortcode_name := "";
               title := get_tag_attribute element "boxTitle" "jahia:value";
               content := ""; is_in_sidebar := false;
               shortcode_attributes_to_fix := []; registered := [] |}))
  /\ set_type element b = (Ok tt, b).
Proof.
  intros raw b. subst b. rewrite set_type_unfold. fold raw. cbv zeta.
  split; [|split; [|split]].
  - intros t Hin.
    assert (Hlook : types !! raw = Some t).
    { apply elem_of_list_to_map_1; [apply types_table_keys_NoDup |].
      now apply list_elem_of_In. }
    assert (Hne : String.eqb raw "" = false).
    { apply String.eqb_neq. intros Heq. rewrite Heq in Hlook.
      vm_compute in Hlook. discriminate Hlook. }
    rewrite Hne, Hlook. reflexivity.
  - intros Hne Hnot.
    assert (Hlook : types !! raw = None).
    { apply not_elem_of_list_to_map_1. intros Hin. apply Hnot.
      now apply list_elem_of_In. }
    apply String.eqb_neq in Hne. rewrite Hne, Hlook. reflexivity.
  - intros Heq. split.
    + rewrite Heq. reflexivity.
    + unfold Box_init, bind. cbn [set_type_attr set_shortcode_name].
      rewrite set_type_unfold. fold raw. cbv zeta. rewrite Heq. reflexivity.
  - rewrite set_type_unfold. fold raw. cbv zeta.
    destruct (String.eqb raw ""); reflexivity.
Qed.

Lemma Box_type_resolution_witness :
  type (snd (set_type Samples.faq_box blank_box)) = TYPE_FAQ
  /\ type (snd (set_type Samples.foreign_box blank_box)) = "epfl:weatherBox"
  /\ content (snd (Box_init (fun _ _ => set_content_attr "never") Samples.untyped_box false))
     = "".
Proof.
  split; [|split].
  - apply (proj1 (Box_type_resolution (fun _ _ => ret tt) Samples.faq_box false)).
    vm_compute. tauto.
  - apply (proj1 (proj2 (Box_type_resolution (fun _ _ => ret tt)
                                             Samples.foreign_box false))).
    + discriminate.
    + vm_compute. intuition discriminate.
  - rewrite (proj2 (proj1 (proj2 (proj2
      (Box_type_resolution (fun _ _ => set_content_attr "never")
                           Samples.untyped_box false))) eq_refl)).
    reflexivity.
Defined.






(** C8 (the code fails it): when the URL has a [themes] parameter and no
    [theme] parameter, [_extract_epfl_news_parameters] does not return: it
    tests the key [themes] and then reads the key [theme]. *)
Theorem extract_epfl_news_parameters_themes_raises
        (parse_qs_query : string -> gmap string (list string)) (url : string) :
  is_Some (parse_qs_query url !! "themes") ->
  parse_qs_query url !! "theme" = None ->
  is_ok (_extract_epfl_news_parameters parse_qs_query url) = false.
Proof.
  unfold _extract_epfl_news_parameters.
  generalize (parse_qs_query url) as parameters.
  intros parameters Hthemes Htheme. unfold extract_epfl_news_parameters_of.
  assert (Hhas : dict_has parameters "themes" = true)
    by (unfold dict_has; now apply bool_decide_eq_true).
  assert (Hget : dict_get parameters "theme" = Raise KeyError)
    by (unfold dict_get; now rewrite Htheme).
  rewrite Hhas, Hget.
  repeat match goal with
         | |- context [rbind ?r _] =>
             lazymatch r with
             | Raise _ => cbn [rbind]
             | _ => destruct r; cbn [rbind]
             end
         end; reflexivity.
Qed.

Lemma extract_epfl_news_parameters_themes_raises_witness :
  is_ok (_extract_epfl_news_parameters (fun _ => Samples.news_parameters)
                                       Samples.news_url) = false
  /\ _extract_epfl_news_parameters (fun _ => Samples.news_parameters)
                                   Samples.news_url = Raise KeyError.
Proof.
  split.
  - apply extract_epfl_news_parameters_themes_raises.
    + exists ["1"; "4"]. reflexivity.
    + reflexivity.
  - reflexivity.
Defined.

(** What [_extract_epfl_news_parameters] returns when it returns: the
    sticker flag is ["no"] exactly when a [sticker] parameter is there, and the
    projects are the whole list of the [project] parameter. *)
Lemma extract_epfl_news_parameters_returned
      (parameters : gmap string (list string))
      (channel_id lang template category stickers : string)
      (themes projects : str_or_list) :
  extract_epfl_news_parameters_of parameters
  = Ok (channel_id, lang, template, category, themes, stickers, projects) ->
  stickers = (if dict_has parameters "sticker" then "no" else "yes")
  /\ (forall l, parameters !! "project" = Some l -> projects = AList l).
Proof.
  unfold extract_epfl_news_parameters_of. intros H.
  repeat match type of H with
         | rbind ?r _ = _ =>
             let E := fresh "E" in
             destruct r eqn:E; cbn [rbind] in H; [|discriminate H]
         end.
  injection H as <- <- <- <- <- <- <-. split; [reflexivity |].
  intros l Hl.
  match goal with
  | E : (if dict_has parameters "project" then _ else _) = Ok ?p |- ?p = _ =>
      unfold dict_has, dict_get in E; rewrite Hl in E;
      rewrite bool_decide_eq_true_2 in E by eauto;
      cbn [rbind] in E; now injection E as <-
  end.
Qed.

End BoxFacts.

(** ** The transformers: snippets, buttons, links, combo text *)

Module TransformerFacts.
Import PyStr PyStrFacts Dom BoxPy SortFacts.

Section WithCollaborators.

Variable handle_custom_chars : string -> string.
Variable jahia_resource_default_value : string -> result (option string).
Variable twitter_transform : string -> result string.
Variable env : Env.

Lemma prescan_not_truthy (tag : string) (snippets : list node) :
  forallb (has_sort_value tag) snippets = false ->
  truthy (prescan_sort_tag (Some tag) snippets) = false.
Proof.
  intros H. unfold prescan_sort_tag.
  change (default "" (Some tag)) with tag.
  destruct (truthy (Some tag)) eqn:E; [|exact E].
  rewrite H. reflexivity.
Qed.

(** C7: in a Snippets box whose sort descriptor names a tag for which
    some entry has no value, the first loop switches sorting off for the
    whole group: every entry is stored under its insertion index, and
    [set_box_snippets] returns; the items come out by index, in the
    direction of the descriptor. *)
Theorem set_box_snippets_sort_fallback
        (element snippet_list_list : node) (others : list node)
        (way : string) (b : Box) :
  let sort_params := getAttribute snippet_list_list "jahia:sortHandler" in
  let snippets := getElementsByTagName snippet_list_list "snippetList" in
  let items := map (snippet_content handle_custom_chars env element) snippets in
  getElementsByTagName element "snippetListList" = snippet_list_list :: others ->
  sort_params <> "" ->
  index (split ";" sort_params) 1 = Ok way ->
  forallb (has_sort_value (last_segment_of_first_field sort_params)) snippets
    = false ->
  snippet_boxes_of handle_custom_chars env element snippet_list_list
  = Ok {| uuid := ""; sort_field := ""; sort_way := way;
          boxes := imap (fun i item => (KInt i, item)) items |}
  /\ fst (set_box_snippets handle_custom_chars env element b) = Ok tt
  /\ content (snd (set_box_snippets handle_custom_chars env element b))
     = (if negb (String.eqb (title b) "")
        then "<h3>" +:+ title b +:+ "</h3>" else "")
         +:+ join "" (if String.eqb way "desc" then rev items else items).
Proof.
  intros sort_params snippets items Hlist Hne Hway Hlack.
  assert (Hboxes :
    snippet_boxes_of handle_custom_chars env element snippet_list_list
    = Ok {| uuid := ""; sort_field := ""; sort_way := way;
            boxes := index_keyed items |}).
  { unfold snippet_boxes_of, sort_settings. fold sort_params.
    apply String.eqb_neq in Hne. rewrite Hne. cbn [negb].
    rewrite Hway. cbn [rbind]. fold snippets.
    change ("" +:+ ?x) with x.
    pose proof (prescan_not_truthy _ _ Hlack) as Htruthy.
    unfold new_BoxSortedGroup.
    change (@nil (sort_key * string)) with (index_keyed []).
    rewrite (fold_left_index_keyed _
               (snippet_content handle_custom_chars env element)).
    - reflexivity.
    - intros g x _. unfold snippet_step. cbn [rbind].
      rewrite Htruthy. reflexivity. }
  split; [exact Hboxes |].
  unfold set_box_snippets, bind, lift, get.
  cbn [set_shortcode_name register_shortcode]. rewrite Hlist.
  cbn [set_content_attr title fst snd]. rewrite Hboxes.
  rewrite get_sorted_boxes_index_keyed. cbn [content fst snd].
  split; reflexivity.
Qed.

Lemma entry_sort_value_lacking (tag attr msg : string) (e : node)
      (g : BoxSortedGroup) :
  tag <> "" -> lacks_sort_value tag attr e = true ->
  entry_sort_value (Some tag) attr msg e g = Raise (Exception msg).
Proof.
  intros Hne Hlack. unfold entry_sort_value, lacks_sort_value in *.
  change (default "" (Some tag)) with tag.
  cbn [truthy]. apply String.eqb_neq in Hne. rewrite Hne. cbn [negb].
  destruct (getElementsByTagName e tag) as [|t ts]; [reflexivity |].
  now rewrite Hlack.
Qed.

Lemma button_step_Raise (box_type : string) (tag : option string) (e : exn)
      (x : node) :
  button_step handle_custom_chars jahia_resource_default_value env
              box_type tag (Raise e) x = Raise e.
Proof. reflexivity. Qed.

(** One button without a sort value makes the loop over the buttons
    raise, wherever that button stands. *)
Lemma buttons_loop_raises (box_type tag : string) (items : list node)
      (item : node) :
  tag <> "" -> In item items ->
  lacks_sort_value tag "jahia:title" item = true ->
  forall acc,
    is_ok (fold_left
             (button_step handle_custom_chars jahia_resource_default_value env
                          box_type (Some tag)) items acc) = false.
Proof.
  intros Hne Hin Hlack. induction items as [|x xs IH]; [destruct Hin |].
  intros acc. cbn [fold_left].
  destruct acc as [g|e].
  - destruct Hin as [-> | Hin]; [|now apply IH].
    unfold button_step at 2. cbn [rbind].
    rewrite entry_sort_value_lacking by assumption. cbn [rbind].
    rewrite fold_left_Raise by apply button_step_Raise. reflexivity.
  - rewrite button_step_Raise.
    rewrite fold_left_Raise by apply button_step_Raise. reflexivity.
Qed.

(** C3: in a Buttons box whose container has a sort descriptor, a button
    without the sort tag, or with an empty sort value, makes
    [set_box_buttons] raise, and the content of the box is what it was
    before the call (the empty string of the constructor). *)
Theorem set_box_buttons_missing_sort_value
        (element container item : node) (others : list node) (b : Box) :
  let small := contains "small" (getAttribute element "jcr:primaryType") in
  let sort_params := getAttribute container "jahia:sortHandler" in
  let sort_tag_name := "jahia:" +:+ last_segment_of_first_field sort_params in
  getElementsByTagName element
    (if small then "smallButtonListList" else "bigButtonListList")
    = container :: others ->
  sort_params <> "" ->
  In item (getElementsByTagName element
             (if small then "smallButtonList" else "bigButtonList")) ->
  lacks_sort_value sort_tag_name "jahia:title" item = true ->
  let after := set_box_buttons handle_custom_chars jahia_resource_default_value
                               env element b in
  is_ok (fst after) = false /\ content (snd after) = content b.
Proof.
  intros small sort_params sort_tag_name Hcont Hne Hin Hlack after.
  assert (Htag : sort_tag_name <> "") by (subst sort_tag_name; discriminate).
  subst after. unfold set_box_buttons, bind, lift.
  cbn [set_shortcode_name register_shortcode]. fold small.
  destruct small; rewrite Hcont; cbn [index nth_error]; fold sort_params;
    unfold sort_settings; apply String.eqb_neq in Hne; rewrite Hne;
    cbn [negb];
    (destruct (index (split ";" sort_params) 1) as [way|e]; cbn [rbind];
     [|split; reflexivity]);
    fold sort_tag_name;
    match goal with
    | |- context [fold_left (button_step _ _ _ ?bt ?tg) ?items ?acc] =>
        pose proof (buttons_loop_raises bt sort_tag_name items item
                      Htag Hin Hlack acc) as Hloop;
        destruct (fold_left
                    (button_step handle_custom_chars
                                 jahia_resource_default_value env bt tg)
                    items acc); [discriminate Hloop |]
    end;
    split; reflexivity.
Qed.

End WithCollaborators.

Lemma link_item_not_empty (url title desc : string) (rest : list string) :
  String.eqb ("<ul>" +:+ join "" (link_item url title desc :: rest) +:+ "</ul>")
             "<ul></ul>" = false.
Proof. destruct rest; reflexivity. Qed.

(** Induction on a DOM node, with the hypothesis for every child. *)
Lemma node_induction (P : node -> Prop) :
  (forall data, P (Text data)) ->
  (forall name attrs cs, Forall P cs -> P (Element name attrs cs)) ->
  forall n, P n.
Proof.
  intros Htext Helem.
  refine (fix IH (n : node) : P n :=
            match n with
            | Text data => Htext data
            | Element name attrs cs =>
                Helem name attrs cs
                      ((fix children (l : list node) : Forall P l :=
                          match l with
                          | [] => @List.Forall_nil _ P
                          | c :: l' =>
                              @List.Forall_cons _ P c l' (IH c) (children l')
                          end) cs)
            end).
Qed.

Lemma getElementsByTagName_elements (n : node) (name : string) :
  Forall (fun e => is_element e = true) (getElementsByTagName n name).
Proof.
  induction n as [data | tag attrs cs IH] using node_induction.
  - constructor.
  - cbn [getElementsByTagName].
    induction IH as [|c cs Hc _ IHcs]; [constructor |].
    cbn [flat_map]. rewrite !Forall_app. split; [split |].
    + destruct c as [t a l | d]; cbn [named].
      * destruct (String.eqb name "*" || String.eqb t name); repeat constructor.
      * constructor.
    + exact Hc.
    + exact IHcs.
Qed.

Lemma link_html_is_item (env : Env) (e : node) :
  exists url title desc, link_html env e = link_item url title desc.
Proof.
  unfold link_html.
  destruct (fold_left (link_node_step env) (childNodes e) ("", "", ""))
    as [[desc title] url].
  now exists url, title, desc.
Qed.

(** Without sort descriptor, [_parse_links_to_list] returns, and its list has
    one item for each [<links>] element, in document order: an entry is never
    left out, whether its page is in the registry or not. *)
Lemma parse_links_one_item_per_entry (env : Env) (element : node) :
  getAttribute element "jahia:sortHandler" = "" ->
  _parse_links_to_list env element
  = Ok (match getElementsByTagName element "links" with
        | [] => ""
        | entries => "<ul>" +:+ join "" (map (link_html env) entries) +:+ "</ul>"
        end).
Proof.
  intros Hsort. unfold _parse_links_to_list, links_boxes_of.
  rewrite Hsort. cbn [sort_settings String.eqb negb rbind].
  unfold new_BoxSortedGroup.
  change (@nil (sort_key * string)) with (index_keyed []).
  rewrite (fold_left_index_keyed _ (link_html env)).
  - cbn [rbind app]. rewrite get_sorted_boxes_index_keyed.
    cbn [String.eqb Ascii.eqb Bool.eqb rbind].
    destruct (getElementsByTagName element "links") as [|e entries];
      [reflexivity |].
    cbn [map]. destruct (link_html_is_item env e) as (url & title & desc & ->).
    now rewrite link_item_not_empty.
  - intros g x Hin. unfold links_step. cbn [rbind entry_sort_value truthy].
    pose proof (getElementsByTagName_elements element "links") as Hall.
    rewrite Forall_forall in Hall.
    rewrite (Hall x) by (now apply list_elem_of_In). reflexivity.
Qed.

Lemma link_html_unresolved (env : Env) (desc title reference : string) :
  pages_by_uuid env !! reference = None ->
  link_html env (Samples.links_entry_internal desc title reference)
  = link_item "" title desc.
Proof.
  intros Hnone. unfold link_html, Samples.links_entry_internal.
  cbn [childNodes fold_left link_node_step link_tag_step is_element negb tagName
       String.eqb Ascii.eqb Bool.eqb orb andb getAttribute assoc default
       from_option id resolve_jahia_tag].
  rewrite Hnone. reflexivity.
Qed.

Lemma link_html_external (env : Env) (desc title url : string) :
  link_html env (Samples.links_entry_external desc title url)
  = link_item url title desc.
Proof. reflexivity. Qed.

(** C2 (as the specification reads, refuted): the entry whose page is not
    in the registry is not skipped; the list has two items, the first one
    with an empty [href]. *)
Lemma parse_links_unresolved_not_skipped :
  _parse_links_to_list Samples.site_env
    (Samples.links_list
       [Samples.links_entry_internal "gone" "Old page" "uuid-404";
        Samples.links_entry_external "" "EPFL" "https://www.epfl.ch"])
  = Ok ("<ul>" +:+ link_item "" "Old page" "gone"
               +:+ link_item "https://www.epfl.ch" "EPFL" "" +:+ "</ul>")
  /\ pages_by_uuid Samples.site_env !! "uuid-404" = None
  /\ count "<li>" ("<ul>" +:+ link_item "" "Old page" "gone"
                        +:+ link_item "https://www.epfl.ch" "EPFL" ""
                        +:+ "</ul>") = 2.
Proof. split; [|split]; reflexivity. Qed.

(** C2 (amended): for a link list, without sort descriptor, of one entry
    whose [jahia:link] names a page that is not in the registry and one
    entry with an external [jahia:url], in either order,
    [_parse_links_to_list] returns, and the list has both items in document
    order: the unresolved entry keeps its title and description and gets an
    empty [href], the external entry gets its URL. *)
Theorem parse_links_unresolved_entry_kept
        (env : Env) (desc1 title1 reference desc2 title2 url : string) :
  pages_by_uuid env !! reference = None ->
  _parse_links_to_list env
    (Samples.links_list
       [Samples.links_entry_internal desc1 title1 reference;
        Samples.links_entry_external desc2 title2 url])
  = Ok ("<ul>" +:+ join "" [link_item "" title1 desc1; link_item url title2 desc2]
               +:+ "</ul>")
  /\ _parse_links_to_list env
       (Samples.links_list
          [Samples.links_entry_external desc2 title2 url;
           Samples.links_entry_internal desc1 title1 reference])
     = Ok ("<ul>" +:+ join "" [link_item url title2 desc2; link_item "" title1 desc1]
                  +:+ "</ul>").
Proof.
  intros Hnone.
  pose proof (link_html_unresolved env desc1 title1 reference Hnone) as Hint.
  pose proof (link_html_external env desc2 title2 url) as Hext.
  split.
  - unfold _parse_links_to_list, links_boxes_of.
    change (getAttribute (Samples.links_list _) "jahia:sortHandler") with "".
    cbn [sort_settings String.eqb negb rbind].
    change (getElementsByTagName (Samples.links_list ?l) "links") with l.
    cbn [fold_left links_step rbind is_element negb Samples.links_entry_internal
         Samples.links_entry_external entry_sort_value truthy].
    fold (Samples.links_entry_internal desc1 title1 reference).
    fold (Samples.links_entry_external desc2 title2 url).
    rewrite Hint, Hext.
    change (get_sorted_boxes _)
      with (Ok (A := list string)
               [link_item "" title1 desc1; link_item url title2 desc2]).
    cbn [rbind]. now rewrite link_item_not_empty.
  - unfold _parse_links_to_list, links_boxes_of.
    change (getAttribute (Samples.links_list _) "jahia:sortHandler") with "".
    cbn [sort_settings String.eqb negb rbind].
    change (getElementsByTagName (Samples.links_list ?l) "links") with l.
    cbn [fold_left links_step rbind is_element negb Samples.links_entry_internal
         Samples.links_entry_external entry_sort_value truthy].
    fold (Samples.links_entry_internal desc1 title1 reference).
    fold (Samples.links_entry_external desc2 title2 url).
    rewrite Hint, Hext.
    change (get_sorted_boxes _)
      with (Ok (A := list string)
               [link_item url title2 desc2; link_item "" title1 desc1]).
    cbn [rbind]. now rewrite link_item_not_empty.
Qed.

Lemma parse_links_unresolved_entry_kept_witness :
  _parse_links_to_list Samples.site_env
    (Samples.links_list
       [Samples.links_entry_internal "gone" "Old page" "uuid-404";
        Samples.links_entry_external "" "EPFL" "https://www.epfl.ch"])
  = Ok ("<ul>" +:+ join "" [link_item "" "Old page" "gone";
                            link_item "https://www.epfl.ch" "EPFL" ""]
               +:+ "</ul>").
Proof.
  apply (proj1 (parse_links_unresolved_entry_kept
                  Samples.site_env "gone" "Old page" "uuid-404"
                  "" "EPFL" "https://www.epfl.ch" eq_refl)).
Defined.

Lemma combo_step_Raise (env : Env) (sort_field : string) (e : exn) (combo : node) :
  combo_step env sort_field (Raise e) combo = Raise e.
Proof. reflexivity. Qed.

(** An entry without content is passed over. *)
Lemma combo_step_no_content (env : Env) (sort_field : string) (v : combo_vars)
      (combo : node) :
  combo_content env combo = Ok "" ->
  combo_step env sort_field (Ok v) combo = Ok v.
Proof. intros H. unfold combo_step. cbn [rbind]. now rewrite H. Qed.

(** The loop never takes a key out of the dict. *)
Lemma combo_step_keeps_kind (env : Env) (sort_field : string) (kind : bool)
      (v v' : combo_vars) (combo : node) :
  combo_step env sort_field (Ok v) combo = Ok v' ->
  has_kind kind (c_box_list v) = true -> has_kind kind (c_box_list v') = true.
Proof.
  unfold combo_step. cbn [rbind].
  destruct (combo_content env combo) as [box_content|e]; cbn [rbind];
    [|discriminate].
  destruct (String.eqb box_content ""); [now intros [= <-] |].
  destruct (negb (String.eqb (c_sort_infos v) ""));
    [destruct (String.eqb (getAttribute combo ("jcr:" +:+ sort_field)) "") |];
    intros [= <-] H; cbn [c_box_list]; rewrite has_kind_dict_set, H; reflexivity.
Qed.

Lemma combo_loop_keeps_kind (env : Env) (sort_field : string) (kind : bool)
      (combos : list node) (v v' : combo_vars) :
  fold_left (combo_step env sort_field) combos (Ok v) = Ok v' ->
  has_kind kind (c_box_list v) = true -> has_kind kind (c_box_list v') = true.
Proof.
  revert v; induction combos as [|c combos IH]; intros v; cbn [fold_left].
  - now intros [= <-].
  - destruct (combo_step env sort_field (Ok v) c) as [v1|e] eqn:E.
    + intros Hfold Hv. apply (IH v1 Hfold).
      exact (combo_step_keeps_kind env sort_field kind v v1 c E Hv).
    + rewrite fold_left_Raise by apply combo_step_Raise. discriminate.
Qed.

Lemma fold_left_combo_app (env : Env) (sort_field : string)
      (l1 l2 : list node) (acc : result combo_vars) :
  fold_left (combo_step env sort_field) (l1 ++ l2) acc
  = fold_left (combo_step env sort_field) l2
              (fold_left (combo_step env sort_field) l1 acc).
Proof. apply fold_left_app. Qed.

(** C1 (the code fails it): with a sort descriptor, when the first entry
    that has content has the sort value and a later entry that has content
    lacks it, the entries are not all keyed by their index: the first keeps
    its sort value as key, the later one gets an index, and [set_box_text]
    does not return; sorting a dict with a [str] key and an [int] key raises
    a [TypeError]. The content of the box is not assigned. *)
Theorem set_box_text_mixed_keys_raise
        (twitter_transform : string -> result string) (env : Env)
        (element : node) (before middle after : list node) (e1 e2 : node)
        (c1 c2 : string) (b : Box) :
  let sort_infos := get_tag_attribute element "comboListList" "jahia:sortHandler" in
  let sort_field := hd "" (split ";" sort_infos) in
  sort_infos <> "" ->
  getElementsByTagName element "comboList" = before ++ e1 :: middle ++ e2 :: after ->
  Forall (fun combo => combo_content env combo = Ok "") before ->
  combo_content env e1 = Ok c1 -> c1 <> "" ->
  getAttribute e1 ("jcr:" +:+ sort_field) <> "" ->
  combo_content env e2 = Ok c2 -> c2 <> "" ->
  getAttribute e2 ("jcr:" +:+ sort_field) = "" ->
  let after_call := set_box_text twitter_transform env element true b in
  is_ok (fst after_call) = false /\ content (snd after_call) = content b.
Proof.
  intros sort_infos sort_field Hsort Hcombos Hbefore Hc1 Hne1 Hkey1 Hc2 Hne2 Hkey2
         after_call.
  subst after_call. unfold set_box_text, bind, lift. cbn [negb].
  assert (Hloop : forall v, combo_vars_of env element = Ok v ->
                            has_kind true (c_box_list v) = true
                            /\ has_kind false (c_box_list v) = true).
  { intros v. unfold combo_vars_of. fold sort_infos.
    apply String.eqb_neq in Hsort. rewrite Hsort. cbn [negb].
    destruct (index (split ";" sort_infos) 1) as [sort_way|e]; cbn [rbind];
      [|discriminate].
    fold sort_field. rewrite Hcombos.
    rewrite fold_left_combo_app.
    set (v0 := {| c_sort_infos := sort_infos; c_sort_way := sort_way;
                  c_box_index := 0; c_box_list := [] |}).
    assert (Hb : fold_left (combo_step env sort_field) before (Ok v0) = Ok v0).
    { clear Hcombos. induction Hbefore as [|c before Hc _ IHb]; [reflexivity |].
      cbn [fold_left]. now rewrite combo_step_no_content. }
    rewrite Hb. cbn [fold_left].
    assert (H1 : combo_step env sort_field (Ok v0) e1
                 = Ok {| c_sort_infos := sort_infos; c_sort_way := sort_way;
                         c_box_index := 0;
                         c_box_list :=
                           [(KStr (getAttribute e1 ("jcr:" +:+ sort_field)), c1)] |}).
    { unfold combo_step. cbn [rbind]. rewrite Hc1. cbn [rbind].
      apply String.eqb_neq in Hne1, Hkey1. rewrite Hne1.
      cbn [v0 c_sort_infos c_sort_way c_box_index c_box_list dict_set].
      rewrite Hsort. cbn [negb]. now rewrite Hkey1. }
    rewrite H1. rewrite fold_left_combo_app.
    destruct (fold_left (combo_step env sort_field) middle (Ok _)) as [v1|e] eqn:Em;
      [|rewrite fold_left_Raise by apply combo_step_Raise; discriminate].
    pose proof (combo_loop_keeps_kind env sort_field true middle _ v1 Em eq_refl)
      as Hstr1.
    cbn [fold_left].
    destruct (combo_step env sort_field (Ok v1) e2) as [v2|e] eqn:E2;
      [|rewrite fold_left_Raise by apply combo_step_Raise; discriminate].
    pose proof (combo_step_keeps_kind env sort_field true v1 v2 e2 E2 Hstr1) as Hstr2.
    assert (Hint2 : has_kind false (c_box_list v2) = true).
    { unfold combo_step in E2. cbn [rbind] in E2. rewrite Hc2 in E2.
      cbn [rbind] in E2. apply String.eqb_neq in Hne2. rewrite Hne2 in E2.
      rewrite Hkey2 in E2. cbn [String.eqb] in E2.
      destruct (negb (String.eqb (c_sort_infos v1) "")); injection E2 as <-;
        cbn [c_box_list]; rewrite has_kind_dict_set; apply orb_true_r. }
    intros Hafter. split.
    - exact (combo_loop_keeps_kind env sort_field true after v2 v Hafter Hstr2).
    - exact (combo_loop_keeps_kind env sort_field false after v2 v Hafter Hint2). }
  destruct (combo_vars_of env element) as [v|e]; [|split; reflexivity].
  destruct (Hloop v eq_refl) as [Hstr Hint].
  rewrite (sorted_mixed_keys (c_box_list v) _ Hstr Hint). split; reflexivity.
Qed.

Lemma set_box_text_mixed_keys_raise_witness :
  set_box_text (fun s => Ok s) Samples.site_env Samples.combo_box true blank_box
  = (Raise TypeError, blank_box)
  /\ is_ok (fst (set_box_text (fun s => Ok s) Samples.site_env Samples.combo_box true
                              blank_box)) = false.
Proof.
  split; [reflexivity |].
  refine (proj1 (set_box_text_mixed_keys_raise
                   (fun s => Ok s) Samples.site_env Samples.combo_box
                   [] [] []
                   (Samples.combo_entry [("jcr:created", "2018-01-01")] "<p>A</p>")
                   (Samples.combo_entry [] "<p>B</p>")
                   "<p>A</p>" "<p>B</p>" blank_box _ _ _ _ _ _ _ _ _)).
  - discriminate.
  - reflexivity.
  - constructor.
  - reflexivity.
  - discriminate.
  - discriminate.
  - reflexivity.
  - discriminate.
  - reflexivity.
Defined.

Lemma set_box_snippets_sort_fallback_witness :
  fst (set_box_snippets (fun s => s) Samples.site_env Samples.snippets_box blank_box)
  = Ok tt.
Proof.
  refine (proj1 (proj2 (set_box_snippets_sort_fallback
                          (fun s => s) Samples.site_env Samples.snippets_box
                          _ _ "desc" blank_box _ _ _ _))).
  - reflexivity.
  - discriminate.
  - reflexivity.
  - reflexivity.
Defined.

Lemma set_box_buttons_missing_sort_value_witness :
  is_ok (fst (set_box_buttons (fun s => s) (fun _ => Raise AttributeError)
                              Samples.site_env Samples.buttons_box blank_box))
  = false
  /\ content (snd (set_box_buttons (fun s => s) (fun _ => Raise AttributeError)
                                   Samples.site_env Samples.buttons_box blank_box))
     = "".
Proof.
  refine (set_box_buttons_missing_sort_value
            (fun s => s) (fun _ => Raise AttributeError) Samples.site_env
            Samples.buttons_box _
            (Samples.big_button "Lab" "" "https://lab.epfl.ch") _ blank_box
            _ _ _ _).
  - reflexivity.
  - discriminate.
  - right. left. reflexivity.
  - reflexivity.
Defined.

End TransformerFacts.

(** ** The post-processing of the content *)

Module SoupFacts.
Import PyStr PyStrFacts Soup.

(** Induction on a tree, with the hypothesis for every child. *)
Lemma tag_induction (P : tag -> Prop) :
  (forall s, P (NavigableString s)) ->
  (forall name attrs cs, Forall P cs -> P (Tag name attrs cs)) ->
  forall t, P t.
Proof.
  intros Hstr Htag.
  refine (fix IH (t : tag) : P t :=
            match t with
            | NavigableString s => Hstr s
            | Tag name attrs cs =>
                Htag name attrs cs
                     ((fix children (l : list tag) : Forall P l :=
                         match l with
                         | [] => @List.Forall_nil _ P
                         | c :: l' =>
                             @List.Forall_cons _ P c l' (IH c) (children l')
                         end) cs)
            end).
Qed.

Lemma map_fixed {A : Type} (f : A -> A) (l : list A) :
  Forall (fun x => f x = x) l -> map f l = l.
Proof. induction 1 as [|x l Hx _ IH]; cbn [map]; congruence. Qed.

Lemma map_equal {A B : Type} (f g : A -> B) (l : list A) :
  Forall (fun x => f x = g x) l -> map f l = map g l.
Proof. induction 1 as [|x l Hx _ IH]; cbn [map]; congruence. Qed.

(** *** The video iframes *)

Lemma is_video_src_contains (src : string) :
  is_video_src (Some src)
  = contains "youtube.com" src || contains "youtu.be" src
    || contains "player.vimeo.com" src.
Proof. unfold is_video_src. destruct src; reflexivity. Qed.

Lemma video_node_untouched (t : tag) :
  has_video_iframe t = false -> video_node t = t.
Proof.
  induction t as [s | name attrs cs IH] using tag_induction; [reflexivity |].
  cbn [has_video_iframe video_node]. intros H.
  apply orb_false_iff in H as [Hself Hcs]. rewrite Hself. f_equal.
  apply map_fixed. rewrite Forall_forall in IH |- *. intros c Hc.
  apply IH; [exact Hc |].
  destruct (has_video_iframe c) eqn:E; [|reflexivity].
  assert (existsb has_video_iframe cs = true); [|congruence].
  apply existsb_exists. exists c. split; [now apply list_elem_of_In | exact E].
Qed.

Lemma video_node_clean (t : tag) : has_video_iframe (video_node t) = false.
Proof.
  induction t as [s | name attrs cs IH] using tag_induction; [reflexivity |].
  cbn [video_node].
  destruct (String.eqb name "iframe" && is_video_src (get attrs "src")) eqn:E;
    [reflexivity |].
  cbn [has_video_iframe]. rewrite E. cbn [orb].
  induction IH as [|c cs Hc _ IHcs]; [reflexivity |].
  cbn [map existsb]. now rewrite Hc.
Qed.

Lemma video_node_idempotent (t : tag) :
  video_node (video_node t) = video_node t.
Proof. apply video_node_untouched, video_node_clean. Qed.

(** C6 (as the specification reads, refuted): an iframe is replaced although
    the host of its [src] is none of the video hosts, because a video host
    name occurs further on in the URL. *)
Lemma fix_video_iframes_foreign_host :
  url_host foreign_src = "example.com"
  /\ host_allowed (url_host foreign_src) = false
  /\ video_node (Tag "iframe" [("src", foreign_src)] [])
     = NavigableString ("[epfl_video url=" +:+ DQ +:+ foreign_src +:+ DQ +:+ "]").
Proof. repeat split. Qed.

(** What the loop does at a position of the tree that is not inside a
    replaced iframe. *)
Lemma at_path_video_node (p : list nat) (t n : tag) :
  at_path p t = Some n -> outside_video_iframes p t = true ->
  at_path p (video_node t) = Some (video_node n).
Proof.
  revert t. induction p as [|i p IH]; intros t Hat Hout.
  - cbn [at_path] in Hat |- *. now injection Hat as <-.
  - destruct t as [name attrs cs | s]; [|discriminate Hat].
    cbn [at_path outside_video_iframes] in Hat, Hout.
    apply andb_true_iff in Hout as [Hself Hout].
    apply negb_true_iff in Hself. cbn [is_video_iframe] in Hself.
    cbn [video_node]. rewrite Hself. cbn [at_path].
    rewrite nth_error_map.
    destruct (nth_error cs i) as [c|]; [|discriminate Hat].
    cbn [option_map]. now apply IH.
Qed.

Lemma is_video_src_none_contained (attrs : list (string * string)) :
  (forall src, get attrs "src" = Some src ->
               (contains "youtube.com" src || contains "youtu.be" src
                || contains "player.vimeo.com" src) = false) ->
  is_video_src (get attrs "src") = false.
Proof.
  intros H. destruct (get attrs "src") as [src|]; [|reflexivity].
  rewrite is_video_src_contains. now apply H.
Qed.

(** C6 (amended): [fix_video_iframes] replaces an iframe by the single
    shortcode [[epfl_video url="<src>"]] exactly when its [src] contains
    [youtube.com], [youtu.be] or [player.vimeo.com] anywhere, in the host or
    not. This holds at every position of the content: there an iframe that
    passes the test becomes the shortcode, and every other node, in
    particular every iframe whose [src] contains none of the three, keeps its
    place, its name and its attributes, its children being treated in the
    same way; a node with no such iframe below it is left as it is. (What is
    inside a replaced iframe leaves the tree with it.) *)
Theorem fix_video_iframes_spec :
  (forall attrs cs src,
      get attrs "src" = Some src ->
      (contains "youtube.com" src || contains "youtu.be" src
       || contains "player.vimeo.com" src) = true ->
      video_node (Tag "iframe" attrs cs)
      = NavigableString ("[epfl_video url=" +:+ DQ +:+ src +:+ DQ +:+ "]"))
  /\ (forall attrs cs,
         (exists s, video_node (Tag "iframe" attrs cs) = NavigableString s)
         <-> exists src,
             get attrs "src" = Some src
             /\ (contains "youtube.com" src || contains "youtu.be" src
                 || contains "player.vimeo.com" src) = true)
  /\ (forall t, has_video_iframe t = false -> video_node t = t)
  /\ (forall t p n,
         at_path p t = Some n -> outside_video_iframes p t = true ->
         (forall attrs cs src,
             n = Tag "iframe" attrs cs ->
             get attrs "src" = Some src ->
             (contains "youtube.com" src || contains "youtu.be" src
              || contains "player.vimeo.com" src) = true ->
             at_path p (video_node t)
             = Some (NavigableString
                       ("[epfl_video url=" +:+ DQ +:+ src +:+ DQ +:+ "]")))
         /\ (forall attrs cs,
                n = Tag "iframe" attrs cs ->
                (forall src,
                    get attrs "src" = Some src ->
                    (contains "youtube.com" src || contains "youtu.be" src
                     || contains "player.vimeo.com" src) = false) ->
                at_path p (video_node t)
                = Some (Tag "iframe" attrs (map video_node cs)))
         /\ (forall name attrs cs,
                n = Tag name attrs cs -> name <> "iframe" ->
                at_path p (video_node t)
                = Some (Tag name attrs (map video_node cs)))
         /\ (has_video_iframe n = false -> at_path p (video_node t) = Some n)).
Proof.
  assert (Hroot : forall attrs cs src,
             get attrs "src" = Some src ->
             (contains "youtube.com" src || contains "youtu.be" src
              || contains "player.vimeo.com" src) = true ->
             video_node (Tag "iframe" attrs cs)
             = NavigableString ("[epfl_video url=" +:+ DQ +:+ src +:+ DQ +:+ "]")).
  { intros attrs cs src Hsrc Hvideo.
    cbn [video_node String.eqb Ascii.eqb Bool.eqb andb].
    rewrite Hsrc, is_video_src_contains, Hvideo. reflexivity. }
  split; [exact Hroot | split; [|split]].
  - intros attrs cs. cbn [video_node String.eqb Ascii.eqb Bool.eqb andb]. split.
    + intros [s Hs]. destruct (get attrs "src") as [src|] eqn:Hsrc.
      * exists src. split; [reflexivity |].
        rewrite <- is_video_src_contains.
        destruct (is_video_src (Some src)); [reflexivity | discriminate Hs].
      * discriminate Hs.
    + intros (src & Hsrc & Hvideo).
      rewrite Hsrc, is_video_src_contains, Hvideo. eexists. reflexivity.
  - apply video_node_untouched.
  - intros t p n Hat Hout.
    pose proof (at_path_video_node p t n Hat Hout) as Hnode.
    split; [|split; [|split]].
    + intros attrs cs src -> Hsrc Hvideo.
      now rewrite Hnode, (Hroot attrs cs src Hsrc Hvideo).
    + intros attrs cs -> Hnone. rewrite Hnode.
      cbn [video_node String.eqb Ascii.eqb Bool.eqb andb].
      now rewrite (is_video_src_none_contained attrs Hnone).
    + intros name attrs cs -> Hname. rewrite Hnode. cbn [video_node].
      apply String.eqb_neq in Hname. now rewrite Hname.
    + intros Hclean. now rewrite Hnode, (video_node_untouched n Hclean).
Qed.

Lemma fix_video_iframes_spec_witness :
  video_node (Tag "iframe" [("src", "https://www.youtube.com/embed/xyz")] [])
  = NavigableString ("[epfl_video url=" +:+ DQ
                       +:+ "https://www.youtube.com/embed/xyz" +:+ DQ +:+ "]")
  /\ video_node (Tag "p" [] [Tag "iframe" [("src", "https://example.com/")] []])
     = Tag "p" [] [Tag "iframe" [("src", "https://example.com/")] []]
  /\ at_path [0]
       (video_node
          (Tag "p" []
             [Tag "iframe" [("src", "https://www.youtube.com/embed/xyz")] [];
              Tag "iframe" [("src", "https://example.com/")] []]))
     = Some (NavigableString ("[epfl_video url=" +:+ DQ
                                +:+ "https://www.youtube.com/embed/xyz" +:+ DQ
                                +:+ "]"))
  /\ at_path [1]
       (video_node
          (Tag "p" []
             [Tag "iframe" [("src", "https://www.youtube.com/embed/xyz")] [];
              Tag "iframe" [("src", "https://example.com/")] []]))
     = Some (Tag "iframe" [("src", "https://example.com/")] []).
Proof.
  split; [|split; [|split]].
  - apply (proj1 fix_video_iframes_spec
             [("src", "https://www.youtube.com/embed/xyz")] []
             "https://www.youtube.com/embed/xyz"); reflexivity.
  - apply (proj1 (proj2 (proj2 fix_video_iframes_spec))). reflexivity.
  - apply (proj1 (proj2 (proj2 (proj2 fix_video_iframes_spec))
                    (Tag "p" []
                       [Tag "iframe"
                          [("src", "https://www.youtube.com/embed/xyz")] [];
                        Tag "iframe" [("src", "https://example.com/")] []])
                    [0]
                    (Tag "iframe" [("src", "https://www.youtube.com/embed/xyz")] [])
                    eq_refl eq_refl)
             [("src", "https://www.youtube.com/embed/xyz")] []
             "https://www.youtube.com/embed/xyz"); reflexivity.
  - apply (proj2 (proj2 (proj2 (proj2 (proj2 (proj2 fix_video_iframes_spec))
                    (Tag "p" []
                       [Tag "iframe"
                          [("src", "https://www.youtube.com/embed/xyz")] [];
                        Tag "iframe" [("src", "https://example.com/")] []])
                    [1]
                    (Tag "iframe" [("src", "https://example.com/")] [])
                    eq_refl eq_refl)))).
    reflexivity.
Defined.

(** *** The heading ids and the image alignment *)

Section Slug.

Variable slugify : string -> string.

Lemma text_h3_node (t : tag) : text (h3_node slugify t) = text t.
Proof.
  induction t as [s | name attrs cs IH] using tag_induction; [reflexivity |].
  cbn [h3_node text]. f_equal. rewrite map_map. now apply map_equal.
Qed.

Lemma get_set_attr (attrs : list (string * string)) (key value : string) :
  get (set_attr attrs key value) key = Some value.
Proof.
  induction attrs as [|[k v] attrs IH]; cbn [set_attr get].
  - now rewrite String.eqb_refl.
  - destruct (String.eqb k key) eqn:E; cbn [get]; now rewrite E.
Qed.

Lemma h3_node_idempotent (t : tag) :
  h3_node slugify (h3_node slugify t) = h3_node slugify t.
Proof.
  induction t as [s | name attrs cs IH] using tag_induction; [reflexivity |].
  cbn [h3_node].
  assert (Htext : text (Tag name attrs cs) = String.concat "" (map text cs))
    by reflexivity.
  assert (Htext' : forall a, text (Tag name a (map (h3_node slugify) cs))
                             = text (Tag name attrs cs)).
  { intros a. cbn [text]. f_equal. rewrite map_map.
    apply map_equal, Forall_forall. intros c _. apply text_h3_node. }
  rewrite Htext'. rewrite map_map.
  rewrite (map_equal (fun c => h3_node slugify (h3_node slugify c))
                     (h3_node slugify) cs IH).
  f_equal.
  destruct (String.eqb name "h3" && negb (String.eqb (text (Tag name attrs cs)) "")
            && negb (bool_decide (is_Some (get attrs "id")))) eqn:E;
    [|now rewrite E].
  rewrite get_set_attr.
  rewrite (bool_decide_eq_true_2 _ (mk_is_Some _ _ eq_refl)).
  now rewrite andb_false_r.
Qed.

Lemma has_video_iframe_h3_node (t : tag) :
  has_video_iframe (h3_node slugify t) = has_video_iframe t.
Proof.
  induction t as [s | name attrs cs IH] using tag_induction; [reflexivity |].
  cbn [h3_node has_video_iframe].
  assert (Hcs : existsb has_video_iframe (map (h3_node slugify) cs)
                = existsb has_video_iframe cs).
  { induction IH as [|c cs Hc _ IHcs]; [reflexivity |].
    cbn [map existsb]. now rewrite Hc, IHcs. }
  rewrite Hcs.
  destruct (String.eqb name "iframe") eqn:En; [|reflexivity].
  apply String.eqb_eq in En. subst name. reflexivity.
Qed.

End Slug.

Lemma text_img_node (t : tag) : text (img_node t) = text t.
Proof.
  induction t as [s | name attrs cs IH] using tag_induction; [reflexivity |].
  cbn [img_node text]. f_equal. rewrite map_map. now apply map_equal.
Qed.

Lemma get_del_attr_other (attrs : list (string * string)) (key other : string) :
  key <> other -> get (del_attr attrs other) key = get attrs key.
Proof.
  intros Hne. unfold del_attr.
  induction attrs as [|[k v] attrs IH]; [reflexivity |].
  cbn [List.filter get fst].
  destruct (String.eqb k other) eqn:Eo; cbn [negb get].
  - apply String.eqb_eq in Eo. subst k. rewrite IH.
    assert (String.eqb other key = false) as ->; [|reflexivity].
    apply String.eqb_neq. congruence.
  - now rewrite IH.
Qed.

Lemma get_del_attr (attrs : list (string * string)) (key : string) :
  get (del_attr attrs key) key = None.
Proof.
  unfold del_attr. induction attrs as [|[k v] attrs IH]; [reflexivity |].
  cbn [List.filter fst].
  destruct (String.eqb k key) eqn:E; cbn [negb get]; [exact IH |].
  now rewrite E.
Qed.

Lemma img_node_idempotent (t : tag) : img_node (img_node t) = img_node t.
Proof.
  induction t as [s | name attrs cs IH] using tag_induction; [reflexivity |].
  cbn [img_node]. rewrite map_map.
  rewrite (map_equal (fun c => img_node (img_node c)) img_node cs IH).
  f_equal.
  destruct (String.eqb name "img" && bool_decide (get attrs "align" = Some "left"))
    eqn:E; [|now rewrite E].
  rewrite get_del_attr.
  rewrite bool_decide_eq_false_2 by discriminate.
  now rewrite andb_false_r.
Qed.

Lemma has_video_iframe_img_node (t : tag) :
  has_video_iframe (img_node t) = has_video_iframe t.
Proof.
  induction t as [s | name attrs cs IH] using tag_induction; [reflexivity |].
  cbn [img_node has_video_iframe].
  assert (Hcs : existsb has_video_iframe (map img_node cs)
                = existsb has_video_iframe cs).
  { induction IH as [|c cs Hc _ IHcs]; [reflexivity |].
    cbn [map existsb]. now rewrite Hc, IHcs. }
  rewrite Hcs.
  destruct (String.eqb name "iframe") eqn:En; [|reflexivity].
  apply String.eqb_eq in En. subst name. reflexivity.
Qed.

Section Pipeline.

Variable slugify : string -> string.

(** The heading fixup and the image fixup touch different tags. *)
Lemma h3_node_img_node (t : tag) :
  h3_node slugify (img_node t) = img_node (h3_node slugify t).
Proof.
  induction t as [s | name attrs cs IH] using tag_induction; [reflexivity |].
  cbn [img_node h3_node]. rewrite !map_map.
  rewrite (map_equal (fun c => h3_node slugify (img_node c))
                     (fun c => img_node (h3_node slugify c)) cs IH).
  assert (Htext : forall a, text (Tag name a (map img_node cs))
                            = text (Tag name attrs cs)).
  { intros a. cbn [text]. f_equal. rewrite map_map.
    apply map_equal, Forall_forall. intros c _. apply text_img_node. }
  rewrite Htext. f_equal.
  destruct (String.eqb name "h3") eqn:Eh, (String.eqb name "img") eqn:Ei;
    cbn [andb]; try reflexivity.
  apply String.eqb_eq in Eh, Ei. congruence.
Qed.

(** The three fixups, applied to a tree they have already been applied
    to, change nothing. *)
Lemma post_process_tree_idempotent (t : tag) :
  post_process_tree slugify (post_process_tree slugify t)
  = post_process_tree slugify t.
Proof.
  unfold post_process_tree.
  rewrite (video_node_untouched (img_node _)).
  - rewrite h3_node_img_node, h3_node_idempotent. apply img_node_idempotent.
  - rewrite has_video_iframe_img_node, has_video_iframe_h3_node.
    apply video_node_clean.
Qed.

(** The heading of the specification's example gets the slug of its text
    as its id, and keeps it when the fixup runs again. *)
Lemma h3_node_hello_world :
  h3_node slugify (Tag "h3" [] [NavigableString "Hello World"])
  = Tag "h3" [("id", slugify "Hello World")] [NavigableString "Hello World"]
  /\ h3_node slugify (h3_node slugify (Tag "h3" [] [NavigableString "Hello World"]))
     = h3_node slugify (Tag "h3" [] [NavigableString "Hello World"]).
Proof. split; [reflexivity | apply h3_node_idempotent]. Qed.

(** With an HTML library that reads the markup it has written back as the
    very tree it has written, the three fixups on the content are the
    three fixups on its tree, and running them again changes nothing. *)
Lemma post_process_idempotent_for_exact_round_trip
      (parse : string -> list tag) (render : list tag -> string)
      (content : string) :
  (forall ts, parse (render ts) = ts) ->
  post_process parse render slugify
               (post_process parse render slugify content)
  = post_process parse render slugify content.
Proof.
  intros Hround.
  assert (Hrun : forall c, post_process parse render slugify c
                           = render (map (post_process_tree slugify) (parse c))).
  { intros c. unfold post_process, fix_img_align_left, add_id_to_h3,
      fix_video_iframes, post_process_tree.
    rewrite !Hround, !map_map. reflexivity. }
  rewrite !Hrun, Hround, map_map. f_equal.
  apply map_equal, Forall_forall. intros t _. apply post_process_tree_idempotent.
Qed.

End Pipeline.

End SoupFacts.

(** ** More on Python strings *)

Module PyStrMore.
Import PyStr PyStrFacts.

Lemma stake_sdrop (n : nat) (s : string) : stake n s +:+ sdrop n s = s.
Proof.
  revert s; induction n as [|n IH]; intros [|c s]; simpl; try reflexivity.
  now rewrite IH.
Qed.

Lemma startswith_split (p s : string) :
  startswith p s = true -> s = p +:+ sdrop (String.length p) s.
Proof.
  revert s; induction p as [|a p IH]; intros s H; [now destruct s |].
  destruct s as [|b s]; simpl in H; [discriminate H |].
  apply andb_true_iff in H as [Hab H]. apply Ascii.eqb_eq in Hab. subst b.
  simpl. f_equal. now apply IH.
Qed.

Lemma length_sdrop (n : nat) (s : string) :
  String.length (sdrop n s) = String.length s - n.
Proof.
  revert s; induction n as [|n IH]; intros [|c s]; simpl; try reflexivity.
  apply IH.
Qed.

(** The text is its part before the first occurrence, the occurrence, and
    the rest. *)
Lemma find_decompose (sub s : string) (n : nat) :
  find sub s = Some n ->
  s = stake n s +:+ sub +:+ sdrop (n + String.length sub) s.
Proof.
  intros H. apply find_startswith in H. apply startswith_split in H.
  rewrite sdrop_add, <- H. symmetry. apply stake_sdrop.
Qed.

Lemma find_le_length (sub s : string) (n : nat) :
  find sub s = Some n -> n <= String.length s.
Proof.
  revert n; induction s as [|c s IH]; intros n; cbn [find].
  - destruct (startswith sub ""); [|discriminate]. intros [= <-]. simpl. lia.
  - destruct (startswith sub (String c s)); [intros [= <-]; lia |].
    destruct (find sub s) as [k|]; [|discriminate].
    intros [= <-]. specialize (IH k eq_refl). simpl. lia.
Qed.

Lemma find_bound (sub s : string) (n : nat) :
  find sub s = Some n -> n + String.length sub <= String.length s.
Proof.
  intros H. pose proof (find_le_length _ _ _ H) as Hle.
  apply find_startswith in H. apply startswith_length in H.
  rewrite length_sdrop in H. lia.
Qed.

(** [sep.join(s.split(sep))] is [s]. *)
Lemma join_split (sep s : string) : sep <> "" -> join sep (split sep s) = s.
Proof.
  intros Hsep.
  assert (Hlen : forall m s, String.length s <= m -> join sep (split sep s) = s).
  { clear s. induction m as [|m IH]; intros s Hs.
    - destruct s; [|simpl in Hs; lia].
      rewrite split_find by assumption. cbn [find].
      destruct (startswith sep "") eqn:E; [|reflexivity].
      destruct sep; [congruence | discriminate E].
    - rewrite split_find by assumption.
      destruct (find sep s) as [n|] eqn:E; [|reflexivity].
      pose proof (find_bound _ _ _ E) as Hb.
      assert (Hpos : 0 < String.length sep) by (destruct sep; [congruence | simpl; lia]).
      assert (Hrest : String.length (sdrop (n + String.length sep) s) <= m)
        by (rewrite length_sdrop; lia).
      specialize (IH _ Hrest). unfold join in *.
      destruct (split sep (sdrop (n + String.length sep) s)) as [|x l] eqn:El.
      + rewrite split_find in El by assumption.
        destruct (find sep (sdrop (n + String.length sep) s)); discriminate El.
      + change (String.concat sep (stake n s :: x :: l))
          with (stake n s +:+ sep +:+ String.concat sep (x :: l)).
        rewrite IH. symmetry. apply (find_decompose sep s n E). }
  apply (Hlen (String.length s)). lia.
Qed.

End PyStrMore.

(** ** File paths and the list of files *)

Module FilesFacts.
Import PyStr PyStrFacts PyStrMore Dom BoxPy BoxMore SortFacts.

Lemma split_slash_segment (a rest : string) :
  contains "/" a = false -> split "/" (a +:+ "/" +:+ rest) = a :: split "/" rest.
Proof. apply (split_char_app "/"). Qed.

Lemma split_four_segments (a b c d rest : string) :
  contains "/" a = false -> contains "/" b = false ->
  contains "/" c = false -> contains "/" d = false ->
  skipn 4 (split "/" (a +:+ "/" +:+ b +:+ "/" +:+ c +:+ "/" +:+ d +:+ "/" +:+ rest))
  = split "/" rest.
Proof.
  intros Ha Hb Hc Hd.
  now rewrite (split_slash_segment a _ Ha), (split_slash_segment b _ Hb),
    (split_slash_segment c _ Hc), (split_slash_segment d _ Hd).
Qed.

(** X1: A path loses its first four segments, whatever they are: for
    [/content/sites/<site>/<rest>] what is left is [/<rest>]. *)
Theorem strip_site_prefix_four_segments (a b c d rest : string) :
  contains "/" a = false -> contains "/" b = false ->
  contains "/" c = false -> contains "/" d = false ->
  strip_site_prefix (a +:+ "/" +:+ b +:+ "/" +:+ c +:+ "/" +:+ d +:+ "/" +:+ rest)
  = "/" +:+ rest.
Proof.
  intros Ha Hb Hc Hd. unfold strip_site_prefix.
  rewrite split_four_segments by assumption.
  rewrite join_split by discriminate. reflexivity.
Qed.

Lemma strip_site_prefix_four_segments_witness :
  strip_site_prefix "/content/sites/mysite/files/doc.pdf" = "/files/doc.pdf".
Proof.
  apply (strip_site_prefix_four_segments "" "content" "sites" "mysite"
                                         "files/doc.pdf"); reflexivity.
Defined.

Lemma split_not_nil (sep s : string) : split sep s <> [].
Proof.
  unfold split. generalize "" as cur. generalize 0 as skip.
  induction s as [|c s IH]; intros skip cur; cbn [split_scan]; [discriminate |].
  destruct skip; [|apply IH].
  destruct (startswith sep (String c s)); [discriminate | apply IH].
Qed.

(** X2: A path with at most three slashes has no fifth segment: nothing is left
    of it but the leading slash. *)
Theorem strip_site_prefix_short_path (path : string) :
  count "/" path <= 3 -> strip_site_prefix path = "/".
Proof.
  unfold count, strip_site_prefix. intros H.
  rewrite skipn_all2 by lia. reflexivity.
Qed.

Lemma strip_site_prefix_short_path_witness :
  strip_site_prefix "files/doc.pdf" = "/".
Proof. apply strip_site_prefix_short_path. vm_compute. lia. Defined.

Lemma sdrop_app_le (n : nat) (x y : string) :
  n <= String.length x -> sdrop n (x +:+ y) = sdrop n x +:+ y.
Proof.
  revert x; induction n as [|n IH]; intros x Hn; [reflexivity |].
  destruct x as [|c x]; simpl in Hn; [lia |]. simpl. apply IH. lia.
Qed.

Lemma find_none_split (sep s : string) :
  sep <> "" -> contains sep s = false -> split sep s = [s].
Proof.
  intros Hsep H. rewrite split_find by assumption. unfold contains in H.
  now destruct (find sep s).
Qed.

(** The last piece of a split is the text after the last separator. *)
Lemma last_split_slash (x name : string) :
  contains "/" name = false ->
  List.last (split "/" (x +:+ "/" +:+ name)) "" = name.
Proof.
  intros Hname.
  assert (H : forall m x, String.length x <= m ->
                          List.last (split "/" (x +:+ "/" +:+ name)) "" = name).
  { clear x. induction m as [|m IH]; intros x Hx.
    - destruct x; [|simpl in Hx; lia].
      change ("" +:+ "/" +:+ name) with ("" +:+ "/" +:+ name).
      rewrite (split_slash_segment "" name eq_refl).
      rewrite find_none_split by (discriminate || assumption). reflexivity.
    - rewrite split_find by discriminate.
      destruct (find "/" (x +:+ "/" +:+ name)) as [n|] eqn:E.
      + pose proof (find_app_first "/" x name n E) as Hn.
        change (String.length "/") with 1.
        assert (Hlast : forall (a : string) l, l <> [] ->
                                               List.last (a :: l) "" = List.last l "").
        { intros a [|y l] Hl; [congruence | reflexivity]. }
        rewrite Hlast by apply split_not_nil.
        destruct (Nat.eq_dec n (String.length x)) as [-> | Hne].
        * rewrite sdrop_add, sdrop_app_length. cbn [sdrop String.append].
          rewrite find_none_split by (discriminate || assumption). reflexivity.
        * rewrite sdrop_app_le by lia. apply IH.
          rewrite length_sdrop. lia.
      + exfalso.
        destruct (find_of_occurrence "/" (x +:+ "/" +:+ name) (String.length x))
          as (k & Hk & _); [|congruence].
        rewrite sdrop_app_length. reflexivity. }
  apply (H (String.length x)). lia.
Qed.

(** X3: A file of a Jahia site, [/content/sites/<site>/<dir>/<name>], becomes a
    link to [/<dir>/<name>] whose text is [<name>]. *)
Theorem file_item_of_site_file (attrs : list (string * string)) (cs : list node)
        (tag a b c d dir name : string) :
  contains "/" a = false -> contains "/" b = false ->
  contains "/" c = false -> contains "/" d = false ->
  contains "/" name = false ->
  assoc "jahia:value" attrs
  = Some (a +:+ "/" +:+ b +:+ "/" +:+ c +:+ "/" +:+ d +:+ "/" +:+ dir +:+ "/" +:+ name) ->
  file_item (Element tag attrs cs)
  = "<li><a href=" +:+ DQ +:+ "/" +:+ dir +:+ "/" +:+ name +:+ DQ +:+ ">"
      +:+ name +:+ "</a></li>".
Proof.
  intros Ha Hb Hc Hd Hname Hattr. unfold file_item. cbn [getAttribute].
  rewrite Hattr. cbn [default from_option id].
  unfold strip_site_prefix at 1 2.
  rewrite split_four_segments by assumption.
  rewrite join_split by discriminate.
  change ("/" +:+ dir +:+ "/" +:+ name) with (("/" +:+ dir) +:+ "/" +:+ name) at 2.
  rewrite last_split_slash by assumption.
  simpl. now rewrite !append_assoc.
Qed.

Lemma file_item_of_site_file_witness :
  file_item (Element "file" [("jahia:value", "/content/sites/mysite/files/doc.pdf")] [])
  = "<li><a href=" +:+ DQ +:+ "/files/doc.pdf" +:+ DQ +:+ ">doc.pdf</a></li>".
Proof.
  apply (file_item_of_site_file _ [] "file" "" "content" "sites" "mysite" "files"
                                "doc.pdf"); reflexivity.
Defined.

Lemma fold_left_file_items (files : list node) (acc : string) :
  Forall (fun e => is_element e = true) files ->
  fold_left
    (fun content e =>
       if negb (is_element e) then content
       else
         let file_url := strip_site_prefix (getAttribute e "jahia:value") in
         let file_name := List.last (split "/" file_url) "" in
         content +:+ "<li><a href=" +:+ DQ +:+ file_url +:+ DQ +:+ ">"
                 +:+ file_name +:+ "</a></li>")
    files acc
  = acc +:+ concat_strings (map file_item files).
Proof.
  intros Hall. revert acc.
  induction Hall as [|e files He _ IH]; intros acc; cbn [fold_left map concat_strings fold_right].
  - now rewrite append_empty_r.
  - rewrite He. cbn [negb]. rewrite IH. unfold file_item, concat_strings.
    now rewrite !append_assoc.
Qed.

(** X4: [_parse_files_to_list] gives nothing when the element has no [<file>]
    below it, and otherwise one list with one item for each [<file>], in
    document order. *)
Theorem parse_files_one_item_per_file (element : node) :
  _parse_files_to_list element
  = match getElementsByTagName element "file" with
    | [] => ""
    | files => "<ul>" +:+ concat_strings (map file_item files) +:+ "</ul>"
    end.
Proof.
  unfold _parse_files_to_list.
  rewrite fold_left_file_items
    by apply TransformerFacts.getElementsByTagName_elements.
  destruct (getElementsByTagName element "file") as [|e files]; [reflexivity |].
  rewrite append_assoc. cbn [map concat_strings fold_right].
  unfold file_item at 1. reflexivity.
Qed.

End FilesFacts.

(** ** The list of links with a sort descriptor *)

Module LinksFacts.
Import PyStr PyStrFacts PyStrMore Dom BoxPy BoxMore SortFacts.

Lemma links_step_Raise (env : Env) (tag : option string) (e : exn) (x : node) :
  links_step env tag (Raise e) x = Raise e.
Proof. reflexivity. Qed.

Lemma links_loop_raises (env : Env) (tag : string) (entries : list node)
      (entry : node) :
  tag <> "" -> In entry entries -> is_element entry = true ->
  lacks_sort_value tag "jahia:title" entry = true ->
  forall acc,
    is_ok (fold_left (links_step env (Some tag)) entries acc) = false.
Proof.
  intros Hne Hin Helem Hlack. induction entries as [|x xs IH]; [destruct Hin |].
  intros acc. cbn [fold_left]. destruct acc as [g|e].
  - destruct Hin as [-> | Hin]; [|now apply IH].
    unfold links_step at 2. cbn [rbind]. rewrite Helem. cbn [negb].
    rewrite TransformerFacts.entry_sort_value_lacking by assumption. cbn [rbind].
    rewrite fold_left_Raise by apply links_step_Raise. reflexivity.
  - rewrite links_step_Raise.
    rewrite fold_left_Raise by apply links_step_Raise. reflexivity.
Qed.

(** X6: With a sort descriptor on the list, one [<links>] entry that has no
    element of the sort tag, or an empty title on it, makes
    [_parse_links_to_list] raise: no list is returned for the other entries
    either. *)
Theorem parse_links_missing_sort_value (env : Env) (element entry : node) :
  let sort_params := getAttribute element "jahia:sortHandler" in
  sort_params <> "" ->
  In entry (getElementsByTagName element "links") ->
  lacks_sort_value ("jahia:" +:+ last_segment_of_first_field sort_params)
                   "jahia:title" entry = true ->
  is_ok (_parse_links_to_list env element) = false.
Proof.
  intros sort_params Hne Hin Hlack.
  unfold _parse_links_to_list, links_boxes_of, sort_settings. fold sort_params.
  apply String.eqb_neq in Hne. rewrite Hne. cbn [negb].
  destruct (index (split ";" sort_params) 1) as [way|e]; cbn [rbind];
    [|reflexivity].
  assert (Helem : is_element entry = true).
  { pose proof (TransformerFacts.getElementsByTagName_elements element "links") as Hall.
    rewrite Forall_forall in Hall. apply Hall. now apply list_elem_of_In. }
  assert (Htag : "jahia:" +:+ last_segment_of_first_field sort_params <> "")
    by discriminate.
  pose proof (links_loop_raises env _ _ entry Htag Hin Helem Hlack
                                (Ok (new_BoxSortedGroup "" "" way))) as Hloop.
  destruct (fold_left _ _ _); [discriminate Hloop | reflexivity].
Qed.

Lemma parse_links_missing_sort_value_witness :
  is_ok (_parse_links_to_list Samples.site_env
           (Element "linksList"
              [("jahia:sortHandler", "epfl_simple_main_comboList_links_link;asc;false;false")]
              [Samples.links_entry_internal "" "Home" "uuid-1";
               Samples.links_entry_external "" "EPFL" "https://www.epfl.ch"]))
  = false.
Proof.
  refine (parse_links_missing_sort_value Samples.site_env _
            (Samples.links_entry_external "" "EPFL" "https://www.epfl.ch") _ _ _).
  - discriminate.
  - right. left. reflexivity.
  - reflexivity.
Defined.

(** X5: Without sort descriptor, [_parse_links_to_list] returns, and its list has
    one item for each [<links>] element, in document order: an entry is never
    left out, whether its page is in the registry or not. *)
Theorem parse_links_document_order (env : Env) (element : node) :
  getAttribute element "jahia:sortHandler" = "" ->
  _parse_links_to_list env element
  = Ok (match getElementsByTagName element "links" with
        | [] => ""
        | entries => "<ul>" +:+ join "" (map (link_html env) entries) +:+ "</ul>"
        end).
Proof.
  intros Hsort. unfold _parse_links_to_list, links_boxes_of.
  rewrite Hsort. cbn [sort_settings String.eqb negb rbind].
  unfold new_BoxSortedGroup.
  change (@nil (sort_key * string)) with (index_keyed []).
  rewrite (fold_left_index_keyed _ (link_html env)).
  - cbn [rbind app]. rewrite get_sorted_boxes_index_keyed.
    cbn [String.eqb Ascii.eqb Bool.eqb rbind].
    destruct (getElementsByTagName element "links") as [|e entries];
      [reflexivity |].
    cbn [map].
    destruct (TransformerFacts.link_html_is_item env e)
      as (url & title & desc & ->).
    now rewrite TransformerFacts.link_item_not_empty.
  - intros g x Hin. unfold links_step. cbn [rbind entry_sort_value truthy].
    pose proof (TransformerFacts.getElementsByTagName_elements element "links")
      as Hall.
    rewrite Forall_forall in Hall.
    rewrite (Hall x) by (now apply list_elem_of_In). reflexivity.
Qed.

Lemma parse_links_document_order_witness :
  _parse_links_to_list Samples.site_env
    (Samples.links_list
       [Samples.links_entry_internal "gone" "Old page" "uuid-404";
        Samples.links_entry_external "" "EPFL" "https://www.epfl.ch"])
  = Ok ("<ul><li><a href=" +:+ DQ +:+ DQ +:+ ">Old page</a>gone</li>"
        +:+ "<li><a href=" +:+ DQ +:+ "https://www.epfl.ch" +:+ DQ
        +:+ ">EPFL</a></li></ul>").
Proof.
  rewrite (parse_links_document_order Samples.site_env
             (Samples.links_list
                [Samples.links_entry_internal "gone" "Old page" "uuid-404";
                 Samples.links_entry_external "" "EPFL" "https://www.epfl.ch"]))
    by reflexivity.
  reflexivity.
Defined.

End LinksFacts.

(** ** The text box made of several entries *)

Module ComboFacts.
Import PyStr PyStrFacts PyStrMore Dom BoxPy BoxMore SortFacts.

Lemma insert_item_last (items : list string) (c : string) :
  insert_sorted item_lt (KInt (length items), c) (index_keyed items)
  = Ok (index_keyed (items ++ [c])).
Proof.
  rewrite insert_sorted_last.
  - unfold index_keyed. rewrite imap_app. cbn [imap compose].
    now rewrite Nat.add_0_r.
  - apply Forall_forall. intros y Hy.
    apply elem_of_lookup_imap in Hy as (i & x & -> & Hi).
    apply lookup_lt_Some in Hi. unfold item_lt. cbn [fst snd key_eqb key_lt].
    replace (Nat.eqb (length items) i) with false
      by (symmetry; apply Nat.eqb_neq; lia).
    f_equal. apply Nat.ltb_ge. lia.
Qed.

Lemma sort_into_index_keyed (l2 l1 : list string) :
  sort_into item_lt (index_keyed l1)
            (imap (fun i x => (KInt (length l1 + i), x)) l2)
  = Ok (index_keyed (l1 ++ l2)).
Proof.
  revert l1; induction l2 as [|x l2 IH]; intros l1.
  - now rewrite app_nil_r.
  - rewrite imap_cons. cbn [sort_into]. rewrite Nat.add_0_r.
    rewrite insert_item_last. cbn [rbind].
    replace (l1 ++ x :: l2) with ((l1 ++ [x]) ++ l2) by now rewrite <- app_assoc.
    rewrite <- IH. f_equal. apply imap_ext. intros i y _. cbn [compose].
    rewrite length_app. cbn [length]. do 2 f_equal. lia.
Qed.

(** Items under their running indices are already in order. *)
Lemma sorted_index_keyed (items : list string) :
  sorted item_lt (index_keyed items) false = Ok (index_keyed items).
Proof. apply (sort_into_index_keyed items []). Qed.

(** The state of the loop of [set_box_text] once it keys by index. *)
Lemma combo_loop_index_mode (env : Env) (sort_field way : string)
      (combos : list node) (contents : list string) :
  Forall2 (fun combo c => combo_content env combo = Ok c) combos contents ->
  forall items,
    fold_left (combo_step env sort_field) combos
              (Ok {| c_sort_infos := ""; c_sort_way := way;
                     c_box_index := length items;
                     c_box_list := index_keyed items |})
    = Ok {| c_sort_infos := ""; c_sort_way := way;
            c_box_index :=
              length (items ++ List.filter (fun c => negb (String.eqb c "")) contents);
            c_box_list :=
              index_keyed
                (items ++ List.filter (fun c => negb (String.eqb c "")) contents) |}.
Proof.
  induction 1 as [|combo c combos contents Hc _ IH]; intros items.
  - cbn [List.filter fold_left]. now rewrite app_nil_r.
  - cbn [fold_left List.filter]. unfold combo_step at 2. cbn [rbind].
    rewrite Hc. cbn [rbind].
    destruct (String.eqb c "") eqn:Ec; cbn [negb]; [apply IH |].
    cbn [c_sort_infos c_sort_way c_box_index c_box_list String.eqb negb].
    rewrite index_keyed_snoc.
    replace (S (length items)) with (length (items ++ [c]))
      by (rewrite length_app; cbn [length]; lia).
    rewrite IH. now rewrite <- !app_assoc.
Qed.

Lemma concat_strings_filter (contents : list string) :
  concat_strings (List.filter (fun c => negb (String.eqb c "")) contents)
  = concat_strings contents.
Proof.
  induction contents as [|c contents IH]; [reflexivity |].
  cbn [List.filter]. destruct (String.eqb c "") eqn:E; cbn [negb].
  - apply String.eqb_eq in E. subst c. exact IH.
  - cbn [concat_strings fold_right]. unfold concat_strings in IH. now rewrite IH.
Qed.

Lemma Forall_filter_keep {A : Type} (P : A -> Prop) (f : A -> bool) (l : list A) :
  Forall P l -> Forall P (List.filter f l).
Proof.
  induction 1 as [|x l Hx _ IH]; cbn [List.filter]; [constructor |].
  destruct (f x); [now constructor | exact IH].
Qed.

(** The pieces of the sorted dict, one after the other, when none holds a
    Twitter timeline. *)
Lemma fold_left_pieces (twitter_transform : string -> result string)
      (box_list : list (sort_key * string)) (acc : string) :
  Forall (fun c => contains "twitter-timeline" c = false) (box_list.*2) ->
  fold_left
    (fun acc kv => do content <- acc;
                   do piece <- filter_and_transform twitter_transform (snd kv);
                   Ok (content +:+ piece))
    box_list (Ok acc)
  = Ok (acc +:+ concat_strings (box_list.*2)).
Proof.
  revert acc; induction box_list as [|[k c] box_list IH]; intros acc Hall.
  - cbn. now rewrite append_empty_r.
  - rewrite fmap_cons in Hall. apply Forall_cons in Hall as [Hc Hall].
    cbn [fold_left rbind snd]. unfold filter_and_transform at 2.
    cbn [snd] in Hc. rewrite Hc. cbn [rbind]. rewrite IH by exact Hall.
    rewrite fmap_cons. cbn [concat_strings fold_right snd].
    now rewrite append_assoc.
Qed.

(** What [set_box_text] does once the loop has keyed every content by its
    index. *)
Lemma set_box_text_from_index_keyed (twitter_transform : string -> result string)
      (env : Env) (element : node) (contents : list string) (n : nat) (b : Box) :
  combo_vars_of env element
  = Ok {| c_sort_infos := ""; c_sort_way := "asc"; c_box_index := n;
          c_box_list :=
            index_keyed (List.filter (fun c => negb (String.eqb c "")) contents) |} ->
  Forall (fun c => contains "twitter-timeline" c = false) contents ->
  get_tag_attribute element "comboList" "jahia:ruleType" <> "START_AND_END_DATE" ->
  set_box_text twitter_transform env element true b
  = set_content_attr (concat_strings contents) b.
Proof.
  intros Hvars Htw Hrule. unfold set_box_text, bind, lift. cbn [negb].
  rewrite Hvars. cbn [c_box_list c_sort_way String.eqb Ascii.eqb Bool.eqb].
  rewrite sorted_index_keyed.
  rewrite fold_left_pieces
    by (rewrite index_keyed_values; now apply Forall_filter_keep).
  rewrite index_keyed_values, concat_strings_filter.
  apply String.eqb_neq in Hrule. rewrite Hrule. reflexivity.
Qed.

(** X7: Without sort descriptor, a text box made of several entries holds the
    contents of its entries in document order. *)
Theorem set_box_text_combo_document_order
        (twitter_transform : string -> result string) (env : Env)
        (element : node) (contents : list string) (b : Box) :
  get_tag_attribute element "comboListList" "jahia:sortHandler" = "" ->
  Forall2 (fun combo c => combo_content env combo = Ok c)
          (getElementsByTagName element "comboList") contents ->
  Forall (fun c => contains "twitter-timeline" c = false) contents ->
  get_tag_attribute element "comboList" "jahia:ruleType" <> "START_AND_END_DATE" ->
  set_box_text twitter_transform env element true b
  = set_content_attr (concat_strings contents) b.
Proof.
  intros Hsort Hcontents Htw Hrule.
  apply (set_box_text_from_index_keyed
           _ _ _ contents
           (length (List.filter (fun c => negb (String.eqb c "")) contents)));
    [|assumption..].
  unfold combo_vars_of. rewrite Hsort. cbn [String.eqb negb rbind].
  change (@nil (sort_key * string)) with (index_keyed []).
  change 0 with (length (@nil string)).
  now rewrite (combo_loop_index_mode env "" "asc" _ contents Hcontents []).
Qed.

Lemma set_box_text_combo_document_order_witness :
  set_box_text (fun s => Ok s) Samples.site_env
    (Element "main" []
       [Element "comboListList" []
          [Samples.combo_entry [] "<p>B</p>"; Samples.combo_entry [] "";
           Samples.combo_entry [] "<p>A</p>"]])
    true blank_box
  = set_content_attr "<p>B</p><p>A</p>" blank_box.
Proof.
  refine (set_box_text_combo_document_order
            (fun s => Ok s) Samples.site_env _ ["<p>B</p>"; ""; "<p>A</p>"]
            blank_box _ _ _ _).
  - reflexivity.
  - repeat constructor.
  - repeat constructor.
  - discriminate.
Defined.

(** X8: With a sort descriptor, when the first entry that has content lacks the
    sort value, the descriptor is given up for the whole box: the contents
    come in document order, also when the descriptor says [desc]. *)
Theorem set_box_text_combo_sort_given_up
        (twitter_transform : string -> result string) (env : Env)
        (element entry : node) (before after : list node) (way c : string)
        (contents : list string) (b : Box) :
  let sort_infos := get_tag_attribute element "comboListList" "jahia:sortHandler" in
  let sort_field := hd "" (split ";" sort_infos) in
  sort_infos <> "" ->
  index (split ";" sort_infos) 1 = Ok way ->
  getElementsByTagName element "comboList" = before ++ entry :: after ->
  Forall (fun combo => combo_content env combo = Ok "") before ->
  combo_content env entry = Ok c -> c <> "" ->
  getAttribute entry ("jcr:" +:+ sort_field) = "" ->
  Forall2 (fun combo c => combo_content env combo = Ok c) after contents ->
  Forall (fun c => contains "twitter-timeline" c = false) (c :: contents) ->
  get_tag_attribute element "comboList" "jahia:ruleType" <> "START_AND_END_DATE" ->
  set_box_text twitter_transform env element true b
  = set_content_attr (concat_strings (c :: contents)) b.
Proof.
  intros sort_infos sort_field Hsort Hway Hcombos Hbefore Hc Hne Hkey Hafter Htw Hrule.
  apply (set_box_text_from_index_keyed
           _ _ _ (c :: contents)
           (length ([c] ++ List.filter (fun c => negb (String.eqb c "")) contents)));
    [|assumption..].
  unfold combo_vars_of. fold sort_infos.
  apply String.eqb_neq in Hsort. rewrite Hsort. cbn [negb].
  rewrite Hway. cbn [rbind]. fold sort_field. rewrite Hcombos, fold_left_app.
  set (v0 := {| c_sort_infos := sort_infos; c_sort_way := way;
                c_box_index := 0; c_box_list := [] |}).
  assert (Hb : fold_left (combo_step env sort_field) before (Ok v0) = Ok v0).
  { clear Hcombos. induction Hbefore as [|x before Hx _ IHb]; [reflexivity |].
    cbn [fold_left]. now rewrite TransformerFacts.combo_step_no_content. }
  rewrite Hb. cbn [fold_left]. unfold combo_step at 2. cbn [rbind].
  rewrite Hc. cbn [rbind]. apply String.eqb_neq in Hne. rewrite Hne.
  cbn [v0 c_sort_infos c_sort_way c_box_index c_box_list dict_set].
  rewrite Hsort. cbn [negb]. rewrite Hkey. cbn [String.eqb].
  change [(KInt 0, c)] with (index_keyed [c]).
  change 1 with (length [c]).
  rewrite (combo_loop_index_mode env sort_field "asc" _ contents Hafter [c]).
  cbn [List.filter]. rewrite Hne. reflexivity.
Qed.

Lemma set_box_text_combo_sort_given_up_witness :
  set_box_text (fun s => Ok s) Samples.site_env
    (Element "main" []
       [Element "comboListList" [("jahia:sortHandler", "created;desc;true;true")]
          [Samples.combo_entry [] "<p>B</p>";
           Samples.combo_entry [("jcr:created", "2018-01-01")] "<p>A</p>"]])
    true blank_box
  = set_content_attr "<p>B</p><p>A</p>" blank_box.
Proof.
  refine (set_box_text_combo_sort_given_up
            (fun s => Ok s) Samples.site_env _
            (Samples.combo_entry [] "<p>B</p>") [] _ "desc" "<p>B</p>" ["<p>A</p>"]
            blank_box _ _ _ _ _ _ _ _ _ _).
  - discriminate.
  - reflexivity.
  - reflexivity.
  - constructor.
  - reflexivity.
  - discriminate.
  - reflexivity.
  - repeat constructor.
  - repeat constructor.
  - discriminate.
Defined.

(** X9: With a sort descriptor, two entries with the same sort value share one
    key of the dict: the second takes the place of the first, whose content
    is lost. *)
Theorem set_box_text_combo_same_sort_value
        (twitter_transform : string -> result string) (env : Env)
        (element e1 e2 : node) (way key c1 c2 : string) (b : Box) :
  let sort_infos := get_tag_attribute element "comboListList" "jahia:sortHandler" in
  let sort_field := hd "" (split ";" sort_infos) in
  sort_infos <> "" ->
  index (split ";" sort_infos) 1 = Ok way ->
  getElementsByTagName element "comboList" = [e1; e2] ->
  combo_content env e1 = Ok c1 -> c1 <> "" ->
  combo_content env e2 = Ok c2 -> c2 <> "" ->
  key <> "" ->
  getAttribute e1 ("jcr:" +:+ sort_field) = key ->
  getAttribute e2 ("jcr:" +:+ sort_field) = key ->
  contains "twitter-timeline" c2 = false ->
  get_tag_attribute element "comboList" "jahia:ruleType" <> "START_AND_END_DATE" ->
  set_box_text twitter_transform env element true b = set_content_attr c2 b.
Proof.
  intros sort_infos sort_field Hsort Hway Hcombos Hc1 Hne1 Hc2 Hne2 Hkey Hk1 Hk2
         Htw Hrule.
  unfold set_box_text, bind, lift. cbn [negb].
  unfold combo_vars_of. fold sort_infos.
  apply String.eqb_neq in Hsort, Hne1, Hne2, Hkey, Hrule.
  rewrite Hsort. cbn [negb]. rewrite Hway. cbn [rbind]. fold sort_field.
  rewrite Hcombos. cbn [fold_left]. unfold combo_step. cbn [rbind].
  rewrite Hc1. cbn [rbind]. rewrite Hne1.
  cbn [c_sort_infos c_sort_way c_box_index c_box_list]. rewrite Hsort. cbn [negb].
  rewrite Hk1, Hkey. cbn [rbind]. rewrite Hc2. cbn [rbind]. rewrite Hne2.
  cbn [c_sort_infos c_sort_way c_box_index c_box_list]. rewrite Hsort. cbn [negb].
  rewrite Hk2, Hkey. cbn [dict_set key_eqb]. rewrite String.eqb_refl.
  assert (Hsorted : forall r, sorted item_lt [(KStr key, c2)] r = Ok [(KStr key, c2)])
    by (intros []; reflexivity).
  rewrite Hsorted. cbn [fold_left rbind snd]. unfold filter_and_transform.
  rewrite Htw. cbn [rbind String.append]. rewrite Hrule. reflexivity.
Qed.

Lemma set_box_text_combo_same_sort_value_witness :
  set_box_text (fun s => Ok s) Samples.site_env
    (Element "main" []
       [Element "comboListList" [("jahia:sortHandler", "created;desc;true;true")]
          [Samples.combo_entry [("jcr:created", "2018-01-01")] "<p>A</p>";
           Samples.combo_entry [("jcr:created", "2018-01-01")] "<p>B</p>"]])
    true blank_box
  = set_content_attr "<p>B</p>" blank_box.
Proof.
  refine (set_box_text_combo_same_sort_value
            (fun s => Ok s) Samples.site_env _ _ _ "desc" "2018-01-01"
            "<p>A</p>" "<p>B</p>" blank_box _ _ _ _ _ _ _ _ _ _ _ _).
  - discriminate.
  - reflexivity.
  - reflexivity.
  - reflexivity.
  - discriminate.
  - reflexivity.
  - discriminate.
  - discriminate.
  - reflexivity.
  - reflexivity.
  - reflexivity.
  - discriminate.
Defined.

End ComboFacts.

(** ** More on the scheduler, the news parameters and the snippets *)

Module BoxMoreFacts.
Import PyStr PyStrFacts PyStrMore Dom BoxPy BoxMore SortFacts.

(** X10: A validity date without a [T] is not read: when there are such dates
    only, the content is wrapped in a scheduler whose four date and time
    attributes are all empty. *)
Theorem set_scheduler_box_dates_without_time
        (env : Env) (element : node) (content : string) (b : Box) :
  let validFrom := get_tag_attribute element "comboList" "jahia:validFrom" in
  let validTo := get_tag_attribute element "comboList" "jahia:validTo" in
  contains "T" validFrom = false -> contains "T" validTo = false ->
  validFrom <> "" \/ validTo <> "" ->
  fst (_set_scheduler_box env element content b)
  = Ok ("[epfl_scheduler start_date=" +:+ DQ +:+ DQ
        +:+ " end_date=" +:+ DQ +:+ DQ
        +:+ " start_time=" +:+ DQ +:+ DQ
        +:+ " end_time=" +:+ DQ +:+ DQ
        +:+ "]" +:+ content +:+ "[/epfl_scheduler]").
Proof.
  intros validFrom validTo Hfrom Hto Hsome.
  unfold _set_scheduler_box, bind, get, lift, ret.
  cbn [set_shortcode_name shortcode_name]. fold validFrom validTo.
  assert (Hboth : String.eqb validFrom "" && String.eqb validTo "" = false).
  { destruct Hsome as [H | H]; apply String.eqb_neq in H; rewrite H;
      [reflexivity | apply andb_false_r]. }
  rewrite Hboth, Hfrom, Hto. reflexivity.
Qed.

Lemma set_scheduler_box_dates_without_time_witness :
  fst (_set_scheduler_box Samples.site_env
         (Samples.combo_with_dates "2017-01-31" "") "<p>Hello</p>" blank_box)
  = Ok ("[epfl_scheduler start_date=" +:+ DQ +:+ DQ
        +:+ " end_date=" +:+ DQ +:+ DQ
        +:+ " start_time=" +:+ DQ +:+ DQ
        +:+ " end_time=" +:+ DQ +:+ DQ
        +:+ "]" +:+ "<p>Hello</p>" +:+ "[/epfl_scheduler]").
Proof.
  apply (set_scheduler_box_dates_without_time Samples.site_env
           (Samples.combo_with_dates "2017-01-31" "") "<p>Hello</p>" blank_box).
  - reflexivity.
  - reflexivity.
  - left. discriminate.
Defined.

(** X11: Whatever it returns, [_set_scheduler_box] has named the box's shortcode
    [epfl_scheduler], and touched nothing else of the box. *)
Theorem set_scheduler_box_names_shortcode
        (env : Env) (element : node) (content : string) (b : Box) :
  snd (_set_scheduler_box env element content b)
  = snd (set_shortcode_name "epfl_scheduler" b)
  /\ is_ok (fst (_set_scheduler_box env element content b)) = true.
Proof.
  unfold _set_scheduler_box, bind, get, lift, ret.
  cbn [set_shortcode_name shortcode_name snd].
  set (vf := get_tag_attribute element "comboList" "jahia:validFrom").
  set (vt := get_tag_attribute element "comboList" "jahia:validTo").
  destruct (String.eqb vf "" && String.eqb vt ""); [split; reflexivity |].
  assert (Hparts : forall v,
             exists d t,
               (if contains "T" v
                then do d <- index (split "T" v) 0;
                     do t <- index (split "T" v) 1; Ok (d, t)
                else Ok ("", "")) = Ok (d, t)).
  { intros v. unfold contains. rewrite split_find by discriminate.
    destruct (find "T" v) as [n|] eqn:E; [|now exists "", ""].
    change (index (?x :: ?l) 0) with (Ok (A := string) x).
    change (index (?x :: ?l) 1) with (index l 0).
    cbn [rbind]. rewrite split_head by discriminate. cbn [rbind]. eauto. }
  destruct (Hparts vf) as (d1 & t1 & ->). destruct (Hparts vt) as (d2 & t2 & ->).
  cbv iota beta.
  destruct (negb (String.eqb d1 "") && String.eqb d2 "" && PyStr.lt d1 (today env));
    split; reflexivity.
Qed.

(** X12: Once [parse_qs] has given the dict of the query parameters, the
    body of [_extract_epfl_news_parameters] returns in every case but one,
    a [themes] parameter without a [theme] parameter; in particular it
    returns when there is no [themes] parameter. No parameter has an empty
    list of values, as [parse_qs] guarantees. *)
Theorem extract_epfl_news_parameters_returns
        (parameters : gmap string (list string)) :
  (forall k l, parameters !! k = Some l -> l <> []) ->
  is_ok (extract_epfl_news_parameters_of parameters) = true
  <-> (is_Some (parameters !! "themes") -> is_Some (parameters !! "theme")).
Proof.
  intros Hne. unfold extract_epfl_news_parameters_of, dict_has, dict_get.
  repeat match goal with
         | |- context [parameters !! ?k] =>
             let E := fresh "E" in
             destruct (parameters !! k) as [[|? ?]|] eqn:E;
             [exfalso; exact (Hne _ _ E eq_refl) | |]
         end;
    cbn;
    repeat match goal with
           | |- context [String.eqb ?a ?b] => destruct (String.eqb a b)
           end;
    cbn;
    (split;
     [ intros H Hs;
       first [ discriminate H | solve [eauto]
             | destruct Hs as [? Hs]; discriminate Hs ]
     | intros H;
       first [ reflexivity
             | destruct H as [? H]; [solve [eauto] | discriminate H] ] ]).
Qed.

Lemma extract_epfl_news_parameters_returns_witness :
  is_ok (extract_epfl_news_parameters_of
           (list_to_map [("channel", ["8"]); ("lang", ["ang"])])) = true.
Proof.
  assert (Hne : forall k l,
             (list_to_map [("channel", ["8"]); ("lang", ["ang"])]
              : gmap string (list string)) !! k = Some l -> l <> []).
  { apply (proj1 (map_Forall_lookup (fun _ l => l <> []) _)).
    apply (bool_decide_unpack _). vm_compute. exact I. }
  apply (proj2 (extract_epfl_news_parameters_returns
                  (list_to_map [("channel", ["8"]); ("lang", ["ang"])]) Hne)).
  intros [themes Hthemes]. vm_compute in Hthemes. discriminate Hthemes.
Defined.

(** X13: The language that [_extract_epfl_news_parameters] returns is never one
    of the Jahia names [ang] and [fra]: they come out as [en] and [fr]. *)
Theorem extract_epfl_news_parameters_lang
        (parameters : gmap string (list string))
        (channel_id lang template category stickers : string)
        (themes projects : str_or_list) :
  extract_epfl_news_parameters_of parameters
  = Ok (channel_id, lang, template, category, themes, stickers, projects) ->
  lang <> "ang" /\ lang <> "fra"
  /\ (forall first others,
         parameters !! "lang" = Some (first :: others) ->
         lang = if String.eqb first "ang" then "en"
                else if String.eqb first "fra" then "fr" else first).
Proof.
  unfold extract_epfl_news_parameters_of. intros H.
  destruct (if dict_has parameters "channel" then _ else _); cbn [rbind] in H;
    [|discriminate H].
  destruct (if dict_has parameters "lang" then _ else _) as [lang0|] eqn:El;
    cbn [rbind] in H; [|discriminate H].
  assert (lang0 = lang) as ->.
  { repeat match type of H with
           | rbind ?r _ = _ => destruct r; cbn [rbind] in H; [|discriminate H]
           end.
    now injection H. }
  clear H. unfold dict_has, dict_get in El.
  destruct (parameters !! "lang") as [l|] eqn:E.
  - rewrite bool_decide_eq_true_2 in El by eauto. cbn [rbind] in El.
    destruct l as [|first others]; [discriminate El |].
    cbn [index nth_error rbind] in El. injection El as <-.
    destruct (String.eqb first "ang") eqn:E1.
    + repeat split; try discriminate. intros ? ? [= <- <-]. now rewrite E1.
    + destruct (String.eqb first "fra") eqn:E2.
      * repeat split; try discriminate. intros ? ? [= <- <-]. now rewrite E1, E2.
      * apply String.eqb_neq in E1, E2. repeat split; try assumption.
        intros ? ? [= <- <-]. apply String.eqb_neq in E1, E2. now rewrite E1, E2.
  - rewrite bool_decide_eq_false_2 in El by (intros [? ?]; discriminate).
    injection El as <-. repeat split; try discriminate.
Qed.

Lemma rfind_startswith (sub s : string) (i : nat) :
  rfind sub s = Some i -> startswith sub (sdrop i s) = true.
Proof.
  revert i; induction s as [|c s IH]; intros i; cbn [rfind].
  - destruct (startswith sub "") eqn:E; [|discriminate]. now intros [= <-].
  - destruct (rfind sub s) as [k|].
    + intros [= <-]. cbn [sdrop]. now apply IH.
    + destruct (startswith sub (String c s)) eqn:E; [|discriminate].
      now intros [= <-].
Qed.

(** No occurrence begins after the one that [rfind] gives. *)
Lemma rfind_last (sub s : string) (i j : nat) :
  rfind sub s = Some i -> i < j -> j <= String.length s ->
  startswith sub (sdrop j s) = false.
Proof.
  revert i j; induction s as [|c s IH]; intros i j; cbn [rfind].
  - simpl. lia.
  - destruct (rfind sub s) as [k|] eqn:E.
    + intros [= <-] Hj Hlen. destruct j as [|j]; [lia |]. cbn [sdrop].
      apply (IH k); [reflexivity | lia | simpl in Hlen; lia].
    + destruct (startswith sub (String c s)); [|discriminate].
      intros [= <-] Hj Hlen. destruct j as [|j]; [lia |]. cbn [sdrop].
      clear IH Hj. simpl in Hlen. apply le_S_n in Hlen.
      revert j Hlen E. induction s as [|d s IHs]; intros j Hlen E.
      * cbn [rfind] in E. destruct j; [|simpl in Hlen; lia].
        cbn [sdrop]. now destruct (startswith sub "").
      * cbn [rfind] in E. destruct (rfind sub s) eqn:E'; [discriminate E |].
        destruct (startswith sub (String d s)) eqn:Es; [discriminate E |].
        destruct j as [|j]; [exact Es |]. cbn [sdrop].
        apply IHs; [simpl in Hlen; lia | reflexivity].
Qed.

Lemma rfind_of_find (sub s : string) (n : nat) :
  find sub s = Some n -> exists i, rfind sub s = Some i.
Proof.
  revert n; induction s as [|c s IH]; intros n; cbn [find rfind].
  - destruct (startswith sub ""); [eauto | discriminate].
  - destruct (startswith sub (String c s)).
    + intros _. destruct (rfind sub s); eauto.
    + destruct (find sub s) as [k|]; [|discriminate].
      intros _. destruct (IH k eq_refl) as [i ->]. eauto.
Qed.

(** X15: The path of a snippet's image is cut down to its last [/files]: what is
    left begins with [/files], holds no further [/files], and is kept as it
    is when it goes through the same cut again. A path without [/files] is
    not changed. *)
Theorem from_last_files_spec (image : string) :
  (contains "/files" image = false -> from_last_files image = image)
  /\ (contains "/files" image = true ->
      startswith "/files" (from_last_files image) = true
      /\ (exists dropped, image = dropped +:+ from_last_files image)
      /\ find "/files" (sdrop 1 (from_last_files image)) = None
      /\ from_last_files (from_last_files image) = from_last_files image).
Proof.
  unfold from_last_files. split; intros Hc; rewrite Hc; [reflexivity |].
  unfold contains in Hc. destruct (find "/files" image) as [n|] eqn:Ef;
    [|discriminate Hc].
  destruct (rfind_of_find _ _ _ Ef) as [i Hi]. rewrite Hi.
  pose proof (rfind_startswith _ _ _ Hi) as Hstart.
  assert (Hnone : find "/files" (sdrop 1 (sdrop i image)) = None).
  { destruct (find "/files" (sdrop 1 (sdrop i image))) as [k|] eqn:Ek;
      [|reflexivity].
    pose proof (find_bound _ _ _ Ek) as Hb.
    apply find_startswith in Ek. rewrite <- !sdrop_add in Ek.
    rewrite !length_sdrop in Hb. change (String.length "/files") with 6 in Hb.
    rewrite (rfind_last _ _ i (i + (1 + k)) Hi) in Ek by lia. discriminate Ek. }
  repeat split.
  - exact Hstart.
  - exists (stake i image). symmetry. apply stake_sdrop.
  - exact Hnone.
  - assert (Hc' : contains "/files" (sdrop i image) = true).
    { unfold contains. destruct (sdrop i image) as [|c t]; [discriminate Hstart |].
      cbn [find]. now rewrite Hstart. }
    rewrite Hc'.
    destruct (rfind "/files" (sdrop i image)) as [j|] eqn:Ej; [|reflexivity].
    destruct j as [|j]; [reflexivity |].
    pose proof (rfind_startswith _ _ _ Ej) as Hj.
    destruct (find_of_occurrence "/files" (sdrop 1 (sdrop i image)) j)
      as (k & Hk & _); [|congruence].
    now rewrite <- sdrop_add.
Qed.

Lemma from_last_files_spec_witness :
  startswith "/files" (from_last_files "/content/sites/lab/files/img/files/a.png")
  = true
  /\ from_last_files "/content/sites/lab/files/img/files/a.png" = "/files/a.png".
Proof.
  split; [|reflexivity].
  apply (proj2 (from_last_files_spec "/content/sites/lab/files/img/files/a.png")).
  reflexivity.
Defined.

Lemma extract_epfl_news_parameters_lang_witness :
  extract_epfl_news_parameters_of
    (list_to_map [("channel", ["8"]); ("lang", ["ang"])])
  = Ok ("8", "en", "", "", AStr "", "yes", AStr "")
  /\ "en" <> "ang" /\ "en" <> "fra".
Proof.
  assert (H : extract_epfl_news_parameters_of
                (list_to_map [("channel", ["8"]); ("lang", ["ang"])])
              = Ok ("8", "en", "", "", AStr "", "yes", AStr ""))
    by (vm_compute; reflexivity).
  split; [exact H |].
  destruct (extract_epfl_news_parameters_lang _ _ _ _ _ _ _ _ H) as (H1 & H2 & _).
  split; assumption.
Defined.



End BoxMoreFacts.

(** ** More on the extraction of a part of the htaccess file *)

Module RedirectionsMoreFacts.
Import PyStr PyStrFacts PyStrMore Redirections.

Lemma startswith_of_stake (p u : string) (m : nat) :
  startswith p (stake m u) = true -> startswith p u = true.
Proof.
  revert u m; induction p as [|a p IH]; intros u m H; [reflexivity |].
  destruct m as [|m], u as [|b u]; simpl in H; try discriminate H.
  apply andb_true_iff in H as [Hab H]. simpl. rewrite Hab. now apply (IH u m).
Qed.

Lemma sdrop_stake (k n : nat) (t : string) :
  sdrop k (stake n t) = stake (n - k) (sdrop k t).
Proof.
  revert n t; induction k as [|k IH]; intros n t.
  - now rewrite Nat.sub_0_r.
  - destruct n as [|n], t as [|c t]; simpl; try reflexivity;
      try (now destruct (n - k)); apply IH.
Qed.

(** A text that lacks [sub] has no prefix that holds it. *)
Lemma contains_stake (sub u : string) (m : nat) :
  contains sub u = false -> contains sub (stake m u) = false.
Proof.
  unfold contains. intros Hu.
  destruct (find sub (stake m u)) as [k|] eqn:E; [|reflexivity].
  apply find_startswith in E. rewrite sdrop_stake in E.
  apply startswith_of_stake in E.
  destruct (find_of_occurrence sub u k E) as (j & Hj & _).
  now rewrite Hj in Hu.
Qed.

Lemma length_stake_le (n : nat) (s : string) : String.length (stake n s) <= n.
Proof.
  revert s; induction n as [|n IH]; intros [|c s]; simpl; try lia.
  specialize (IH s). lia.
Qed.

(** The text before the first occurrence of a separator does not hold the
    separator. *)
Lemma contains_cut_at (sep t : string) :
  sep <> "" -> contains sep (cut_at sep t) = false.
Proof.
  intros Hsep. unfold cut_at. destruct (find sep t) as [n|] eqn:E.
  - unfold contains.
    destruct (find sep (stake n t)) as [k|] eqn:Ek; [|reflexivity].
    pose proof (find_bound _ _ _ Ek) as Hb.
    pose proof (length_stake_le n t) as Hl.
    apply find_startswith in Ek. rewrite sdrop_stake in Ek.
    apply startswith_of_stake in Ek.
    destruct (find_of_occurrence sep t k Ek) as (j & Hj & Hjk).
    assert (j = n) by congruence. subst j.
    destruct sep; [congruence | simpl in Hb; lia].
  - unfold contains. now rewrite E.
Qed.

(** X16: [extract_htaccess_part] never raises. What it returns is empty, or it is
    the start marker, a body and the end marker on lines of their own, and
    the body holds neither marker. *)
Theorem extract_htaccess_part_shape (content marker : string) :
  let start_marker := "# BEGIN " +:+ marker in
  let end_marker := "# END " +:+ marker in
  extract_htaccess_part content marker = Ok ""
  \/ exists body,
      extract_htaccess_part content marker
      = Ok (start_marker +:+ LF +:+ body +:+ LF +:+ end_marker)
      /\ contains start_marker body = false
      /\ contains end_marker body = false
      /\ contains start_marker content = true
      /\ contains end_marker content = true.
Proof.
  intros start_marker end_marker.
  rewrite RedirectionsFacts.extract_htaccess_part_eq.
  fold start_marker end_marker. unfold contains at 3 4.
  destruct (find start_marker content) as [i|]; [|now left].
  destruct (find end_marker content) as [j|]; [|now left].
  right. eexists. split; [reflexivity |]. repeat split.
  - unfold cut_at at 1.
    destruct (find end_marker (cut_at start_marker _));
      [apply contains_stake |]; apply contains_cut_at; discriminate.
  - apply contains_cut_at. discriminate.
Qed.

End RedirectionsMoreFacts.

(** ** What the fixups leave in the tree *)

Module SoupMoreFacts.
Import PyStr PyStrFacts Soup SoupMore SoupFacts.

Lemma existsb_map_false {A : Type} (p : A -> bool) (f : A -> A) (l : list A) :
  Forall (fun x => p (f x) = false) l -> existsb p (map f l) = false.
Proof.
  induction 1 as [|x l Hx _ IH]; [reflexivity |].
  cbn [map existsb]. now rewrite Hx, IH.
Qed.

(** X17: After [fix_img_align_left] no image is left with [align="left"]. *)
Theorem img_node_no_left_aligned (t : tag) :
  has_left_aligned_img (img_node t) = false.
Proof.
  induction t as [s | name attrs cs IH] using tag_induction; [reflexivity |].
  cbn [img_node has_left_aligned_img].
  rewrite (existsb_map_false _ _ _ IH), orb_false_r.
  destruct (String.eqb name "img" && bool_decide (get attrs "align" = Some "left"))
    eqn:E; [|exact E].
  rewrite get_del_attr. rewrite bool_decide_eq_false_2 by discriminate.
  apply andb_false_r.
Qed.

Lemma get_set_attr_other (attrs : list (string * string)) (key other value : string) :
  key <> other -> get (set_attr attrs other value) key = get attrs key.
Proof.
  intros Hne. induction attrs as [|[k v] attrs IH]; cbn [set_attr get].
  - assert (String.eqb other key = false) as ->; [|reflexivity].
    apply String.eqb_neq. congruence.
  - destruct (String.eqb k other) eqn:Eo; cbn [get].
    + apply String.eqb_eq in Eo. subst k.
      assert (String.eqb other key = false) as ->; [|reflexivity].
      apply String.eqb_neq. congruence.
    + now rewrite IH.
Qed.

(** X18: An image with [align="left"] loses [align] and gets [class="left"], in
    place of the class it had; its other attributes and every image with
    another alignment, or none, stay as they are. *)
Theorem img_node_attributes (attrs : list (string * string)) (cs : list tag) :
  exists attrs',
    img_node (Tag "img" attrs cs) = Tag "img" attrs' (map img_node cs)
    /\ (get attrs "align" = Some "left" ->
        get attrs' "align" = None /\ get attrs' "class" = Some "left"
        /\ forall key, key <> "align" -> key <> "class" ->
                       get attrs' key = get attrs key)
    /\ (get attrs "align" <> Some "left" -> attrs' = attrs).
Proof.
  cbn [img_node String.eqb Ascii.eqb Bool.eqb andb]. eexists. split; [reflexivity |].
  split.
  - intros H. rewrite (bool_decide_eq_true_2 _ H). repeat split.
    + apply get_del_attr.
    + rewrite get_del_attr_other by discriminate. apply get_set_attr.
    + intros key Ha Hc. rewrite get_del_attr_other by assumption.
      now apply get_set_attr_other.
  - intros H. now rewrite (bool_decide_eq_false_2 _ H).
Qed.

Section Slug.

Variable slugify : string -> string.

(** X19: After [add_id_to_h3] no heading with some text is left without an
    [id]. *)
Theorem h3_node_no_heading_without_id (t : tag) :
  has_h3_without_id (h3_node slugify t) = false.
Proof.
  induction t as [s | name attrs cs IH] using tag_induction; [reflexivity |].
  cbn [h3_node has_h3_without_id].
  rewrite (existsb_map_false _ _ _ IH), orb_false_r.
  assert (Htext : forall a, text (Tag name a (map (h3_node slugify) cs))
                            = text (Tag name attrs cs)).
  { intros a. cbn [text]. f_equal. rewrite map_map.
    apply map_equal, Forall_forall. intros c _. apply text_h3_node. }
  rewrite Htext.
  destruct (String.eqb name "h3" && negb (String.eqb (text (Tag name attrs cs)) "")
            && negb (bool_decide (is_Some (get attrs "id")))) eqn:E; [|exact E].
  rewrite get_set_attr.
  rewrite (bool_decide_eq_true_2 _ (mk_is_Some _ _ eq_refl)).
  apply andb_false_r.
Qed.

(** X20: A heading that has an [id] keeps its attributes; one that has some text
    and no [id] gets the slug of its text as [id], after its other
    attributes; the text of the content is never changed. *)
Theorem h3_node_attributes (attrs : list (string * string)) (cs : list tag) :
  (is_Some (get attrs "id") ->
   h3_node slugify (Tag "h3" attrs cs) = Tag "h3" attrs (map (h3_node slugify) cs))
  /\ (get attrs "id" = None -> text (Tag "h3" attrs cs) <> "" ->
      h3_node slugify (Tag "h3" attrs cs)
      = Tag "h3" (attrs ++ [("id", slugify (text (Tag "h3" attrs cs)))])
            (map (h3_node slugify) cs))
  /\ text (h3_node slugify (Tag "h3" attrs cs)) = text (Tag "h3" attrs cs).
Proof.
  split; [|split].
  - intros H. cbn [h3_node]. rewrite (bool_decide_eq_true_2 _ H).
    now rewrite andb_false_r.
  - intros Hid Htext. cbn [h3_node String.eqb Ascii.eqb Bool.eqb andb].
    apply String.eqb_neq in Htext. rewrite Htext.
    rewrite bool_decide_eq_false_2 by (rewrite Hid; intros [? ?]; discriminate).
    cbn [negb andb]. f_equal.
    clear Htext. induction attrs as [|[k v] attrs IH]; [reflexivity |].
    cbn [get] in Hid. cbn [set_attr].
    destruct (String.eqb k "id"); [discriminate Hid |].
    cbn [app]. f_equal. now apply IH.
  - apply text_h3_node.
Qed.

End Slug.

Lemma img_node_attributes_witness :
  exists attrs',
    img_node (Tag "img" [("align", "left"); ("src", "a.png")] [])
    = Tag "img" attrs' []
    /\ get attrs' "align" = None /\ get attrs' "class" = Some "left"
    /\ get attrs' "src" = Some "a.png".
Proof.
  destruct (img_node_attributes [("align", "left"); ("src", "a.png")] [])
    as (attrs' & Heq & Hleft & _).
  exists attrs'. split; [exact Heq |].
  destruct (Hleft eq_refl) as (Halign & Hclass & Hother).
  repeat split; try assumption.
  rewrite Hother by discriminate. reflexivity.
Defined.

Lemma h3_node_attributes_witness :
  h3_node (fun s => s) (Tag "h3" [("class", "t")] [NavigableString "Hello World"])
  = Tag "h3" [("class", "t"); ("id", "Hello World")] [NavigableString "Hello World"].
Proof.
  refine (proj1 (proj2 (h3_node_attributes
                          (fun s => s) [("class", "t")]
                          [NavigableString "Hello World"])) eq_refl _).
  vm_compute. discriminate.
Defined.

(** X21: The three fixups, applied to a tree they have already been applied to,
    change nothing. *)
Theorem fixups_idempotent_on_tree (slugify : string -> string) (t : tag) :
  post_process_tree slugify (post_process_tree slugify t)
  = post_process_tree slugify t.
Proof.
  unfold post_process_tree.
  rewrite (video_node_untouched (img_node _)).
  - rewrite h3_node_img_node, h3_node_idempotent. apply img_node_idempotent.
  - rewrite has_video_iframe_img_node, has_video_iframe_h3_node.
    induction t as [s | name attrs cs IH] using tag_induction; [reflexivity |].
    cbn [video_node].
    destruct (String.eqb name "iframe" && is_video_src (get attrs "src")) eqn:E;
      [reflexivity |].
    cbn [has_video_iframe]. rewrite E. cbn [orb].
    induction IH as [|c cs Hc _ IHcs]; [reflexivity |].
    cbn [map existsb]. now rewrite Hc.
Qed.

(** X22: After [fix_video_iframes] no iframe that passes its test is left in the
    tree. *)
Theorem video_node_leaves_no_video_iframe (t : tag) :
  has_video_iframe (video_node t) = false.
Proof.
  induction t as [s | name attrs cs IH] using tag_induction; [reflexivity |].
  cbn [video_node].
  destruct (String.eqb name "iframe" && is_video_src (get attrs "src")) eqn:E;
    [reflexivity |].
  cbn [has_video_iframe]. rewrite E. cbn [orb].
  induction IH as [|c cs Hc _ IHcs]; [reflexivity |].
  cbn [map existsb]. now rewrite Hc.
Qed.

End SoupMoreFacts.

(* ===================================================================== *)
(** ** The news, memento and publication boxes *)

Module NewsFacts.
Import PyStr PyStrFacts Dom BoxPy BoxMore.

Lemma first_value_returns (parameters : gmap string (list string)) (k : string) :
  (forall k l, parameters !! k = Some l -> l <> []) ->
  first_value parameters k
  = Ok (match parameters !! k with Some l => hd "" l | None => "" end).
Proof.
  intros Hne. unfold first_value, dict_has, dict_get.
  destruct (parameters !! k) as [[|v l]|] eqn:E.
  - exfalso; exact (Hne _ _ E eq_refl).
  - rewrite bool_decide_eq_true_2 by eauto. reflexivity.
  - rewrite bool_decide_eq_false_2 by (intros [? ?]; discriminate). reflexivity.
Qed.

(** X23: Once [parse_qs] has given the dict of the query parameters, the
    body of [_extract_epfl_memento_parameters] returns, for every dict in
    which no parameter has an empty list of values (as [parse_qs]
    guarantees): each value is the first one of its parameter, or empty
    without the parameter, but the period, which is empty without a [period]
    parameter, [upcoming] when the first value of the parameter is [2], and
    [past] for every other value. *)
Theorem extract_epfl_memento_parameters_period
        (parameters : gmap string (list string)) :
  let first k :=
    match parameters !! k with Some l => hd "" l | None => "" end in
  (forall k l, parameters !! k = Some l -> l <> []) ->
  extract_epfl_memento_parameters_of parameters
  = Ok (first "memento", first "lang", first "template",
        match parameters !! "period" with
        | None => ""
        | Some l => if String.eqb (hd "" l) "2" then "upcoming" else "past"
        end,
        first "color", first "filters", first "category", first "reorder").
Proof.
  intros first Hne. subst first.
  unfold extract_epfl_memento_parameters_of.
  rewrite !first_value_returns by assumption. cbn [rbind].
  unfold dict_has, dict_get.
  destruct (parameters !! "period") as [[|p l]|] eqn:E.
  - exfalso; exact (Hne _ _ E eq_refl).
  - rewrite bool_decide_eq_true_2 by eauto. reflexivity.
  - rewrite bool_decide_eq_false_2 by (intros [? ?]; discriminate).
    reflexivity.
Qed.

Lemma extract_epfl_memento_parameters_period_witness :
  extract_epfl_memento_parameters_of
    (list_to_map [("memento", ["sti"]); ("period", ["1"])])
  = Ok ("sti", "", "", "past", "", "", "", "").
Proof.
  assert (Hne : forall k l,
             (list_to_map [("memento", ["sti"]); ("period", ["1"])]
              : gmap string (list string)) !! k = Some l -> l <> []).
  { apply (proj1 (map_Forall_lookup (fun _ l => l <> []) _)).
    apply (bool_decide_unpack _). vm_compute. exact I. }
  pose proof (extract_epfl_memento_parameters_period
                (list_to_map [("memento", ["sti"]); ("period", ["1"])]) Hne)
    as H.
  vm_compute in H. vm_compute. exact H.
Defined.


Section WithCollaborators.

Variable handle_custom_chars : string -> string.
Variable parse_qs_query : string -> gmap string (list string).
Variable get_redirected_url : string -> result string.



(** X26: The transformers that read the first list container of the box raise an
    [IndexError] when the box has none; the shortcode is named by then, the
    content is not assigned. *)
Theorem first_list_container_missing (element : node) (self : Box) :
  (getElementsByTagName element "actuListList" = [] ->
   fst (set_box_actu handle_custom_chars parse_qs_query element self)
   = Raise IndexError
   /\ content (snd (set_box_actu handle_custom_chars parse_qs_query element self))
      = content self)
  /\ (getElementsByTagName element "infoscienceListList" = [] ->
      getElementsByTagName element "infoscienceFilteredListList" = [] ->
      getElementsByTagName element "importHtmlList" = [] ->
      fst (set_box_infoscience element self) = Raise IndexError
      /\ content (snd (set_box_infoscience element self)) = content self).
Proof.
  split.
  - intros Hlist. unfold set_box_actu, bind, lift. cbn [set_shortcode_name].
    rewrite Hlist. split; reflexivity.
  - intros H1 H2 H3. unfold set_box_infoscience, bind, lift, get.
    cbn [set_shortcode_name type]. rewrite H1, H2, H3.
    destruct (String.eqb (type self) TYPE_INFOSCIENCE),
      (String.eqb (type self) TYPE_INFOSCIENCE_FILTER); split; reflexivity.
Qed.

End WithCollaborators.



Lemma first_list_container_missing_witness :
  fst (set_box_actu (fun s => s) (fun _ => Samples.news_parameters)
         (Element "main" [] []) blank_box) = Raise IndexError
  /\ fst (set_box_infoscience (Element "main" [] []) blank_box) = Raise IndexError.
Proof.
  split.
  - apply (proj1 (first_list_container_missing
                    (fun s => s) (fun _ => Samples.news_parameters)
                    (Element "main" [] []) blank_box)).
    reflexivity.
  - apply (proj2 (first_list_container_missing
                    (fun s => s) (fun _ => Samples.news_parameters)
                    (Element "main" [] []) blank_box)); reflexivity.
Defined.

End NewsFacts.

(* ===================================================================== *)
(** ** The constructor and the choice of the transformer *)

Module DispatchFacts.
Import PyStr PyStrFacts Dom BoxPy BoxMore BoxFacts.

Section WithCollaborators.

Variable handle_custom_chars : string -> string.
Variable jahia_resource_default_value : string -> result (option string).
Variable twitter_transform : string -> result string.
Variable env : Env.
Variable parse_qs_query : string -> gmap string (list string).
Variable urlencode : list (string * string) -> string.
Variable template_key : string -> result string.
Variable layout_default_value : string -> result (option string).
Variable get_redirected_url : string -> result string.
Variable isdigit : string -> bool.
Variable parse : string -> list Soup.tag.
Variable render : list Soup.tag -> string.
Variable slugify : string -> string.
Variable set_sort_infos : node -> result unit.

(** X27: A box whose type identifier is neither in the table of the known
    identifiers nor one of the tags of that table is built without error, for
    whatever it contains: its type is the identifier, no shortcode is named,
    and its content is the identifier in square brackets, seen by the three
    fixups. *)
Theorem Box_new_unknown_type (element : node) (multibox is_in_sidebar : bool) :
  getAttribute element "jcr:primaryType" <> "" ->
  ~ In (getAttribute element "jcr:primaryType") (map fst types_table) ->
  ~ In (getAttribute element "jcr:primaryType") (map snd types_table) ->
  set_sort_infos element = Ok tt ->
  Box_new handle_custom_chars jahia_resource_default_value twitter_transform env
          parse_qs_query urlencode template_key layout_default_value
          get_redirected_url isdigit parse render slugify set_sort_infos
          element multibox is_in_sidebar
  = (Ok tt,
     {| type := getAttribute element "jcr:primaryType";
        shortcode_name := "";
        title := get_tag_attribute element "boxTitle" "jahia:value";
        content :=
          Soup.post_process parse render slugify
            ("[" +:+ getAttribute element "jcr:primaryType" +:+ "]");
        is_in_sidebar := false;
        shortcode_attributes_to_fix := [];
        registered := [] |}).
Proof.
  set (raw := getAttribute element "jcr:primaryType").
  intros Hne Hid Htag Hsort.
  assert (Hlook : types !! raw = None).
  { apply not_elem_of_list_to_map_1. intros Hin. apply Hid.
    now apply list_elem_of_In. }
  assert (Hd : forall t, In t (map snd types_table) ->
                         String.eqb t raw = false /\ String.eqb raw t = false).
  { intros t Hin. split; apply String.eqb_neq; intros Heq; apply Htag;
      [rewrite <- Heq | rewrite Heq]; exact Hin. }
  apply String.eqb_neq in Hne.
  unfold Box_new, Box_init, bind. cbn [set_type_attr set_shortcode_name].
  rewrite set_type_unfold. fold raw. cbv zeta. rewrite Hne, Hlook.
  cbn [default set_type_attr set_title set_content_attr get type].
  rewrite Hne. cbn [negb].
  unfold set_content, bind, lift. rewrite Hsort. cbn [get type].
  unfold transformer.
  repeat match goal with
         | |- context [String.eqb raw ?t] =>
             let Hin := fresh "Hin" in
             assert (Hin : In t (map snd types_table)) by (vm_compute; tauto);
             rewrite (proj2 (Hd t Hin)); clear Hin
         | |- context [String.eqb ?t raw] =>
             let Hin := fresh "Hin" in
             assert (Hin : In t (map snd types_table)) by (vm_compute; tauto);
             rewrite (proj1 (Hd t Hin)); clear Hin
         end.
  cbn [orb]. unfold set_box_unknown, fix_content, bind, get.
  cbn [set_content_attr content]. fold raw. reflexivity.
Qed.

End WithCollaborators.

Lemma Box_new_unknown_type_witness :
  content
    (snd (Box_new (fun s => s) (fun _ => Ok None) (fun s => Ok s) Samples.site_env
            (fun _ => ∅) (fun _ => "") (fun _ => Ok "") (fun _ => Ok None)
            (fun url => Ok url) (fun _ => false) (fun _ => []) (fun _ => "")
            (fun s => s) (fun _ => Ok tt) Samples.foreign_box false true))
  = Soup.post_process (fun _ => []) (fun _ => "") (fun s => s) "[epfl:weatherBox]".
Proof.
  rewrite (Box_new_unknown_type
             (fun s => s) (fun _ => Ok None) (fun s => Ok s) Samples.site_env
             (fun _ => ∅) (fun _ => "") (fun _ => Ok "") (fun _ => Ok None)
             (fun url => Ok url) (fun _ => false) (fun _ => []) (fun _ => "")
             (fun s => s) (fun _ => Ok tt) Samples.foreign_box false true).
  - reflexivity.
  - discriminate.
  - vm_compute. intuition discriminate.
  - vm_compute. intuition discriminate.
  - reflexivity.
Defined.

End DispatchFacts.

(* ===================================================================== *)
(** ** The snippets without sort descriptor *)

Module SnippetsFacts.
Import PyStr PyStrFacts Dom BoxPy BoxMore SortFacts.

(** X28: Without sort descriptor, a snippets box holds the heading of its title
    and one shortcode for each snippet, in document order. *)
Theorem set_box_snippets_document_order
        (handle_custom_chars : string -> string) (env : Env)
        (element first : node) (rest : list node) (self : Box) :
  getElementsByTagName element "snippetListList" = first :: rest ->
  getAttribute first "jahia:sortHandler" = "" ->
  fst (set_box_snippets handle_custom_chars env element self) = Ok tt
  /\ content (snd (set_box_snippets handle_custom_chars env element self))
     = (if negb (String.eqb (title self) "") then h3 (title self) else "")
         +:+ join "" (map (snippet_content handle_custom_chars env element)
                          (getElementsByTagName first "snippetList")).
Proof.
  intros Hlist Hsort. unfold set_box_snippets, bind, lift, get.
  cbn [set_shortcode_name register_shortcode]. rewrite Hlist.
  cbn [set_content_attr title content].
  unfold snippet_boxes_of. rewrite Hsort.
  cbn [sort_settings String.eqb negb rbind prescan_sort_tag truthy].
  unfold new_BoxSortedGroup.
  change (@nil (sort_key * string)) with (index_keyed []).
  rewrite (fold_left_index_keyed
             _ (snippet_content handle_custom_chars env element))
    by (intros g x _; reflexivity).
  cbn [app]. rewrite get_sorted_boxes_index_keyed.
  cbn [String.eqb Ascii.eqb Bool.eqb]. split; reflexivity.
Qed.

Lemma set_box_snippets_document_order_witness :
  content
    (snd (set_box_snippets (fun s => s) Samples.site_env
            (Element "main" []
               [Element "snippetListList" []
                  [Samples.snippet [] "one"; Samples.snippet [] "two"]])
            blank_box))
  = join ""
      (map (snippet_content (fun s => s) Samples.site_env
              (Element "main" []
                 [Element "snippetListList" []
                    [Samples.snippet [] "one"; Samples.snippet [] "two"]]))
           [Samples.snippet [] "one"; Samples.snippet [] "two"]).
Proof.
  apply (proj2 (set_box_snippets_document_order
                  (fun s => s) Samples.site_env
                  (Element "main" []
                     [Element "snippetListList" []
                        [Samples.snippet [] "one"; Samples.snippet [] "two"]])
                  (Element "snippetListList" []
                     [Samples.snippet [] "one"; Samples.snippet [] "two"])
                  [] blank_box eq_refl eq_refl)).
Defined.

End SnippetsFacts.

(* ===================================================================== *)
(** ** manage_redirections.py: the copy and the update *)

Module UpdateFacts.
Import PyStr PyStrFacts Redirections BoxMore RedirectionsMore.

(** X29: [_update_redirections] never writes the htaccess file: when the backup
    has been made, the rules are collected in a tuple, to which the last line
    is added as a [str], which raises a [TypeError] before
    [write_htaccess_content] is reached; without backup nothing is done. *)
Theorem update_redirections_never_writes
        (is_backup_created : bool) (source_site_url destination_site_url : string)
        (written : list str_or_tuple) :
  _update_redirections is_backup_created source_site_url destination_site_url
                       written
  = (if is_backup_created then Raise TypeError else Ok tt, written).
Proof. destruct is_backup_created; reflexivity. Qed.

Section Sites.

Variable root_dir_path : string.
Variable path_join : string -> string -> string.
Variable get_first_file_name : string -> string.
Variable get_directory_path_contains : string -> string.

(** X30: When the htaccess content has no part for the files (neither of its
    markers), [get_jahia_redirections] still ends its result with a line for
    them: the uploads path of the month of whatever file the source site
    names first for its root directory. *)
Theorem get_jahia_redirections_without_files_part (content month : string) :
  contains "# BEGIN Jahia-Files-Redirect" content = false ->
  contains "# END Jahia-Files-Redirect" content = false ->
  index_before_last
    (split "/" (get_directory_path_contains
                  (get_first_file_name (path_join root_dir_path ""))))
  = Ok month ->
  exists page,
    extract_htaccess_part content "Jahia-Page-Redirect" = Ok page
    /\ get_jahia_redirections root_dir_path path_join get_first_file_name
                              get_directory_path_contains content
       = Ok (page +:+ LF +:+ "wp-content/uploads/2018/" +:+ month +:+ "/$2").
Proof.
  intros Hbegin Hend Hmonth.
  assert (Hpage : exists page,
             extract_htaccess_part content "Jahia-Page-Redirect" = Ok page).
  { rewrite RedirectionsFacts.extract_htaccess_part_eq. cbv zeta.
    destruct (find _ content); [|now eexists].
    destruct (find _ content); now eexists. }
  destruct Hpage as [page Hpage]. exists page. split; [exact Hpage |].
  unfold get_jahia_redirections. rewrite Hpage. cbn [rbind].
  unfold extract_htaccess_part.
  change ("# BEGIN " +:+ "Jahia-Files-Redirect") with "# BEGIN Jahia-Files-Redirect".
  change ("# END " +:+ "Jahia-Files-Redirect") with "# END Jahia-Files-Redirect".
  rewrite Hbegin, Hend. cbn [negb andb rbind].
  unfold update_uploads_path.
  change (split " " "") with [""].
  cbn [first_starting_with startswith String.length Nat.sub stake].
  rewrite Hmonth. cbn [rbind]. unfold replace.
  cbn [String.eqb list_ascii_of_string map concat_strings fold_right join
       String.concat].
  now rewrite !append_empty_r.
Qed.

End Sites.

Lemma get_jahia_redirections_without_files_part_witness :
  get_jahia_redirections "/srv/site" (fun a b => a +:+ "/" +:+ b)
    (fun _ => "logo.png") (fun _ => "/srv/new/wp-content/uploads/2018/04/")
    ("# BEGIN Jahia-Page-Redirect" +:+ LF +:+ "Redirect 301 /a /b" +:+ LF
     +:+ "# END Jahia-Page-Redirect")
  = Ok ("# BEGIN Jahia-Page-Redirect" +:+ LF +:+ LF +:+ "Redirect 301 /a /b"
        +:+ LF +:+ LF +:+ "# END Jahia-Page-Redirect" +:+ LF
        +:+ "wp-content/uploads/2018/04/$2").
Proof.
  destruct (get_jahia_redirections_without_files_part
              "/srv/site" (fun a b => a +:+ "/" +:+ b)
              (fun _ => "logo.png") (fun _ => "/srv/new/wp-content/uploads/2018/04/")
              ("# BEGIN Jahia-Page-Redirect" +:+ LF +:+ "Redirect 301 /a /b" +:+ LF
               +:+ "# END Jahia-Page-Redirect")
              "04" eq_refl eq_refl eq_refl) as (page & Hpage & Hall).
  rewrite Hall. vm_compute in Hpage. injection Hpage as <-. reflexivity.
Defined.

End UpdateFacts.
